(** * nestjs-lab: registry replication engine

    A shallow embedding of the registry client
    ([commons/registry/client.ts]), the local export writers
    ([commons/registry/saveImage.ts]), the memory-gated queue service
    ([RegistryService], stored in [services/auth.service.ts]) and the
    recursive image copier ([copyImage]), with the properties that the
    specification states about them; then [AuthService], the construction
    of a client, the other writers and the first version of the copier,
    with further properties read off the code. *)

From Stdlib Require Import ZArith Lia String Ascii List Bool.
From Stdlib Require Import Strings.Byte.
From stdpp Require Import base tactics option list strings pretty gmap.

Local Open Scope string_scope.
Local Open Scope list_scope.
Local Open Scope Z_scope.

(** ** JavaScript values used by the sources *)

Module JS.

(** A JS [number] as the sources use it: an integer (sizes, status codes,
    byte counts all stay far below 2^53) or [NaN] (what [parseInt] gives
    on a header that is not numeric). *)
Inductive number : Type :=
| Num (z : Z)
| NaN.

(** [s.includes(sub)] *)
Definition includes (s sub : string) : bool :=
  match sub with
  | EmptyString => true
  | _ => match String.index 0 sub s with Some _ => true | None => false end
  end.

(** [s.endsWith(suffix)] *)
Definition endsWith (s suffix : string) : bool :=
  let n := String.length s in
  let k := String.length suffix in
  if (k <=? n)%nat then String.eqb (String.substring (n - k) k s) suffix else false.

(** [s.replace(':', '_')] with a string pattern: only the first
    occurrence is replaced. *)
Fixpoint replace_first (c d : ascii) (s : string) : string :=
  match s with
  | EmptyString => EmptyString
  | String a rest =>
      if Ascii.eqb a c then String d rest else String a (replace_first c d rest)
  end.

Definition is_digit (a : ascii) : bool :=
  let n := nat_of_ascii a in ((48 <=? n) && (n <=? 57))%nat.

Definition is_space (a : ascii) : bool :=
  let n := nat_of_ascii a in
  ((n =? 32) || (n =? 9) || (n =? 10) || (n =? 11) || (n =? 12) || (n =? 13))%nat.

Fixpoint skip_spaces (s : string) : string :=
  match s with
  | String a rest => if is_space a then skip_spaces rest else s
  | EmptyString => EmptyString
  end.

(** The digits at the head of [s], folded into [acc]; [None] when there is
    not even one. *)
Fixpoint digits (s : string) (acc : option Z) : option Z :=
  match s with
  | String a rest =>
      if is_digit a
      then digits rest (Some (10 * default 0 acc + (Z.of_nat (nat_of_ascii a) - 48)))
      else acc
  | EmptyString => acc
  end.

(** [parseInt(s, 10)]: leading white space, an optional sign, then the
    longest run of decimal digits; [NaN] without a digit. *)
Definition parseInt (s : string) : number :=
  match skip_spaces s with
  | String "-" rest => match digits rest None with Some z => Num (- z) | None => NaN end
  | String "+" rest => match digits rest None with Some z => Num z | None => NaN end
  | t => match digits t None with Some z => Num z | None => NaN end
  end.

(** A header value as [headers['x']]: [undefined] is [None]. *)
Definition header := option string.

(** [h || dflt] on a header: [undefined] and the empty string are falsy. *)
Definition or_default (h : header) (dflt : string) : string :=
  match h with
  | Some EmptyString | None => dflt
  | Some s => s
  end.

(** [!h] on a header. *)
Definition falsy (h : header) : bool :=
  match h with
  | Some EmptyString | None => true
  | Some _ => false
  end.

End JS.

(** ** Descriptors and manifests (the JSON documents of the registry API) *)

Definition Buffer : Type := list byte.

(** A member of a JSON object that the code never reads: its name and its
    value, as JSON text. *)
Definition Member : Type := (string * string)%type.

(** An entry of a manifest ([config], a layer, a child of an index): the
    three members that the code reads, and whatever else the entry holds
    ([urls], [annotations], [platform], ...). *)
Record Descriptor : Type := mkDescriptorWith {
  mediaType : string;
  digest : string;
  size : JS.number;
  others : list Member;
}.

(** [{ mediaType, digest, size }]: an entry with these three members only. *)
Definition mkDescriptor (mediaType digest : string) (size : JS.number) : Descriptor :=
  mkDescriptorWith mediaType digest size [].

(** A manifest document as the code reads it: [any] in the source, so each
    top-level field may be absent; reading a field of an absent one is a
    [TypeError]. [docOthers] are the top-level members that the code never
    reads ([annotations], [subject], ...). *)
Record ManifestDoc : Type := mkDocument {
  schemaVersion : Z;
  docMediaType : option string;
  config : option Descriptor;
  layers : option (list Descriptor);
  manifests : option (list Descriptor);
  docOthers : list Member;
}.

(** A document with these members only. *)
Definition mkManifestDoc (schemaVersion : Z) (docMediaType : option string)
    (config : option Descriptor) (layers manifests : option (list Descriptor))
  : ManifestDoc :=
  mkDocument schemaVersion docMediaType config layers manifests [].

(** ** Local export writer: [saveAsOCIImageLayout] (saveImage.ts) *)

Module SaveImage.

Definition TAR : string := "application/vnd.oci.image.layer.v1.tar".
Definition TAR_GZIP : string := "application/vnd.oci.image.layer.v1.tar+gzip".
Definition OCI_CONFIG : string := "application/vnd.oci.image.config.v1+json".
Definition OCI_MANIFEST : string := "application/vnd.oci.image.manifest.v1+json".

(** [buffer[0] === 0x1f && buffer[1] === 0x8b]; an index past the end
    reads [undefined]. *)
Definition isProbablyGzip (buffer : Buffer) : bool :=
  match buffer !! 0%nat with
  | Some b0 =>
      Byte.eqb b0 x1f &&
      match buffer !! 1%nat with
      | Some b1 => Byte.eqb b1 x8b
      | None => false
      end
  | None => false
  end.

Record Image : Type := mkImage {
  manifest : ManifestDoc;
  img_config : Buffer;
  img_layers : list Buffer;
}.

Record Meta : Type := mkMeta { repository : string; tag : string }.

(** The manifest object built by the writer (no top-level media type). *)
Record OCIManifest : Type := mkOCIManifest {
  m_schemaVersion : Z;
  m_config : Descriptor;
  m_layers : list Descriptor;
}.

Record IndexEntry : Type := mkIndexEntry {
  e_mediaType : string;
  e_digest : string;
  e_size : JS.number;
  e_ref_name : string;   (* annotations['org.opencontainers.image.ref.name'] *)
}.

Record Index : Type := mkIndex {
  i_schemaVersion : Z;
  i_manifests : list IndexEntry;
}.

(** The output directory: [oci-layout], the files of [blobs/sha256] by
    name, and [index.json]. *)
Record Layout : Type := mkLayout {
  oci_layout : string;
  blobs : gmap string Buffer;
  index_json : Index;
}.

Section Writer.
(** [crypto.createHash('sha256').update(data).digest('hex')],
    [zlib.gzipSync] and [Buffer.from(JSON.stringify(manifest, null, 2))]
    are the platform's. *)
Variable sha256hex : Buffer -> string.
Variable gzipSync : Buffer -> Buffer.
Variable stringify : OCIManifest -> Buffer.

Definition writeBlob (data : Buffer) (dir : gmap string Buffer)
  : string * gmap string Buffer :=
  let digest := sha256hex data in
  (digest, <[digest := data]> dir).

(** The body of the [for (const layer of image.layers)] loop up to the
    two [push]es: the bytes to store and their media type. *)
Definition layerData (useGzip : option bool) (layer : Buffer) : Buffer * string :=
  match useGzip with
  | None =>
      let shouldGzip := negb (isProbablyGzip layer) in
      (if shouldGzip then gzipSync layer else layer,
       if shouldGzip then TAR_GZIP else TAR)
  | Some useGzip =>
      (if useGzip then gzipSync layer else layer,
       if useGzip then TAR_GZIP else TAR)
  end.

Record LoopState : Type := mkLoopState {
  layerDigests : list string;
  outputLayers : list Buffer;
  mediaTypes : list string;
  dir : gmap string Buffer;
}.

Definition loop_step (useGzip : option bool) (st : LoopState) (layer : Buffer)
  : LoopState :=
  let '(data, mediaType) := layerData useGzip layer in
  let outputLayers' := outputLayers st ++ [data] in
  let mediaTypes' := mediaTypes st ++ [mediaType] in
  let '(digest, dir') := writeBlob data (dir st) in
  mkLoopState (layerDigests st ++ [digest]) outputLayers' mediaTypes' dir'.

Definition loop (useGzip : option bool) (st : LoopState) (ls : list Buffer)
  : LoopState :=
  fold_left (loop_step useGzip) ls st.

(** [layerDigests.map((digest, i) => ({ mediaType: mediaTypes[i],
    digest: `sha256:${digest}`, size: outputLayers[i].length }))];
    [outputLayers[i].length] on a missing entry throws. *)
Definition layer_descriptor (st : LoopState) (i : nat) (digest : string)
  : option Descriptor :=
  mt ← mediaTypes st !! i;
  data ← outputLayers st !! i;
  Some (mkDescriptor mt ("sha256:" +:+ digest) (JS.Num (Z.of_nat (length data)))).

Definition layer_descriptors (st : LoopState) : option (list Descriptor) :=
  mapM (fun '(i, d) => layer_descriptor st i d) (imap pair (layerDigests st)).

(** [saveAsOCIImageLayout(image, outputDir, meta, useGzip)], run in an
    output directory whose [blobs/sha256] holds [dir0]. [None] is the
    [TypeError] of [layer_descriptor]. *)
Definition saveAsOCIImageLayout (image : Image) (dir0 : gmap string Buffer)
    (meta : Meta) (useGzip : option bool) : option (OCIManifest * Layout) :=
  let '(configDigest, dir1) := writeBlob (img_config image) dir0 in
  let st := loop useGzip (mkLoopState [] [] [] dir1) (img_layers image) in
  descs ← layer_descriptors st;
  let manifest :=
    mkOCIManifest 2
      (mkDescriptor OCI_CONFIG ("sha256:" +:+ configDigest)
         (JS.Num (Z.of_nat (length (img_config image)))))
      descs in
  let manifestBuf := stringify manifest in
  let '(manifestDigest, dir2) := writeBlob manifestBuf (dir st) in
  let index :=
    mkIndex 2
      [mkIndexEntry OCI_MANIFEST ("sha256:" +:+ manifestDigest)
         (JS.Num (Z.of_nat (length manifestBuf))) (tag meta)] in
  Some (manifest, mkLayout "1.0.0" dir2 index).

End Writer.

End SaveImage.

(** ** The host environment: HTTP, process and system memory, timers *)

Module Http.

Inductive Method : Type := GET | HEAD | POST | PUT.

(** A readable stream: the bytes it yields, and whether it ends cleanly
    ([intact = false]: it emits an error after those bytes). *)
Record Stream : Type := mkStream { bytes : Buffer; intact : bool }.

(** What a request carries. *)
Inductive Body : Type :=
| BNone
| BManifest (doc : ManifestDoc)        (* a manifest or index document, as JSON *)
| BStream (s : Stream)
| BBuffer (b : Buffer).

(** A response body read as JSON ([response.data] of axios, [res.json()]):
    a manifest or index document, an object read for its [location], or
    nothing of use. *)
Inductive Json : Type :=
| JNone
| JManifest (doc : ManifestDoc)
| JLocation (loc : JS.header).

(** One request as the code issues it. [base] is the [baseURL] of the axios
    instance ([None] for global [axios], [fetch], [undici] and [https]). *)
Record Request : Type := mkRequest {
  method : Method;
  base : option string;
  url : string;
  headers : list (string * string);
  maxRedirects : option Z;
  body : Body;
}.

Record Response : Type := mkResponse {
  status : Z;
  location : JS.header;
  contentLength : JS.header;
  contentType : JS.header;
  dockerContentDigest : JS.header;
  data : Json;                 (* the body, read as JSON *)
  stream : Stream;             (* the body, read as a stream *)
}.

End Http.

(** [process.memoryUsage()] *)
Record MemoryUsage : Type := mkMemoryUsage {
  rss : Z;
  heapTotal : Z;
  heapUsed : Z;
  external : Z;
  arrayBuffers : Z;
}.

(** What the code asks of its environment, over a world [W] that only the
    environment changes: by answering a request and by letting time pass. *)
Class Host (W : Type) : Type := {
  memoryUsage : W -> MemoryUsage;                       (* process.memoryUsage() *)
  freemem : W -> Z;                                     (* os.freemem() *)
  elapse : Z -> W -> W;                                 (* setTimeout(resolve, ms) fires *)
  http : Http.Request -> W -> option Http.Response * W; (* [None]: no response *)
  url_ok : string -> bool;                              (* [new URL(s)] does not throw *)
  unlink_denied : string -> W -> bool;                  (* unlinkSync fails on a file that exists *)
}.

Inductive Level : Type := LOG | WARN.

Inductive Event : Type :=
| EvRequest (r : Http.Request)
| EvSleep (ms : Z)
| EvLog (lvl : Level) (msg : string).

Inductive Error : Type :=
| NoResponse                         (* the request itself failed *)
| BadStatus (status : Z)             (* rejected by [validateStatus] *)
| JsError (msg : string)             (* [throw new Error(msg)] *)
| TypeError                          (* a property read on [undefined] *)
| StreamError                        (* a stream ended with an error *)
| InvalidArgument                    (* undici: [Content-Length] is not a number *)
| LengthMismatch.                    (* undici: the body is not as long as announced *)

Inductive outcome (A : Type) : Type :=
| Ok (a : A)
| Throw (e : Error)
| Pending.                           (* still waiting when the fuel ran out *)
Arguments Ok {A} a.
Arguments Throw {A} e.
Arguments Pending {A}.

Record State (W : Type) : Type := mkState {
  world : W;
  trace : list Event;                (* oldest first *)
  tmp : gmap string Buffer;          (* the files of TMP_DIR *)
}.
Arguments mkState {W}.
Arguments world {W}.
Arguments trace {W}.
Arguments tmp {W}.

(** Async code as a state-and-exception monad. *)
Definition M (W A : Type) : Type := State W -> outcome A * State W.

Definition ret {W A} (a : A) : M W A := fun st => (Ok a, st).
Definition throw {W A} (e : Error) : M W A := fun st => (Throw e, st).
Definition pending {W A} : M W A := fun st => (Pending, st).

Definition bind {W A B} (m : M W A) (k : A -> M W B) : M W B :=
  fun st =>
    match m st with
    | (Ok a, st') => k a st'
    | (Throw e, st') => (Throw e, st')
    | (Pending, st') => (Pending, st')
    end.

Notation "x <- m ;; k" := (bind m (fun x => k))
  (at level 66, m at next level, right associativity).
Notation "m ;;; k" := (bind m (fun _ => k))
  (at level 66, right associativity).

(** [try { m } catch (e) { h e }] *)
Definition try_catch {W A} (m : M W A) (h : Error -> M W A) : M W A :=
  fun st =>
    match m st with
    | (Throw e, st') => h e st'
    | r => r
    end.

Definition emit {W} (e : Event) : M W unit :=
  fun st => (Ok tt, mkState (world st) (trace st ++ [e]) (tmp st)).

Definition log {W} (lvl : Level) (msg : string) : M W unit := emit (EvLog lvl msg).

(** [for (const x of xs) await f(x)] *)
Fixpoint for_of {W A} (xs : list A) (f : A -> M W unit) : M W unit :=
  match xs with
  | [] => ret tt
  | x :: rest => f x ;;; for_of rest f
  end.

(** The tasks of a [Promise.all(xs.map(f))], taken in list order: every
    task runs whether or not an earlier one rejected (nothing cancels a
    started promise), and each one's outcome is kept. *)
Fixpoint settle_all {W A} (xs : list A) (f : A -> M W unit)
  : State W -> list (outcome unit) * State W :=
  fun st =>
    match xs with
    | [] => ([], st)
    | x :: rest =>
        let '(o, st1) := f x st in
        let '(os, st2) := settle_all rest f st1 in
        (o :: os, st2)
    end.

(** The first outcome that is not a fulfilment, if any. *)
Fixpoint first_failure (os : list (outcome unit)) : outcome unit :=
  match os with
  | [] => Ok tt
  | Ok _ :: rest => first_failure rest
  | o :: _ => o
  end.

(** [await Promise.all(xs.map(f))] *)
Definition promise_all {W A} (xs : list A) (f : A -> M W unit) : M W unit :=
  fun st => let '(os, st') := settle_all xs f st in (first_failure os, st').

Section HostOps.
Context {W : Type} `{Host W}.

Definition sleep (ms : Z) : M W unit :=
  fun st => (Ok tt, mkState (elapse ms (world st)) (trace st ++ [EvSleep ms]) (tmp st)).

(** Send a request and hand back whatever comes. *)
Definition send (r : Http.Request) : M W Http.Response :=
  fun st =>
    let '(resp, w') := http r (world st) in
    let st' := mkState w' (trace st ++ [EvRequest r]) (tmp st) in
    match resp with
    | Some resp => (Ok resp, st')
    | None => (Throw NoResponse, st')
    end.

(** axios: the promise rejects unless [validateStatus(status)]. *)
Definition axios (validateStatus : Z -> bool) (r : Http.Request) : M W Http.Response :=
  resp <- send r ;;
  if validateStatus (Http.status resp) then ret resp else throw (BadStatus (Http.status resp)).

Definition status_2xx (s : Z) : bool := (200 <=? s) && (s <? 300).

Definition get_world : M W W := fun st => (Ok (world st), st).

End HostOps.

Definition DOCKER_MANIFEST_V2 : string := "application/vnd.docker.distribution.manifest.v2+json".
Definition OCTET_STREAM : string := "application/octet-stream".

(** [n.toString()] *)
Definition toString (n : JS.number) : string :=
  match n with
  | JS.Num z => pretty z
  | JS.NaN => "NaN"
  end.

(** What [pullBlobAsStream] resolves to. *)
Record PulledBlob : Type := mkPulledBlob {
  pb_stream : Http.Stream;
  pb_digest : string;
  pb_size : JS.number;
}.

(** [`${uploadUrl}${uploadUrl.includes('?') ? '&' : '?'}digest=${digest}`];
    [uploadUrl.includes] on [undefined] throws. *)
Definition finalUrl (uploadUrl : JS.header) (digest : string) : option string :=
  match uploadUrl with
  | Some u => Some (u +:+ (if JS.includes u "?" then "&" else "?") +:+ "digest=" +:+ digest)
  | None => None
  end.

(** A request with a stream as its body rejects when the stream errors
    before its end: [Http.intact] tells. *)

(** What undici's [request] does with a [Content-Length] header beside a
    stream body, before any response: a header that is not a number is
    refused at once ([InvalidArgumentError]), and the bytes are counted as
    they are written, so that a stream which gives more than was announced,
    or ends with less, rejects with [RequestContentLengthMismatchError].
    The request is then given up: the server is sent no complete message
    and answers nothing, and the trace, which records the requests that
    were handed over whole, does not list it. A stream that breaks before
    it has given more than was announced fails with its own error. *)
Definition undici_refuses (stream : Http.Stream) (size : JS.number) : option Error :=
  match size with
  | JS.NaN => Some InvalidArgument
  | JS.Num n =>
      let given := Z.of_nat (length (Http.bytes stream)) in
      if (n <? given) || (Http.intact stream && (given <? n))
      then Some LengthMismatch
      else None
  end.

(** ** [ContainerRegistryClient] (commons/registry/client.ts) *)

Module Client.

Record Options : Type := mkOptions {
  baseUrl : string;
  instanceHeaders : list (string * string);     (* of [this.axios] *)
  memoryThresholdBytes : option Z;
}.

(** [options.memoryThresholdBytes ?? 3 * 1024 * 1024 * 1024] *)
Definition memoryThreshold (o : Options) : Z :=
  default (3 * 1024 * 1024 * 1024) (memoryThresholdBytes o).

Record Layer : Type := mkLayer { l_data : Buffer; isGzip : bool }.

Section Methods.
Context {W : Type} `{Host W}.
Variable self : Options.
Variable sha256hex : Buffer -> string.
Variable gzipSync : Buffer -> Buffer.
(** How many polls of the memory gate the run is followed for. *)
Variable fuel : nat.

(** A request through [this.axios]. *)
Definition req (m : Http.Method) (u : string) (hs : list (string * string))
    (redirects : option Z) (b : Http.Body) : Http.Request :=
  Http.mkRequest m (Some (baseUrl self)) u (instanceHeaders self ++ hs) redirects b.

(** [while (os.freemem() < this.memoryThreshold) { warn; await 1 s }] *)
Fixpoint gate (n : nat) : M W unit :=
  match n with
  | O => pending
  | S n' =>
      w <- get_world ;;
      if freemem w <? memoryThreshold self
      then log WARN "Memory low, delaying task..." ;;; sleep 1000 ;;; gate n'
      else ret tt
  end.

Definition waitForMemoryAvailability : M W unit := gate fuel.

Definition getImageManifest (repository tag : string) : M W Http.Json :=
  response <- axios status_2xx
    (req Http.GET ("/v2/" +:+ repository +:+ "/manifests/" +:+ tag) [] None Http.BNone) ;;
  ret (Http.data response).

Definition redirect_status (s : Z) : bool := (s =? 302) || (s =? 307).

Definition pullBlobAsStream (repository digest : string) : M W PulledBlob :=
  waitForMemoryAvailability ;;;
  response <- axios (fun s => (s =? 200) || (s =? 302) || (s =? 307))
    (req Http.GET ("/v2/" +:+ repository +:+ "/blobs/" +:+ digest) [] (Some 0) Http.BNone) ;;
  if redirect_status (Http.status response) then
    match Http.location response with
    | Some (String a l as location) =>
        redirected <- axios status_2xx
          (Http.mkRequest Http.GET None location [] None Http.BNone) ;;
        ret (mkPulledBlob (Http.stream redirected) digest
               (JS.parseInt (JS.or_default (Http.contentLength redirected) "0")))
    | _ => throw (JsError "Missing redirect location")
    end
  else
    ret (mkPulledBlob (Http.stream response) digest
           (JS.parseInt (JS.or_default (Http.contentLength response) "0"))).

(** [response.data.location || response.headers['location']] *)
Definition startBlobUpload (repository : string) : M W JS.header :=
  response <- axios (fun s => s =? 202)
    (req Http.POST ("/v2/" +:+ repository +:+ "/blobs/uploads/")
       [("Content-Length", "0")] (Some 0) Http.BNone) ;;
  match Http.data response with
  | Http.JLocation (Some (String a l as loc)) => ret (Some loc)
  | _ => ret (Http.location response)
  end.

Definition pushBlobStream (repository digest : string) (stream : Http.Stream)
    (size : JS.number) : M W unit :=
  waitForMemoryAvailability ;;;
  uploadUrl <- startBlobUpload repository ;;
  match finalUrl uploadUrl digest with
  | None => throw TypeError
  | Some u =>
      match undici_refuses stream size with
      | Some e => throw e
      | None =>
          response <- send
            (Http.mkRequest Http.PUT None u
               [("Content-Type", OCTET_STREAM); ("Content-Length", toString size)]
               None (Http.BStream stream)) ;;
          if negb (Http.intact stream) then throw StreamError
          else if negb (Http.status response =? 201)
          then throw (JsError ("Failed to push blob: status "
                               +:+ pretty (Http.status response)))
          else ret tt
      end
  end.

(** [{ mediaType: layer.mediaType, size: layer.size, digest: layer.digest }]:
    a new entry, without the other members of [layer]. *)
Definition copy_descriptor (layer : Descriptor) : Descriptor :=
  mkDescriptor (mediaType layer) (digest layer) (size layer).

Definition put_manifest_request (destRepo destTag : string) (m : ManifestDoc)
  : Http.Request :=
  req Http.PUT ("/v2/" +:+ destRepo +:+ "/manifests/" +:+ destTag)
    [("Content-Type", DOCKER_MANIFEST_V2)] None (Http.BManifest m).

Definition syncImageWithBuffer (sourceRepo sourceTag destRepo destTag : string)
  : M W unit :=
  body <- getImageManifest sourceRepo sourceTag ;;
  match body with
  | Http.JManifest manifest =>
      match config manifest with
      | None => throw TypeError
      | Some cfg =>
          let configDigest := digest cfg in
          (* Pull and push config *)
          pulled <- pullBlobAsStream sourceRepo configDigest ;;
          let configSize := pb_size pulled in
          pushBlobStream destRepo configDigest (pb_stream pulled) configSize ;;;
          (* Pull and push each layer one-by-one *)
          match layers manifest with
          | None => throw TypeError
          | Some ls =>
              for_of ls (fun layer =>
                p <- pullBlobAsStream sourceRepo (digest layer) ;;
                pushBlobStream destRepo (digest layer) (pb_stream p) (pb_size p)) ;;;
              (* Rebuild manifest using original digests and sizes *)
              let newManifest :=
                mkManifestDoc 2 (Some DOCKER_MANIFEST_V2)
                  (Some (mkDescriptor (mediaType cfg) configDigest configSize))
                  (Some (map copy_descriptor ls))
                  None in
              axios status_2xx (put_manifest_request destRepo destTag newManifest) ;;;
              ret tt
          end
      end
  | _ => throw TypeError
  end.

(** [const { data: { location } } = await this.axios.post(...)], then
    [axios.put(`${location}&digest=${digest}`, blob, ...)]. *)
Definition uploadBlob (repository : string) (blob : Buffer) (digest : string)
  : M W unit :=
  response <- axios (fun s => s =? 202)
    (req Http.POST ("/v2/" +:+ repository +:+ "/blobs/uploads/")
       [("Content-Length", "0")] (Some 0) Http.BNone) ;;
  let location :=
    match Http.data response with
    | Http.JLocation (Some loc) => loc
    | _ => "undefined"
    end in
  axios status_2xx
    (req Http.PUT (location +:+ "&digest=" +:+ digest)
       [("Content-Type", OCTET_STREAM);
        ("Content-Length", pretty (Z.of_nat (length blob)))]
       (Some 0) (Http.BBuffer blob)) ;;;
  ret tt.

Definition sha256 (buffer : Buffer) : string := sha256hex buffer.

Definition dataToUpload (layer : Layer) : Buffer :=
  if negb (isGzip layer) then gzipSync (l_data layer) else l_data layer.

(** The [for (const layer of layers)] loop of [pushImage]. *)
Fixpoint push_layers (repository : string) (ls : list Layer) (layerDigests : list string)
  : M W (list string) :=
  match ls with
  | [] => ret layerDigests
  | layer :: rest =>
      let data := dataToUpload layer in
      let digest := "sha256:" +:+ sha256 data in
      uploadBlob repository data digest ;;;
      push_layers repository rest (layerDigests ++ [digest])
  end.

Definition DOCKER_CONFIG : string := "application/vnd.docker.container.image.v1+json".
Definition DOCKER_LAYER_GZIP : string := "application/vnd.docker.image.rootfs.diff.tar.gzip".

(** [layerDigests.map((digest, idx) => ({ ..., size: layers[idx].data.length, digest }))] *)
Definition layer_entry (ls : list Layer) (idx : nat) (digest : string)
  : option Descriptor :=
  layer ← ls !! idx;
  Some (mkDescriptor DOCKER_LAYER_GZIP digest (JS.Num (Z.of_nat (length (l_data layer))))).

Definition pushImage (repository tag : string) (manifest : ManifestDoc)
    (cfg : Buffer) (ls : list Layer) : M W unit :=
  (* Push config blob *)
  let configDigest := "sha256:" +:+ sha256 cfg in
  uploadBlob repository cfg configDigest ;;;
  (* Push layers *)
  layerDigests <- push_layers repository ls [] ;;
  (* Construct and push manifest *)
  match mapM (fun '(idx, d) => layer_entry ls idx d) (imap pair layerDigests) with
  | None => throw TypeError
  | Some entries =>
      let imageManifest :=
        mkManifestDoc 2 (Some DOCKER_MANIFEST_V2)
          (Some (mkDescriptor DOCKER_CONFIG configDigest (JS.Num (Z.of_nat (length cfg)))))
          (Some entries) None in
      axios status_2xx (put_manifest_request repository tag imageManifest) ;;;
      ret tt
  end.

End Methods.

End Client.

(** ** p-queue, as far as [RegistryService] relies on it

    [size] is the number of jobs waiting in the queue class instance,
    [pending] the number of jobs that were started and have not settled. *)

Module PQueue.

Record t (Job : Type) : Type := mk {
  waiting : list Job;          (* the queue class instance, oldest first *)
  running : list Job;          (* started, not settled *)
  concurrency : Z;
}.
Arguments mk {Job}.
Arguments waiting {Job}.
Arguments running {Job}.
Arguments concurrency {Job}.

Section Ops.
Context {Job : Type}.
(** The [enqueue] of the queue class in use: the new waiting list, or
    the error it throws. *)
Variable enqueue : list Job -> Job -> Error + list Job.

Definition size (q : t Job) : nat := length (waiting q).
Definition pending (q : t Job) : nat := length (running q).

(** Start the oldest waiting job if [pending < concurrency]. *)
Definition tryToStartAnother (q : t Job) : bool * t Job :=
  match waiting q with
  | [] => (false, q)
  | job :: rest =>
      if Z.of_nat (pending q) <? concurrency q
      then (true, mk rest (running q ++ [job]) (concurrency q))
      else (false, q)
  end.

(** [queue.add(job)]: enqueue, then start another job if one may start. *)
Definition add (q : t Job) (job : Job) : Error + t Job :=
  match enqueue (waiting q) job with
  | inl e => inl e
  | inr w => inr (snd (tryToStartAnother (mk w (running q) (concurrency q))))
  end.

(** [while (this._tryToStartAnother()) {}] *)
Fixpoint processQueue (n : nat) (q : t Job) : t Job :=
  match n with
  | O => q
  | S n' =>
      let '(started, q') := tryToStartAnother q in
      if started then processQueue n' q' else q'
  end.

(** [queue.concurrency = c] *)
Definition set_concurrency (q : t Job) (c : Z) : t Job :=
  processQueue (size q) (mk (waiting q) (running q) c).

End Ops.

End PQueue.

(** ** The client that [ContainerRegistryClientFactory.create] builds
    (registry.client.ts, kept in commons/Readme2) *)

Module FactoryClient.

Section Methods.
Context {W : Type} `{Host W}.
Variable baseUrl : string.

Definition req (m : Http.Method) (u : string) (hs : list (string * string))
    (b : Http.Body) : Http.Request :=
  Http.mkRequest m (Some baseUrl) u (("Accept", DOCKER_MANIFEST_V2) :: hs) None b.

Definition getManifest (repository tag : string) : M W Http.Json :=
  res <- axios status_2xx
    (req Http.GET ("/v2/" +:+ repository +:+ "/manifests/" +:+ tag) [] Http.BNone) ;;
  ret (Http.data res).

Definition pullBlobAsStream (repository digest : string) : M W PulledBlob :=
  res <- axios status_2xx
    (req Http.GET ("/v2/" +:+ repository +:+ "/blobs/" +:+ digest) [] Http.BNone) ;;
  ret (mkPulledBlob (Http.stream res) digest
         (JS.parseInt (JS.or_default (Http.contentLength res) "0"))).

Definition startBlobUpload (repository : string) : M W JS.header :=
  response <- axios status_2xx
    (req Http.POST ("/v2/" +:+ repository +:+ "/blobs/uploads/")
       [("Content-Length", "0")] Http.BNone) ;;
  match Http.data response with
  | Http.JLocation (Some (String a l as loc)) => ret (Some loc)
  | _ => ret (Http.location response)
  end.

Definition pushBlobStream (repository digest : string) (stream : Http.Stream)
    (size : JS.number) : M W unit :=
  uploadUrl <- startBlobUpload repository ;;
  match finalUrl uploadUrl digest with
  | None => throw TypeError
  | Some u =>
      match undici_refuses stream size with
      | Some e => throw e
      | None =>
          response <- send
            (Http.mkRequest Http.PUT None u
               [("Content-Type", OCTET_STREAM); ("Content-Length", toString size)]
               None (Http.BStream stream)) ;;
          if negb (Http.intact stream) then throw StreamError
          else if negb (Http.status response =? 201)
          then throw (JsError ("Failed to push blob: status "
                               +:+ pretty (Http.status response)))
          else ret tt
      end
  end.

Definition put_manifest_request (repository tag : string) (manifest : ManifestDoc)
  : Http.Request :=
  req Http.PUT ("/v2/" +:+ repository +:+ "/manifests/" +:+ tag)
    [("Content-Type", DOCKER_MANIFEST_V2)] (Http.BManifest manifest).

Definition putManifest (repository tag : string) (manifest : ManifestDoc) : M W unit :=
  axios status_2xx (put_manifest_request repository tag manifest) ;;; ret tt.

End Methods.

End FactoryClient.

(** ** [RegistryService] (registry.service.ts, stored in services/auth.service.ts) *)

Module RegistryService.

Definition DEFAULT_CONCURRENCY : Z := 5.
Definition MAX_CONCURRENCY : Z := 10.
Definition MIN_CONCURRENCY : Z := 1.
Definition MEMORY_THRESHOLD : Z := 3 * 1024 * 1024 * 1024.
Definition MAX_QUEUE_SIZE : nat := 1000.

Definition QUEUE_OVERFLOW : Error :=
  JsError "Queue overflow: too many concurrent requests".

(** The [enqueue] of the queue class handed to [new PQueue]:
    [if (this.size >= MAX_QUEUE_SIZE) throw ...; return super.enqueue(run, options)].
    The service never passes a priority, so [super.enqueue] appends. *)
Definition enqueue {Job : Type} (queue : list Job) (run : Job) : Error + list Job :=
  if (MAX_QUEUE_SIZE <=? length queue)%nat then inl QUEUE_OVERFLOW
  else inr (queue ++ [run]).

(** [new PQueue({ concurrency: DEFAULT_CONCURRENCY, queueClass })] *)
Definition new_queue {Job : Type} : PQueue.t Job := PQueue.mk [] [] DEFAULT_CONCURRENCY.

Definition add {Job : Type} (q : PQueue.t Job) (job : Job) : Error + PQueue.t Job :=
  PQueue.add enqueue q job.

(** [heapUsed + external + arrayBuffers] *)
Definition usedMemory (mem : MemoryUsage) : Z :=
  heapUsed mem + external mem + arrayBuffers mem.

(** [adjustConcurrency], on the queue (its two log lines left out). *)
Definition adjustConcurrency {Job : Type} (memUsage : MemoryUsage) (q : PQueue.t Job)
  : PQueue.t Job :=
  if usedMemory memUsage >? MEMORY_THRESHOLD
  then PQueue.set_concurrency q (Z.max MIN_CONCURRENCY (PQueue.concurrency q - 1))
  else if PQueue.concurrency q <? MAX_CONCURRENCY
       then PQueue.set_concurrency q (PQueue.concurrency q + 1)
       else q.

Record BlobFile : Type := mkBlobFile {
  bf_digest : string;
  bf_size : Z;
  filePath : string;
}.

Section Service.
Context {W : Type} `{Host W}.
Variable TMP_DIR : string.
(** How many polls of the memory gate the run is followed for. *)
Variable fuel : nat.

(** [while (true) { ...; if (totalUsed < MEMORY_THRESHOLD) return; warn; await 1 s }] *)
Fixpoint gate (n : nat) : M W unit :=
  match n with
  | O => pending
  | S n' =>
      w <- get_world ;;
      let totalUsed := usedMemory (memoryUsage w) in
      if totalUsed <? MEMORY_THRESHOLD then ret tt
      else log WARN "Memory usage high, delaying task..." ;;; sleep 1000 ;;; gate n'
  end.

Definition waitForMemoryAvailability : M W unit := gate fuel.

Definition image_name (registry repo tag : string) : string :=
  registry +:+ "/" +:+ repo +:+ ":" +:+ tag.

(** [manifest.config.digest] on whatever [getManifest] returned. *)
Definition config_digest (manifest : Http.Json) : option (ManifestDoc * string) :=
  match manifest with
  | Http.JManifest doc => (fun cfg => (doc, digest cfg)) <$> config doc
  | _ => None
  end.

(** One config or layer transfer of [syncImageWithBuffer]. *)
Definition transfer (sourceRegistry sourceRepo destRegistry destRepo digest : string)
  : M W unit :=
  p <- FactoryClient.pullBlobAsStream sourceRegistry sourceRepo digest ;;
  FactoryClient.pushBlobStream destRegistry destRepo digest (pb_stream p) (pb_size p).

(** Every blob transfer of [syncImageWithBuffer]: the config, then the
    layers one by one. *)
Definition transfer_blobs (sourceRegistry sourceRepo destRegistry destRepo : string)
    (manifest : ManifestDoc) (configDigest : string) : M W unit :=
  transfer sourceRegistry sourceRepo destRegistry destRepo configDigest ;;;
  match layers manifest with
  | None => throw TypeError
  | Some ls =>
      for_of ls (fun layer =>
        transfer sourceRegistry sourceRepo destRegistry destRepo (digest layer))
  end.

(** The start of both sync tasks: the memory gate, the first log line
    and the manifest. *)
Definition fetch_source (mode sourceRegistry sourceRepo sourceTag
    destRegistry destRepo destTag : string) : M W Http.Json :=
  waitForMemoryAvailability ;;;
  log LOG ("[" +:+ mode +:+ "] Start syncing "
           +:+ image_name sourceRegistry sourceRepo sourceTag
           +:+ " → " +:+ image_name destRegistry destRepo destTag) ;;;
  FactoryClient.getManifest sourceRegistry sourceRepo sourceTag.

(** The task that [syncImageWithBuffer] adds to the queue. *)
Definition syncImageWithBuffer
    (sourceRegistry sourceRepo sourceTag destRegistry destRepo destTag : string)
  : M W unit :=
  manifest <- fetch_source "Buffer" sourceRegistry sourceRepo sourceTag
                destRegistry destRepo destTag ;;
  match config_digest manifest with
  | None => throw TypeError
  | Some (manifest, configDigest) =>
      transfer_blobs sourceRegistry sourceRepo destRegistry destRepo manifest configDigest ;;;
      FactoryClient.putManifest destRegistry destRepo destTag manifest ;;;
      log LOG ("[Buffer] Sync complete for "
               +:+ image_name sourceRegistry sourceRepo sourceTag)
  end.

(** [path.join(TMP_DIR, `${digest.replace(':', '_')}.blob`)] *)
Definition blob_path (digest : string) : string :=
  TMP_DIR +:+ "/" +:+ JS.replace_first ":" "_" digest +:+ ".blob".

Definition write_file (path : string) (content : Buffer) : M W unit :=
  fun st => (Ok tt, mkState (world st) (trace st) (<[path := content]> (tmp st))).

(** [fs.createWriteStream(filePath)] followed by
    [pipelineAsync(stream, writeStream)]: the file holds what the stream
    gave before it ended or broke. *)
Definition downloadBlobToFile (registry repository digest filePath : string)
  : M W unit :=
  p <- FactoryClient.pullBlobAsStream registry repository digest ;;
  write_file filePath (Http.bytes (pb_stream p)) ;;;
  if Http.intact (pb_stream p) then ret tt else throw StreamError.

(** [fs.statSync(filePath).size] *)
Definition statSize (filePath : string) : M W Z :=
  fun st =>
    match tmp st !! filePath with
    | Some content => (Ok (Z.of_nat (length content)), st)
    | None => (Throw (JsError "ENOENT"), st)
    end.

Definition pushBlobFromFile (registry repository digest filePath : string)
  : M W unit :=
  uploadUrl <- FactoryClient.startBlobUpload registry repository ;;
  match finalUrl uploadUrl digest with
  | None => throw TypeError
  | Some u =>
      sz <- statSize filePath ;;
      content <- (fun st => (Ok (default [] (tmp st !! filePath)), st)) ;;
      res <- axios status_2xx
        (FactoryClient.req registry Http.PUT u
           [("Content-Type", OCTET_STREAM); ("Content-Length", pretty sz)]
           (Http.BStream (Http.mkStream content true))) ;;
      if negb (Http.status res =? 201)
      then throw (JsError ("Failed to push blob from file, status: "
                           +:+ pretty (Http.status res)))
      else ret tt
  end.

(** [fs.unlinkSync(path)] *)
Definition unlinkSync (path : string) : M W unit :=
  fun st =>
    match tmp st !! path with
    | None => (Throw (JsError "ENOENT"), st)
    | Some _ =>
        if unlink_denied path (world st) then (Throw (JsError "EPERM"), st)
        else (Ok tt, mkState (world st) (trace st) (delete path (tmp st)))
    end.

(** Step 5 of [syncImageWithTarball]. *)
Definition cleanup (blobs : list BlobFile) : M W unit :=
  for_of blobs (fun blob =>
    try_catch
      (unlinkSync (filePath blob) ;;;
       log LOG ("[Tarball] Cleaned up temp file: " +:+ filePath blob))
      (fun e => log WARN ("[Tarball] Failed to delete temp file: " +:+ filePath blob))).

(** The layer loop of step 2: each layer to its file, recorded in [blobs]
    once the file is complete. *)
Fixpoint download_layers (registry repo : string) (ls : list Descriptor)
    (blobs : list BlobFile) : M W (list BlobFile) :=
  match ls with
  | [] => ret blobs
  | layer :: rest =>
      let layerPath := blob_path (digest layer) in
      downloadBlobToFile registry repo (digest layer) layerPath ;;;
      download_layers registry repo rest (blobs ++ [mkBlobFile (digest layer) 0 layerPath])
  end.

(** Steps 1 to 4 of [syncImageWithTarball]: the manifest, every blob to
    its file, every file pushed, the manifest pushed. Hands on the list
    [blobs] of the files it recorded. *)
Definition stage_and_push
    (sourceRegistry sourceRepo sourceTag destRegistry destRepo destTag : string)
  : M W (list BlobFile) :=
  (* 1. manifest *)
  manifest <- fetch_source "Tarball" sourceRegistry sourceRepo sourceTag
                destRegistry destRepo destTag ;;
  match config_digest manifest with
  | None => throw TypeError
  | Some (manifest, configDigest) =>
      (* 2. every blob to a file of TMP_DIR *)
      let configPath := blob_path configDigest in
      downloadBlobToFile sourceRegistry sourceRepo configDigest configPath ;;;
      match layers manifest with
      | None => throw TypeError
      | Some ls =>
          blobs <- download_layers sourceRegistry sourceRepo ls
                     [mkBlobFile configDigest 0 configPath] ;;
          (* 3. push every blob from its file *)
          for_of blobs (fun blob =>
            pushBlobFromFile destRegistry destRepo (bf_digest blob) (filePath blob)) ;;;
          (* 4. push the manifest *)
          FactoryClient.putManifest destRegistry destRepo destTag manifest ;;;
          ret blobs
      end
  end.

(** The task that [syncImageWithTarball] adds to the queue: steps 1 to 4,
    then step 5, the removal of the files, and the last log line. *)
Definition syncImageWithTarball
    (sourceRegistry sourceRepo sourceTag destRegistry destRepo destTag : string)
  : M W unit :=
  blobs <- stage_and_push sourceRegistry sourceRepo sourceTag destRegistry destRepo destTag ;;
  (* 5. remove the files *)
  cleanup blobs ;;;
  log LOG ("[Tarball] Sync complete for "
           +:+ image_name sourceRegistry sourceRepo sourceTag).

End Service.

End RegistryService.

(** ** [copyImage] (the registry copier: the free functions of "ver 1" and
    the [RegistryCopyService] of "ver 3") *)

Module RegistryCopy.

Record ImageRef : Type := mkImageRef {
  registry : string;
  repository : string;
  reference : string;     (* tag or digest *)
  token : string;
}.

(** [{ ...ref, reference: r }] *)
Definition with_reference (ref : ImageRef) (r : string) : ImageRef :=
  mkImageRef (registry ref) (repository ref) r (token ref).

Definition ACCEPT_MANIFESTS : list string :=
  [ "application/vnd.docker.distribution.manifest.v2+json";
    "application/vnd.docker.distribution.manifest.list.v2+json";
    "application/vnd.oci.image.manifest.v1+json";
    "application/vnd.oci.image.index.v1+json" ].

(** [xs.join(', ')] *)
Fixpoint join (xs : list string) : string :=
  match xs with
  | [] => ""
  | [x] => x
  | x :: rest => x +:+ ", " +:+ join rest
  end.

Definition MAX_MEMORY_MB : Z := 300.
Definition MAX_BLOB_SIZE_BYTES : Z := 500 * 1024 * 1024.

(** [used.rss / 1024 / 1024 < MAX_MEMORY_MB], the division being exact. *)
Definition isMemorySafe (used : MemoryUsage) : bool :=
  rss used <? MAX_MEMORY_MB * 1024 * 1024.

Record Fetched : Type := mkFetched {
  f_manifest : ManifestDoc;
  f_mediaType : string;
  f_digest : string;
}.

Section Copier.
Context {W : Type} `{Host W}.

Definition bearer (ref : ImageRef) : string * string :=
  ("Authorization", "Bearer " +:+ token ref).

Definition blob_url (ref : ImageRef) (digest : string) : string :=
  "https://" +:+ registry ref +:+ "/v2/" +:+ repository ref +:+ "/blobs/" +:+ digest.

Definition manifest_url (ref : ImageRef) (reference : string) : string :=
  "https://" +:+ registry ref +:+ "/v2/" +:+ repository ref +:+ "/manifests/" +:+ reference.

(** [fetch(url, init)]: resolves with the response whatever its status. *)
Definition fetch (m : Http.Method) (u : string) (hs : list (string * string))
    (b : Http.Body) : M W Http.Response :=
  send (Http.mkRequest m None u hs None b).

Definition ok (res : Http.Response) : bool := status_2xx (Http.status res).

Definition checkBlobSize (ref : ImageRef) (digest : string) : M W JS.number :=
  res <- fetch Http.HEAD (blob_url ref digest) [bearer ref] Http.BNone ;;
  if negb (ok res)
  then throw (JsError ("Failed to HEAD blob " +:+ digest +:+ ": " +:+ pretty (Http.status res)))
  else
    let size :=
      match Http.contentLength res with
      | Some (String a l as sizeStr) => JS.parseInt sizeStr
      | _ => JS.NaN
      end in
    match size with
    | JS.NaN => throw (JsError ("Unknown blob size for " +:+ digest))
    | JS.Num n =>
        if n >? MAX_BLOB_SIZE_BYTES
        then throw (JsError ("Blob " +:+ digest +:+ " too large: " +:+ pretty n +:+ " bytes"))
        else ret size
    end.

Definition fetchManifest (ref : ImageRef) : M W Fetched :=
  res <- fetch Http.GET (manifest_url ref (reference ref))
           [bearer ref; ("Accept", join ACCEPT_MANIFESTS)] Http.BNone ;;
  if negb (ok res)
  then throw (JsError ("Failed to fetch manifest: " +:+ pretty (Http.status res)))
  else
    let mediaType := JS.or_default (Http.contentType res) "" in
    let digest := JS.or_default (Http.dockerContentDigest res) "" in
    match Http.data res with
    | Http.JManifest manifest => ret (mkFetched manifest mediaType digest)
    | _ => throw (JsError "invalid json response body")
    end.

Definition downloadBlob (ref : ImageRef) (digest : string) : M W Http.Stream :=
  res <- fetch Http.GET (blob_url ref digest) [bearer ref] Http.BNone ;;
  if negb (ok res)
  then throw (JsError ("Failed to download blob: " +:+ pretty (Http.status res)))
  else ret (Http.stream res).

Definition uploadViaPipeline (srcStream : Http.Stream) (ref : ImageRef) (digest : string)
  : M W unit :=
  startRes <- fetch Http.POST
    ("https://" +:+ registry ref +:+ "/v2/" +:+ repository ref +:+ "/blobs/uploads/")
    [bearer ref] Http.BNone ;;
  match Http.location startRes with
  | Some (String a l as location) =>
      let uploadUrl := location +:+ "&digest=" +:+ digest in
      if negb (url_ok uploadUrl) then throw TypeError
      else
        res <- send (Http.mkRequest Http.PUT None uploadUrl
                       [bearer ref; ("Content-Type", OCTET_STREAM)] None
                       (Http.BStream srcStream)) ;;
        if negb (Http.intact srcStream) then throw StreamError
        else if ok res then ret tt
        else throw (JsError ("Blob upload failed with status " +:+ pretty (Http.status res)))
  | _ => throw (JsError "Missing upload location")
  end.

Definition upload_manifest_request (ref : ImageRef) (manifest : ManifestDoc)
    (mediaType reference : string) : Http.Request :=
  Http.mkRequest Http.PUT None (manifest_url ref reference)
    [bearer ref; ("Content-Type", mediaType)] None (Http.BManifest manifest).

Definition uploadManifest (ref : ImageRef) (manifest : ManifestDoc)
    (mediaType reference : string) : M W unit :=
  res <- send (upload_manifest_request ref manifest mediaType reference) ;;
  if negb (ok res)
  then throw (JsError ("Failed to upload manifest: " +:+ pretty (Http.status res)))
  else ret tt.

Definition is_index (mediaType : string) : bool :=
  JS.includes mediaType "manifest.list" || JS.includes mediaType "image.index".

(** [manifest.layers.filter((l) => !l.mediaType.includes('foreign'))] *)
Definition layerBlobs (ls : list Descriptor) : list Descriptor :=
  List.filter (fun l => negb (JS.includes (mediaType l) "foreign")) ls.

Definition copied_message (src dest : ImageRef) (digest : string) : string :=
  "Image " +:+ repository src +:+ "@" +:+ digest +:+ " copied to "
  +:+ repository dest +:+ "@" +:+ reference dest.

(** *** ver 1 *)

Definition copy_blob_v1 (src dest : ImageRef) (digest : string) : M W unit :=
  stream <- downloadBlob src digest ;;
  uploadViaPipeline stream dest digest.

(** The part of [copyImage] that follows the dispatch on the media
    type, for a concrete manifest. *)
Definition copy_concrete_v1 (src dest : ImageRef) (f : Fetched) : M W unit :=
  match layers (f_manifest f) with
  | None => throw TypeError
  | Some ls =>
      promise_all (layerBlobs ls) (fun layer => copy_blob_v1 src dest (digest layer)) ;;;
      match config (f_manifest f) with
      | None => throw TypeError
      | Some cfg =>
          copy_blob_v1 src dest (digest cfg) ;;;
          uploadManifest dest (f_manifest f) (f_mediaType f) (reference dest) ;;;
          log LOG (copied_message src dest (f_digest f))
      end
  end.

(** [depth] bounds how deep an index may nest before the run is given up
    as still pending. *)
Fixpoint copyImage_v1 (depth : nat) (src dest : ImageRef) : M W unit :=
  match depth with
  | O => pending
  | S d =>
      f <- fetchManifest src ;;
      if is_index (f_mediaType f) then
        log LOG "Multi-arch manifest detected" ;;;
        match manifests (f_manifest f) with
        | None => throw TypeError
        | Some ms =>
            promise_all ms (fun m =>
              copyImage_v1 d (with_reference src (digest m))
                             (with_reference dest (digest m))) ;;;
            uploadManifest dest (f_manifest f) (f_mediaType f) (reference dest)
        end
      else copy_concrete_v1 src dest f
  end.

(** *** ver 3: [RegistryCopyService] *)

Definition check_memory (what : string) : M W unit :=
  let msg := "Memory usage too high — aborting " +:+ what +:+ " copy" in
  w <- get_world ;;
  if negb (isMemorySafe (memoryUsage w)) then throw (JsError msg) else ret tt.

(** One layer task: size probe, memory check, download, upload. *)
Definition copy_blob (what : string) (src dest : ImageRef) (digest : string) : M W unit :=
  checkBlobSize src digest ;;;
  check_memory what ;;;
  stream <- downloadBlob src digest ;;
  uploadViaPipeline stream dest digest.

(** Every blob transfer of a concrete manifest: the layers that are not
    foreign, then the config. *)
Definition copy_blobs (src dest : ImageRef) (manifest : ManifestDoc) : M W unit :=
  match layers manifest with
  | None => throw TypeError
  | Some ls =>
      promise_all (layerBlobs ls) (fun layer => copy_blob "blob" src dest (digest layer)) ;;;
      match config manifest with
      | None => throw TypeError
      | Some cfg => copy_blob "config" src dest (digest cfg)
      end
  end.

Definition copy_concrete (src dest : ImageRef) (f : Fetched) : M W unit :=
  copy_blobs src dest (f_manifest f) ;;;
  uploadManifest dest (f_manifest f) (f_mediaType f) (reference dest) ;;;
  log LOG (copied_message src dest (f_digest f)).

(** The child copies of an index, as [Promise.all] awaits them. *)
Definition copy_children (copy : ImageRef -> ImageRef -> M W unit)
    (src dest : ImageRef) (ms : list Descriptor) : M W unit :=
  promise_all ms (fun m =>
    copy (with_reference src (digest m)) (with_reference dest (digest m))).

Fixpoint copyImage (depth : nat) (src dest : ImageRef) : M W unit :=
  match depth with
  | O => pending
  | S d =>
      f <- fetchManifest src ;;
      if is_index (f_mediaType f) then
        log LOG "Multi-arch manifest detected" ;;;
        match manifests (f_manifest f) with
        | None => throw TypeError
        | Some ms =>
            copy_children (copyImage d) src dest ms ;;;
            uploadManifest dest (f_manifest f) (f_mediaType f) (reference dest)
        end
      else copy_concrete src dest f
  end.

End Copier.

End RegistryCopy.

(** ** Reading a trace *)

(** The manifest document that an event PUTs, if it is a manifest PUT. *)
Definition manifest_put (e : Event) : option ManifestDoc :=
  match e with
  | EvRequest r =>
      match Http.method r, Http.body r with
      | Http.PUT, Http.BManifest doc => Some doc
      | _, _ => None
      end
  | _ => None
  end.

(** The manifest documents that a trace PUTs, in order. *)
Definition manifests_put (t : list Event) : list ManifestDoc := omap manifest_put t.

(** The bytes that an event PUTs, if it is the PUT of a blob. *)
Definition blob_put (e : Event) : option Buffer :=
  match e with
  | EvRequest r =>
      match Http.method r, Http.body r with
      | Http.PUT, Http.BStream s => Some (Http.bytes s)
      | Http.PUT, Http.BBuffer b => Some b
      | _, _ => None
      end
  | _ => None
  end.

(** The blobs that a trace PUTs, in order. *)
Definition blobs_put (t : list Event) : list Buffer := omap blob_put t.

(** An outcome other than a fulfilment. *)
Definition failed {A : Type} (o : outcome A) : Prop :=
  match o with
  | Ok _ => False
  | _ => True
  end.

(** ** [copyImage], first version (the free functions that open the copier
    notes: sequential, on [node-fetch]) *)

Module RegistryCopyV0.

Definition ACCEPT : string :=
  "application/vnd.docker.distribution.manifest.v2+json, application/vnd.docker.distribution.manifest.list.v2+json".

Definition MANIFEST_LIST : string :=
  "application/vnd.docker.distribution.manifest.list.v2+json".

(** [{ manifest, mediaType: contentType }]; [headers.get] gives [null] for
    a header that is not there. *)
Record Fetched : Type := mkFetched {
  f_manifest : ManifestDoc;
  f_mediaType : JS.header;
}.

(** [mediaType === 'application/vnd.docker.distribution.manifest.list.v2+json'] *)
Definition is_manifest_list (mediaType : JS.header) : bool :=
  match mediaType with
  | Some s => String.eqb s MANIFEST_LIST
  | None => false
  end.

(** A header value that is [null] is sent as the string [null]. *)
Definition header_value (h : JS.header) : string := default "null" h.

Section Copier.
Context {W : Type} `{Host W}.
(** [res.statusText] *)
Variable statusText : Http.Response -> string.

Definition fetchManifest (ref : RegistryCopy.ImageRef) : M W Fetched :=
  res <- RegistryCopy.fetch Http.GET
           (RegistryCopy.manifest_url ref (RegistryCopy.reference ref))
           [RegistryCopy.bearer ref; ("Accept", ACCEPT)] Http.BNone ;;
  if negb (RegistryCopy.ok res)
  then throw (JsError ("Fetch manifest failed: " +:+ statusText res))
  else
    let contentType := Http.contentType res in
    match Http.data res with
    | Http.JManifest manifest => ret (mkFetched manifest contentType)
    | _ => throw (JsError "invalid json response body")
    end.

Definition downloadBlob (ref : RegistryCopy.ImageRef) (digest : string) : M W Http.Stream :=
  res <- RegistryCopy.fetch Http.GET (RegistryCopy.blob_url ref digest)
           [RegistryCopy.bearer ref] Http.BNone ;;
  if negb (RegistryCopy.ok res)
  then throw (JsError ("Download blob " +:+ digest +:+ " failed"))
  else ret (Http.stream res).

Definition uploadBlob (ref : RegistryCopy.ImageRef) (digest : string) (stream : Http.Stream)
  : M W unit :=
  startRes <- RegistryCopy.fetch Http.POST
    ("https://" +:+ RegistryCopy.registry ref +:+ "/v2/" +:+ RegistryCopy.repository ref
     +:+ "/blobs/uploads/")
    [RegistryCopy.bearer ref] Http.BNone ;;
  match Http.location startRes with
  | Some (String a l as location) =>
      let uploadUrl := location +:+ "&digest=" +:+ digest in
      if negb (url_ok uploadUrl) then throw TypeError
      else
        res <- send (Http.mkRequest Http.PUT None uploadUrl
                       [RegistryCopy.bearer ref; ("Content-Type", OCTET_STREAM)] None
                       (Http.BStream stream)) ;;
        if negb (Http.intact stream) then throw StreamError
        else if negb (RegistryCopy.ok res)
        then throw (JsError ("Upload blob " +:+ digest +:+ " failed"))
        else ret tt
  | _ => throw (JsError "No upload location")
  end.

Definition upload_manifest_request (ref : RegistryCopy.ImageRef) (manifest : ManifestDoc)
    (mediaType : JS.header) (tagOrDigest : string) : Http.Request :=
  Http.mkRequest Http.PUT None (RegistryCopy.manifest_url ref tagOrDigest)
    [RegistryCopy.bearer ref; ("Content-Type", header_value mediaType)] None
    (Http.BManifest manifest).

Definition uploadManifest (ref : RegistryCopy.ImageRef) (manifest : ManifestDoc)
    (mediaType : JS.header) (tagOrDigest : string) : M W unit :=
  res <- send (upload_manifest_request ref manifest mediaType tagOrDigest) ;;
  if negb (RegistryCopy.ok res)
  then throw (JsError ("Upload manifest failed: " +:+ statusText res))
  else ret tt.

(** The body of [for (const layer of manifest.layers)]. *)
Definition copy_layer (src dest : RegistryCopy.ImageRef) (layer : Descriptor) : M W unit :=
  if JS.includes (mediaType layer) "foreign"
  then log LOG ("Skipping foreign layer: " +:+ digest layer)
  else
    stream <- downloadBlob src (digest layer) ;;
    uploadBlob dest (digest layer) stream.

(** What follows the dispatch on the media type, for anything that is not
    a manifest list. [allBlobs] reads [manifest.config.digest], then
    [manifest.layers.map], before anything is transferred. *)
Definition copy_concrete (src dest : RegistryCopy.ImageRef) (f : Fetched) : M W unit :=
  match config (f_manifest f) with
  | None => throw TypeError
  | Some cfg =>
      match layers (f_manifest f) with
      | None => throw TypeError
      | Some ls =>
          for_of ls (copy_layer src dest) ;;;
          configStream <- downloadBlob src (digest cfg) ;;
          uploadBlob dest (digest cfg) configStream ;;;
          uploadManifest dest (f_manifest f) (f_mediaType f) (RegistryCopy.reference dest)
      end
  end.

(** The children of a manifest list, one after the other. *)
Definition copy_children (copy : RegistryCopy.ImageRef -> RegistryCopy.ImageRef -> M W unit)
    (src dest : RegistryCopy.ImageRef) (ms : list Descriptor) : M W unit :=
  for_of ms (fun m =>
    copy (RegistryCopy.with_reference src (digest m))
         (RegistryCopy.with_reference dest (digest m))).

(** [depth] bounds how deep a manifest list may nest before the run is
    given up as still pending. *)
Fixpoint copyImage (depth : nat) (src dest : RegistryCopy.ImageRef) : M W unit :=
  match depth with
  | O => pending
  | S d =>
      f <- fetchManifest src ;;
      if is_manifest_list (f_mediaType f) then
        log LOG "Multi-arch image detected" ;;;
        match manifests (f_manifest f) with
        | None => throw TypeError
        | Some ms =>
            copy_children (copyImage d) src dest ms ;;;
            uploadManifest dest (f_manifest f) (f_mediaType f) (RegistryCopy.reference dest)
        end
      else copy_concrete src dest f
  end.

End Copier.

End RegistryCopyV0.

(** ** [AuthService] (services/auth.service.ts) *)

Module AuthService.

(** [s.split(sep)] for a separator of one character. *)
Fixpoint split (sep : ascii) (s : string) : list string :=
  match s with
  | EmptyString => [EmptyString]
  | String a rest =>
      if Ascii.eqb a sep then EmptyString :: split sep rest
      else
        match split sep rest with
        | piece :: pieces => String a piece :: pieces
        | [] => [String a EmptyString]
        end
  end.

(** [users[username] = password] on an object literal: a key becomes an
    own property, except [__proto__], whose setter ignores a string. *)
Definition assign (users : gmap string string) (username password : string)
  : gmap string string :=
  if String.eqb username "__proto__" then users else <[username := password]> users.

(** The body of [for (const pair of userPairs)]:
    [const [username, password] = pair.split(':')], kept when both are
    truthy. *)
Definition add_pair (users : gmap string string) (pair : string) : gmap string string :=
  match split ":" pair with
  | String a u :: String b p :: _ => assign users (String a u) (String b p)
  | _ => users
  end.

(** [process.env.AUTH_USERS || ''], split, folded into [users]. *)
Definition loadUsersFromEnv (AUTH_USERS : option string) : gmap string string :=
  let envUsers := JS.or_default AUTH_USERS "" in
  let userPairs := split "," envUsers in
  fold_left add_pair userPairs ∅.

(** [validateUser]: [{ username }] or [null]. A name that is not an own
    property reads [undefined] or something inherited, which is not a
    string. *)
Definition validateUser (validUsers : gmap string string) (username password : string)
  : option string :=
  match validUsers !! username with
  | Some (String a p as stored) =>
      if String.eqb stored password then Some username else None
  | _ => None
  end.

Inductive LoginResult : Type :=
| Unauthorized                         (* [throw new UnauthorizedException()] *)
| AccessToken (access_token : string).

Section Login.
(** [jwtService.sign({ username, sub })] and [Date.now()]. *)
Variable sign : string -> Z -> string.
Variable now : Z.

Definition login (validUsers : gmap string string) (username password : string)
  : LoginResult :=
  match validateUser validUsers username password with
  | None => Unauthorized
  | Some user => AccessToken (sign user now)
  end.

End Login.

End AuthService.

(** ** How a [ContainerRegistryClient] is built (client.ts) *)

Module ClientSetup.

(** [~/.docker/config.json] once parsed, as far as the client reads it:
    [auths], which may be absent, holds for each registry key, in the order
    of [Object.entries], the [auth] of its entry ([None] when the entry is
    [null] or has none). *)
Record DockerConfig : Type := mkDockerConfig {
  auths : option (list (string * JS.header));
}.

(** [parsed] is [None] when reading or parsing the file throws. *)
Definition loadDockerConfig (parsed : option DockerConfig) : DockerConfig :=
  match parsed with
  | Some config => config
  | None => mkDockerConfig None
  end.

(** [registry.includes(key) || key.includes(registry)] *)
Definition matches (registry key : string) : bool :=
  JS.includes registry key || JS.includes key registry.

(** [Object.entries(undefined)] throws. *)
Definition getAuthFromDockerConfig (parsed : option DockerConfig) (registry : string)
  : Error + JS.header :=
  let config := loadDockerConfig parsed in
  match auths config with
  | None => inl TypeError
  | Some auths =>
      match List.find (fun entry => matches registry entry.1) auths with
      | None => inr None
      | Some authEntry =>
          match authEntry.2 with
          | Some (String a l as authBase64) => inr (Some ("Basic " +:+ authBase64))
          | _ => inr None
          end
      end
  end.

Section Constructor.
(** [axiosInstance] is whatever the caller passes. *)
Variable AxiosInstance : Type.
(** [Buffer.from(s).toString('base64')] *)
Variable base64 : string -> string.

Record RegistryClientOptions : Type := mkRegistryClientOptions {
  baseUrl : string;
  username : JS.header;
  password : JS.header;
  axiosInstance : option AxiosInstance;
  autoRedirect : option bool;
  maxConcurrency : option Z;
  memoryThresholdBytes : option Z;
}.

(** [this.axios]: the instance passed in, or [axios.create({ baseURL, headers })]. *)
Inductive Axios : Type :=
| Passed (instance : AxiosInstance)
| Created (baseURL : string) (headers : list (string * string)).

Record Built : Type := mkBuilt {
  b_axios : Axios;
  b_autoRedirect : bool;
  b_memoryThreshold : Z;
  b_concurrency : Z;               (* of [this.queue] *)
}.

Definition ACCEPT : string * string := ("Accept", DOCKER_MANIFEST_V2).

(** The [headers] object once the constructor has filled it, or the error
    that [getAuthFromDockerConfig] throws. *)
Definition headers_of (options : RegistryClientOptions) (parsed : option DockerConfig)
  : Error + list (string * string) :=
  match username options, password options with
  | Some (String a u as username), Some (String b p as password) =>
      let token := base64 (username +:+ ":" +:+ password) in
      inr [ACCEPT; ("Authorization", "Basic " +:+ token)]
  | _, _ =>
      match getAuthFromDockerConfig parsed (baseUrl options) with
      | inl e => inl e
      | inr (Some (String a t as dockerToken)) => inr [ACCEPT; ("Authorization", dockerToken)]
      | inr _ => inr [ACCEPT]
      end
  end.

(** [new PQueue({ concurrency })]: p-queue throws a [TypeError] unless
    [concurrency] is a number from 1 up. *)
Definition new_PQueue (concurrency : Z) : Error + Z :=
  if concurrency <? 1 then inl TypeError else inr concurrency.

Definition constructor (options : RegistryClientOptions) (parsed : option DockerConfig)
  : Error + Built :=
  let autoRedirect := default true (autoRedirect options) in
  let memoryThreshold := default (3 * 1024 * 1024 * 1024) (memoryThresholdBytes options) in
  match headers_of options parsed with
  | inl e => inl e
  | inr headers =>
      let axios :=
        match axiosInstance options with
        | Some instance => Passed instance
        | None => Created (baseUrl options) headers
        end in
      match new_PQueue (default 5 (maxConcurrency options)) with
      | inl e => inl e
      | inr queue => inr (mkBuilt axios autoRedirect memoryThreshold queue)
      end
  end.

End Constructor.

Arguments mkRegistryClientOptions {AxiosInstance}.
Arguments baseUrl {AxiosInstance}.
Arguments username {AxiosInstance}.
Arguments password {AxiosInstance}.
Arguments axiosInstance {AxiosInstance}.
Arguments autoRedirect {AxiosInstance}.
Arguments maxConcurrency {AxiosInstance}.
Arguments memoryThresholdBytes {AxiosInstance}.
Arguments Passed {AxiosInstance}.
Arguments Created {AxiosInstance}.
Arguments mkBuilt {AxiosInstance}.
Arguments b_axios {AxiosInstance}.
Arguments b_autoRedirect {AxiosInstance}.
Arguments b_memoryThreshold {AxiosInstance}.
Arguments b_concurrency {AxiosInstance}.
Arguments headers_of {AxiosInstance}.
Arguments constructor {AxiosInstance}.

End ClientSetup.

(** ** More of [ContainerRegistryClient]: [tagImage], [pullBlob],
    [pullBlobWithRedirect], [streamBlobchunk] *)

Module ClientMore.

(** [s.toLowerCase()], on the ASCII letters (header values are ASCII). *)
Definition lower (a : ascii) : ascii :=
  let n := nat_of_ascii a in
  if ((65 <=? n) && (n <=? 90))%nat then ascii_of_nat (n + 32) else a.

Fixpoint toLowerCase (s : string) : string :=
  match s with
  | EmptyString => EmptyString
  | String a rest => String (lower a) (toLowerCase rest)
  end.

(** [buffer[0] === 0x1f && buffer[1] === 0x8b] *)
Definition gzipByMagic (buffer : Buffer) : bool :=
  match buffer !! 0%nat with
  | Some b0 =>
      Byte.eqb b0 x1f &&
      match buffer !! 1%nat with
      | Some b1 => Byte.eqb b1 x8b
      | None => false
      end
  | None => false
  end.

Section Methods.
Context {W : Type} `{Host W}.
Variable self : Client.Options.
(** [response.headers['content-encoding']] *)
Variable contentEncoding : Http.Response -> JS.header.
(** The request body that axios makes of a JSON value. *)
Variable as_body : Http.Json -> Http.Body.

(** axios with [responseType: 'arraybuffer']: the body is read to its end
    before the promise settles, so a body that breaks off rejects it. *)
Definition axios_buffer (validateStatus : Z -> bool) (r : Http.Request) : M W Http.Response :=
  resp <- send r ;;
  if negb (Http.intact (Http.stream resp)) then throw StreamError
  else if validateStatus (Http.status resp) then ret resp
  else throw (BadStatus (Http.status resp)).

Definition tagImage (repository sourceTag targetTag : string) : M W unit :=
  manifest <- Client.getImageManifest self repository sourceTag ;;
  axios status_2xx
    (Client.req self Http.PUT ("/v2/" +:+ repository +:+ "/manifests/" +:+ targetTag)
       [("Content-Type", DOCKER_MANIFEST_V2)] None (as_body manifest)) ;;;
  ret tt.

(** The response whose body [pullBlob] goes on to read. *)
Definition pullBlob_response (autoRedirect : bool) (repository digest : string)
  : M W Http.Response :=
  let url := "/v2/" +:+ repository +:+ "/blobs/" +:+ digest in
  if autoRedirect then
    axios_buffer status_2xx (Client.req self Http.GET url [] (Some 5) Http.BNone)
  else
    response <- axios_buffer (fun s => (s =? 200) || (s =? 302) || (s =? 307))
                  (Client.req self Http.GET url [] (Some 0) Http.BNone) ;;
    if (Http.status response =? 302) || (Http.status response =? 307) then
      match Http.location response with
      | Some (String a l as location) =>
          axios_buffer status_2xx
            (Http.mkRequest Http.GET None location [] (Some 5) Http.BNone)
      | _ => throw (JsError "Redirect response missing Location header")
      end
    else if negb (Http.status response =? 200) then
      throw (JsError ("Unexpected status code " +:+ pretty (Http.status response)
                      +:+ " when pulling blob"))
    else ret response.

Definition pullBlob (autoRedirect : bool) (repository digest : string) : M W Client.Layer :=
  response <- pullBlob_response autoRedirect repository digest ;;
  let buffer := Http.bytes (Http.stream response) in
  let encodingHeader := JS.or_default (contentEncoding response) "" in
  let typeHeader := JS.or_default (Http.contentType response) "" in
  let gzipByHeader :=
    JS.includes (toLowerCase encodingHeader) "gzip"
    || JS.includes (toLowerCase typeHeader) "gzip" in
  let isGzip := gzipByMagic buffer || gzipByHeader in
  ret (Client.mkLayer buffer isGzip).

Definition pullBlobWithRedirect (url : string) (headers : list (string * string))
  : M W Http.Response :=
  try_catch
    (response <- axios_buffer (fun s => (s =? 200) || (s =? 307))
                   (Client.req self Http.GET url headers (Some 0) Http.BNone) ;;
     if Http.status response =? 200 then ret response
     else if Http.status response =? 307 then
       match Http.location response with
       | Some (String a l as redirectUrl) =>
           axios_buffer status_2xx
             (Http.mkRequest Http.GET None redirectUrl [] None Http.BNone)
       | _ => throw (JsError "Redirect location missing")
       end
     else throw (JsError ("Unexpected status code " +:+ pretty (Http.status response))))
    (fun err => throw err).

Definition streamBlobchunk (sourceRepository digest destinationRepository : string)
  : M W bool :=
  (* Step 1: Start a blob upload *)
  response <- axios (fun s => s =? 202)
    (Client.req self Http.POST ("/v2/" +:+ destinationRepository +:+ "/blobs/uploads/")
       [("Content-Length", "0")] (Some 0) Http.BNone) ;;
  let location :=
    match Http.data response with
    | Http.JLocation (Some loc) => loc
    | _ => "undefined"
    end in
  (* Step 2: Pull blob stream (support redirect) *)
  let blobUrl := "/v2/" +:+ sourceRepository +:+ "/blobs/" +:+ digest in
  initialResponse <- axios (fun s => (s =? 200) || (s =? 302) || (s =? 307))
    (Client.req self Http.GET blobUrl [] (Some 0) Http.BNone) ;;
  blobStream <-
    (if (Http.status initialResponse =? 302) || (Http.status initialResponse =? 307) then
       match Http.location initialResponse with
       | Some (String a l as redirectLocation) =>
           redirected <- axios status_2xx
             (Http.mkRequest Http.GET None redirectLocation [] None Http.BNone) ;;
           ret (Http.stream redirected)
       | _ => throw (JsError "Missing redirect location for blob pull")
       end
     else ret (Http.stream initialResponse)) ;;
  (* Step 3: Pipe blob stream to target registry using PUT *)
  let uploadUrl := location +:+ "&digest=" +:+ digest in
  putResponse <- send
    (Client.req self Http.PUT uploadUrl
       [("Content-Type", OCTET_STREAM); ("Transfer-Encoding", "chunked")]
       (Some 0) (Http.BStream blobStream)) ;;
  if negb (Http.intact blobStream) then throw StreamError
  else if negb (Http.status putResponse =? 201) then throw (BadStatus (Http.status putResponse))
  else ret (Http.status putResponse =? 201).

End Methods.

End ClientMore.

(** ** The other writers of saveImage.ts: [saveAsOCIImageLayoutWithgzip]
    and [saveAsDockerTar] *)

Module SaveImageMore.

Record GzipLoopState : Type := mkGzipLoopState {
  layerDigests : list string;
  compressedLayers : list Buffer;
  dir : gmap string Buffer;
}.

(** [s.replace(pattern, replacement)] with a string pattern: the first
    occurrence only. *)
Fixpoint replace_str (pattern replacement s : string) : string :=
  if String.prefix pattern s
  then replacement +:+ String.substring (String.length pattern)
                         (String.length s - String.length pattern) s
  else
    match s with
    | EmptyString => EmptyString
    | String a rest => String a (replace_str pattern replacement rest)
    end.

(** What [pack.entry] is given as its content. The results of
    [JSON.stringify] are kept as the values they print. *)
Inductive Content : Type :=
| Text (s : string)
| Bytes (b : Buffer)
| LayerJson (id : string)                                 (* { id } *)
| ManifestJson (Config : string) (RepoTags Layers : list string)
                                                          (* [{ Config, RepoTags, Layers }] *)
| RepositoriesJson (repository tag value : string).       (* { [repository]: { [tag]: value } } *)

Record Entry : Type := mkEntry { name : string; content : Content }.

Section Writers.
Variable sha256hex : Buffer -> string.
Variable gzipSync : Buffer -> Buffer.
Variable stringify : SaveImage.OCIManifest -> Buffer.

(** The body of [for (const layer of image.layers)] in
    [saveAsOCIImageLayoutWithgzip]. *)
Definition gzip_step (st : GzipLoopState) (layer : Buffer) : GzipLoopState :=
  let compressed := gzipSync layer in
  let compressedLayers' := compressedLayers st ++ [compressed] in
  let '(digest, dir') := SaveImage.writeBlob sha256hex compressed (dir st) in
  mkGzipLoopState (layerDigests st ++ [digest]) compressedLayers' dir'.

(** [{ mediaType: '...tar+gzip', digest: `sha256:${digest}`,
    size: compressedLayers[i].length }] *)
Definition gzip_descriptor (st : GzipLoopState) (i : nat) (digest : string)
  : option Descriptor :=
  data ← compressedLayers st !! i;
  Some (mkDescriptor SaveImage.TAR_GZIP ("sha256:" +:+ digest)
          (JS.Num (Z.of_nat (length data)))).

Definition saveAsOCIImageLayoutWithgzip (image : SaveImage.Image)
    (dir0 : gmap string Buffer) (meta : SaveImage.Meta)
  : option (SaveImage.OCIManifest * SaveImage.Layout) :=
  let '(configDigest, dir1) := SaveImage.writeBlob sha256hex (SaveImage.img_config image) dir0 in
  let st := fold_left gzip_step (SaveImage.img_layers image) (mkGzipLoopState [] [] dir1) in
  descs ← mapM (fun '(i, d) => gzip_descriptor st i d) (imap pair (layerDigests st));
  let manifest :=
    SaveImage.mkOCIManifest 2
      (mkDescriptor SaveImage.OCI_CONFIG ("sha256:" +:+ configDigest)
         (JS.Num (Z.of_nat (length (SaveImage.img_config image)))))
      descs in
  let manifestBuf := stringify manifest in
  let '(manifestDigest, dir2) := SaveImage.writeBlob sha256hex manifestBuf (dir st) in
  let index :=
    SaveImage.mkIndex 2
      [SaveImage.mkIndexEntry SaveImage.OCI_MANIFEST ("sha256:" +:+ manifestDigest)
         (JS.Num (Z.of_nat (length manifestBuf))) (SaveImage.tag meta)] in
  Some (manifest, SaveImage.mkLayout "1.0.0" dir2 index).

(** The body of [for (let i = 0; ...)] in [saveAsDockerTar]: the three
    entries of layer [i], and the path pushed to [layers]. *)
Definition layer_entries (i : nat) (layer : Buffer) : list Entry * string :=
  let digest := sha256hex layer in
  let layerDir := String.substring 0 12 digest in
  ([ mkEntry (layerDir +:+ "/VERSION") (Text "1.0");
     mkEntry (layerDir +:+ "/json") (LayerJson ("layer-" +:+ pretty (Z.of_nat i)));
     mkEntry (layerDir +:+ "/layer.tar") (Bytes layer) ],
   layerDir +:+ "/layer.tar").

Fixpoint pack_layers (i : nat) (ls : list Buffer) (entries : list Entry)
    (layers : list string) : list Entry * list string :=
  match ls with
  | [] => (entries, layers)
  | layer :: rest =>
      let '(es, path) := layer_entries i layer in
      pack_layers (S i) rest (entries ++ es) (layers ++ [path])
  end.

(** [layers[layers.length - 1]?.replace('/layer.tar', '') || ''] *)
Definition last_layer_dir (layers : list string) : string :=
  match last layers with
  | Some path => replace_str "/layer.tar" "" path
  | None => ""
  end.

(** [saveAsDockerTar(image, outputPath, meta)]: the entries handed to the
    tar pack, in order. *)
Definition saveAsDockerTar (image : SaveImage.Image) (meta : SaveImage.Meta) : list Entry :=
  let '(entries, layers) := pack_layers 0 (SaveImage.img_layers image) [] [] in
  let configDigest := sha256hex (SaveImage.img_config image) in
  let configFilename := configDigest +:+ ".json" in
  entries
  ++ [ mkEntry configFilename (Bytes (SaveImage.img_config image));
       mkEntry "manifest.json"
         (ManifestJson configFilename
            [SaveImage.repository meta +:+ ":" +:+ SaveImage.tag meta] layers);
       mkEntry "repositories"
         (RepositoriesJson (SaveImage.repository meta) (SaveImage.tag meta)
            (last_layer_dir layers)) ].

End Writers.

End SaveImageMore.

(** ** The vocabulary of the properties *)

(** The entry [l'] has the media type, digest and size of [l] and no other
    member. *)
Definition reduced_from (l l' : Descriptor) : Prop :=
  mediaType l' = mediaType l /\ digest l' = digest l /\ size l' = size l
  /\ others l' = [].

Section StoreVocabulary.
Variable sha256hex : Buffer -> string.
Variable gzipSync : Buffer -> Buffer.

(** Every file of the store either was there before or is named by the
    hash of its bytes. *)
Definition addressed (dir0 dir : gmap string Buffer) : Prop :=
  forall name data, dir !! name = Some data -> name = sha256hex data \/ dir0 !! name = Some data.

(** The descriptor that the writer emits for a layer. *)
Definition descriptor_of (useGzip : option bool) (layer : Buffer) : Descriptor :=
  let data := (SaveImage.layerData gzipSync useGzip layer).1 in
  mkDescriptor (SaveImage.layerData gzipSync useGzip layer).2
    ("sha256:" +:+ sha256hex data) (JS.Num (Z.of_nat (length data))).

(** The buffers that the writer hands to [writeBlob], in that order: the
    config, each layer as it is stored, the manifest. *)
Definition written (useGzip : option bool) (image : SaveImage.Image) (manifestBuf : Buffer)
  : list Buffer :=
  SaveImage.img_config image
  :: ((fun layer => (SaveImage.layerData gzipSync useGzip layer).1)
        <$> SaveImage.img_layers image)
  ++ [manifestBuf].

(** No other buffer of [bs] has the hash of [data]. *)
Definition alone_in (bs : list Buffer) (data : Buffer) : Prop :=
  forall other, other ∈ bs -> sha256hex other = sha256hex data -> other = data.

End StoreVocabulary.

Section RunVocabulary.
Context {W : Type} `{Host W}.
Implicit Types (st : State W) (w : W) (ready : W -> bool).

(** The world after [k] waits of one second. *)
Definition waits (k : nat) (w : W) : W := Nat.iter k (elapse 1000) w.

(** What [k] rounds of a gate add to the trace: a warning and a timer of
    1000 ms each. *)
Fixpoint delays (msg : string) (k : nat) : list Event :=
  match k with
  | O => []
  | S k' => EvLog WARN msg :: EvSleep 1000 :: delays msg k'
  end.

Definition after_waits (msg : string) (k : nat) st : State W :=
  mkState (waits k (world st)) (trace st ++ delays msg k) (tmp st).

(** The [k]-th sample is the first one that lets the gate through. *)
Definition first_ready ready w (k : nat) : Prop :=
  ready (waits k w) = true /\ forall j, (j < k)%nat -> ready (waits j w) = false.

(** Both gates are this loop, for their own test and warning. *)
Fixpoint poll ready (msg : string) (n : nat) : M W unit :=
  match n with
  | O => pending
  | S n' =>
      fun st => if ready (world st) then (Ok tt, st)
                else poll ready msg n' (after_waits msg 1 st)
  end.

(** What it means for a gate to return exactly at the first sample that
    passes [ready], after one wait of 1000 ms per failed sample, and never
    to throw. *)
Definition gate_returns_when (gate : nat -> M W unit) ready (msg : string) : Prop :=
  (forall st (k fuel : nat), first_ready ready (world st) k -> (k < fuel)%nat ->
     gate fuel st = (Ok tt, after_waits msg k st))
  /\ (forall st (fuel : nat) st', gate fuel st = (Ok tt, st') ->
        ready (world st') = true
        /\ exists k, (k < fuel)%nat /\ first_ready ready (world st) k
                     /\ st' = after_waits msg k st)
  /\ (forall st (fuel : nat) e st', gate fuel st <> (Throw e, st')).

(** The test of the gate of [RegistryService]: process usage below 3 GiB. *)
Definition service_ready w : bool :=
  RegistryService.usedMemory (memoryUsage w) <? RegistryService.MEMORY_THRESHOLD.

(** The test of the gate of [ContainerRegistryClient]: free system memory
    not below the threshold. *)
Definition client_ready (self : Client.Options) w : bool :=
  negb (freemem w <? Client.memoryThreshold self).

(** Whatever its outcome, [m] takes a state to one related to it by [R]. *)
Definition preserves {A : Type} (R : State W -> State W -> Prop) (m : M W A) : Prop :=
  forall st (o : outcome A) st', m st = (o, st') -> R st st'.

(** The trace grew by events that satisfy [P]. *)
Definition appends (P : Event -> Prop) st st' : Prop :=
  exists t, trace st' = trace st ++ t /\ Forall P t.

(** No file of TMP_DIR was removed. *)
Definition files_kept st st' : Prop :=
  forall path, is_Some (tmp st !! path) -> is_Some (tmp st' !! path).

(** An event that is not the PUT of a manifest. *)
Definition quiet (e : Event) : Prop := manifest_put e = None.

(** Whatever the outcome, [m] only appends events that satisfy [P]. *)
Definition emits {A : Type} (P : Event -> Prop) (m : M W A) : Prop :=
  preserves (appends P) m.

(** Whatever the outcome, [m] removes no file. *)
Definition keeps_files {A : Type} (m : M W A) : Prop := preserves files_kept m.

(** Nothing was PUT as a manifest between two states. *)
Definition no_manifest_put (st st' : State W) : Prop :=
  exists t, trace st' = trace st ++ t /\ manifests_put t = [].

End RunVocabulary.

Section ClientVocabulary.
Variable self : Client.Options.
Variable sha256hex : Buffer -> string.
Variable gzipSync : Buffer -> Buffer.

(** The first request of a blob pull. *)
Definition blob_get (repository digest : string) : Http.Request :=
  Client.req self Http.GET ("/v2/" +:+ repository +:+ "/blobs/" +:+ digest) []
    (Some 0) Http.BNone.

(** The two requests of one [uploadBlob], [location] being what the
    registry answered to the POST. *)
Definition upload_requests (repository location : string) (blob : Buffer) (digest : string)
  : list Event :=
  [ EvRequest (Client.req self Http.POST ("/v2/" +:+ repository +:+ "/blobs/uploads/")
                 [("Content-Length", "0")] (Some 0) Http.BNone);
    EvRequest (Client.req self Http.PUT (location +:+ "&digest=" +:+ digest)
                 [("Content-Type", OCTET_STREAM);
                  ("Content-Length", pretty (Z.of_nat (length blob)))]
                 (Some 0) (Http.BBuffer blob)) ].

(** The digest that [pushImage] computes for a layer. *)
Definition layer_digest (layer : Client.Layer) : string :=
  "sha256:" +:+ sha256hex (Client.dataToUpload gzipSync layer).

(** The manifest entry that [pushImage] writes for a layer. *)
Definition layer_entry_of (layer : Client.Layer) : Descriptor :=
  mkDescriptor Client.DOCKER_LAYER_GZIP (layer_digest layer)
    (JS.Num (Z.of_nat (length (Client.l_data layer)))).

End ClientVocabulary.

Section CopyVocabulary.
Context {W : Type} `{Host W}.
Variables src dest : RegistryCopy.ImageRef.

(** The layer tasks of a concrete manifest, as [Promise.all] awaits them. *)
Definition layer_tasks (ls : list Descriptor) : State W -> list (outcome unit) * State W :=
  settle_all (RegistryCopy.layerBlobs ls)
    (fun layer => RegistryCopy.copy_blob "blob" src dest (digest layer)).

(** The child copies of an index, [depth] levels of nesting being followed. *)
Definition child_copies (depth : nat) (ms : list Descriptor)
  : State W -> list (outcome unit) * State W :=
  settle_all ms (fun m =>
    RegistryCopy.copyImage depth (RegistryCopy.with_reference src (digest m))
                                 (RegistryCopy.with_reference dest (digest m))).

Definition MULTI_ARCH : Event := EvLog LOG "Multi-arch manifest detected".

End CopyVocabulary.

(** ** More vocabulary: the requests of the copier, files left alone *)

Section CopyRequests.
Variable ref : RegistryCopy.ImageRef.

(** The size probe of [checkBlobSize]. *)
Definition head_request (digest : string) : Http.Request :=
  Http.mkRequest Http.HEAD None (RegistryCopy.blob_url ref digest)
    [RegistryCopy.bearer ref] None Http.BNone.

(** The POST that opens an upload session in [uploadViaPipeline]. *)
Definition session_request : Http.Request :=
  Http.mkRequest Http.POST None
    ("https://" +:+ RegistryCopy.registry ref +:+ "/v2/" +:+ RegistryCopy.repository ref
     +:+ "/blobs/uploads/")
    [RegistryCopy.bearer ref] None Http.BNone.

(** The PUT that carries the blob in [uploadViaPipeline]. *)
Definition blob_put_request (location digest : string) (s : Http.Stream) : Http.Request :=
  Http.mkRequest Http.PUT None (location +:+ "&digest=" +:+ digest)
    [RegistryCopy.bearer ref; ("Content-Type", OCTET_STREAM)] None (Http.BStream s).

(** The GET of [downloadBlob]. *)
Definition download_request (digest : string) : Http.Request :=
  Http.mkRequest Http.GET None (RegistryCopy.blob_url ref digest)
    [RegistryCopy.bearer ref] None Http.BNone.

(** An event that is not a GET or HEAD of the blob [digest] at [ref]. *)
Definition not_fetching (digest : string) (e : Event) : Prop :=
  match e with
  | EvRequest r =>
      Http.method r = Http.GET \/ Http.method r = Http.HEAD ->
      Http.url r <> RegistryCopy.blob_url ref digest
  | _ => True
  end.

End CopyRequests.

Section CopyGuards.
Context {W : Type} `{Host W}.

(** The size that [checkBlobSize] reads off the answer to its probe. *)
Definition probed_size (res : Http.Response) : JS.number :=
  match Http.contentLength res with
  | Some (String a l as sizeStr) => JS.parseInt sizeStr
  | _ => JS.NaN
  end.

(** The answer to the probe is 2xx and announces at most 500 MiB, and the
    resident set of the process is below 300 MiB. *)
Definition probe_passes (res : Http.Response) (w : W) : bool :=
  RegistryCopy.ok res
  && match probed_size res with
     | JS.Num n => n <=? RegistryCopy.MAX_BLOB_SIZE_BYTES
     | JS.NaN => false
     end
  && RegistryCopy.isMemorySafe (memoryUsage w).

End CopyGuards.

Section FilesVocabulary.
Context {W : Type}.

(** The files of TMP_DIR outside [paths] are as they were. *)
Definition untouched (paths : list string) (st st' : State W) : Prop :=
  forall path, path ∉ paths -> tmp st' !! path = tmp st !! path.

End FilesVocabulary.

Section QueueVocabulary.
Context {Job : Type}.

(** No job waits while a slot is free. *)
Definition saturated (q : PQueue.t Job) : Prop :=
  PQueue.waiting q = [] \/ PQueue.concurrency q <= Z.of_nat (PQueue.pending q).

End QueueVocabulary.

Section ServiceRequests.

(** The size that a pull hands on: [parseInt(headers['content-length'] || '0', 10)]. *)
Definition announced_size (res : Http.Response) : JS.number :=
  JS.parseInt (JS.or_default (Http.contentLength res) "0").

(** The blob GET of the factory's client. *)
Definition factory_blob_get (registry repository digest : string) : Http.Request :=
  FactoryClient.req registry Http.GET ("/v2/" +:+ repository +:+ "/blobs/" +:+ digest) []
    Http.BNone.

(** The POST that opens an upload session. *)
Definition factory_session (registry repository : string) : Http.Request :=
  FactoryClient.req registry Http.POST ("/v2/" +:+ repository +:+ "/blobs/uploads/")
    [("Content-Length", "0")] Http.BNone.

(** The PUT of [pushBlobStream]: the stream, announced with [size]. *)
Definition stream_put (u : string) (stream : Http.Stream) (size : JS.number) : Http.Request :=
  Http.mkRequest Http.PUT None u
    [("Content-Type", OCTET_STREAM); ("Content-Length", toString size)]
    None (Http.BStream stream).

(** The PUT of [pushBlobFromFile]: the bytes of the file, announced with
    their number. *)
Definition file_put (registry u : string) (content : Buffer) : Http.Request :=
  FactoryClient.req registry Http.PUT u
    [("Content-Type", OCTET_STREAM); ("Content-Length", pretty (Z.of_nat (length content)))]
    (Http.BStream (Http.mkStream content true)).


End ServiceRequests.

Section AuthVocabulary.

(** The character [c] occurs in [s]. *)
Fixpoint occurs (c : ascii) (s : string) : bool :=
  match s with
  | EmptyString => false
  | String a rest => Ascii.eqb a c || occurs c rest
  end.

(** A user name or password that an entry of AUTH_USERS can carry whole:
    not empty, without [,] and [:]. *)
Definition plain (s : string) : Prop :=
  s <> "" /\ occurs "," s = false /\ occurs ":" s = false.

End AuthVocabulary.

Section WriterVocabulary.
Variable sha256hex : Buffer -> string.

(** [writeBlob] for each buffer in turn. *)
Definition write_all (bs : list Buffer) (dir : gmap string Buffer) : gmap string Buffer :=
  fold_left (fun d b => <[sha256hex b := b]> d) bs dir.

(** The path under which [saveAsDockerTar] packs a layer. *)
Definition layer_path (layer : Buffer) : string :=
  String.substring 0 12 (sha256hex layer) +:+ "/layer.tar".

End WriterVocabulary.

Section RedirectVocabulary.

(** The GET that follows a redirect: global [axios], so no base URL and
    none of the headers of the client's instance. *)
Definition bare_get (location : string) : Http.Request :=
  Http.mkRequest Http.GET None location [] None Http.BNone.

(** The [location] that [uploadBlob] reads: a property of the response
    body, printed as [undefined] when the body has none. *)
Definition body_location (res : Http.Response) : string :=
  match Http.data res with
  | Http.JLocation (Some loc) => loc
  | _ => "undefined"
  end.

End RedirectVocabulary.

(** ** A scripted environment, to run the models on concrete inputs *)

Module Sim.

(** Memory readings per second still to come (the last one stays), a
    stateless server, and the files that cannot be unlinked. *)
Record World : Type := mkWorld {
  readings : list (MemoryUsage * Z);       (* process.memoryUsage(), os.freemem() *)
  server : Http.Request -> option Http.Response;
  locked : list string;
}.

Definition GiB : Z := 1024 * 1024 * 1024.

Definition idle : MemoryUsage * Z := (mkMemoryUsage (100 * 1024 * 1024) 0 0 0 0, 8 * GiB).

Definition reading (w : World) : MemoryUsage * Z := hd idle (readings w).

Definition tick (w : World) : World :=
  match readings w with
  | _ :: (_ :: _) as rest => mkWorld rest (server w) (locked w)
  | _ => w
  end.

#[global] Instance host : Host World := {|
  memoryUsage w := (reading w).1;
  freemem w := (reading w).2;
  elapse ms w := tick w;
  http r w := (server w r, w);
  url_ok u := String.prefix "https://" u;
  unlink_denied p w := bool_decide (p ∈ locked w);
|}.

Definition start (w : World) : State World := mkState w [] ∅.

Definition no_body : Http.Stream := Http.mkStream [] true.

Definition response (status : Z) (data : Http.Json) (body : Http.Stream) : Http.Response :=
  Http.mkResponse status None None None None data body.

Definition src_config : Descriptor :=
  mkDescriptor "application/vnd.docker.container.image.v1+json" "sha256:c0" (JS.Num 1469).

Definition src_layer : Descriptor :=
  mkDescriptor "application/vnd.docker.image.rootfs.diff.tar.gzip" "sha256:a1" (JS.Num 2811).

Definition src_manifest : ManifestDoc :=
  mkManifestDoc 2 (Some DOCKER_MANIFEST_V2) (Some src_config) (Some [src_layer]) None.

Definition MANIFEST_LIST : string :=
  "application/vnd.docker.distribution.manifest.list.v2+json".

(** An index of two platform manifests. *)
Definition src_index : ManifestDoc :=
  mkManifestDoc 2 (Some MANIFEST_LIST) None None
    (Some [ mkDescriptor DOCKER_MANIFEST_V2 "sha256:m1" (JS.Num 528);
            mkDescriptor DOCKER_MANIFEST_V2 "sha256:m2" (JS.Num 528) ]).

Definition blob_bytes : Buffer := [x01; x02; x03].

(** A registry: the tag [multi] is [src_index], every other reference is
    [src_manifest]; every blob is [blob_bytes], announced with the
    [Content-Length] header [len]; a POST opens an upload session and every
    PUT is accepted. A GET or HEAD whose URL contains [missing] is answered
    404. *)
Definition registry (len : JS.header) (missing : option string) (r : Http.Request)
  : option Http.Response :=
  match Http.method r with
  | Http.GET | Http.HEAD =>
      if match missing with Some m => JS.includes (Http.url r) m | None => false end
      then Some (response 404 Http.JNone no_body)
      else if JS.includes (Http.url r) "/manifests/multi"
      then Some (Http.mkResponse 200 None None (Some MANIFEST_LIST) None
                   (Http.JManifest src_index) no_body)
      else if JS.includes (Http.url r) "/manifests/"
      then Some (Http.mkResponse 200 None None (Some DOCKER_MANIFEST_V2) None
                   (Http.JManifest src_manifest) no_body)
      else Some (Http.mkResponse 200 None len None None Http.JNone
                   (Http.mkStream blob_bytes true))
  | Http.POST =>
      Some (Http.mkResponse 202 (Some "https://uploads.example/session?id=1")
              None None None
              (Http.JLocation (Some "https://uploads.example/session?id=1")) no_body)
  | Http.PUT => Some (response 201 Http.JNone no_body)
  end.

Definition calm (srv : Http.Request -> option Http.Response) : World :=
  mkWorld [idle] srv [].

Definition options : Client.Options :=
  Client.mkOptions "https://registry.example" [("Accept", DOCKER_MANIFEST_V2)] None.

(** Stand-ins for sha256 and gzip: the bytes in decimal, and the bytes
    behind a gzip header. *)
Definition digest_of (b : Buffer) : string :=
  String.concat "-" ((fun x => pretty (Z.of_nat (Byte.to_nat x))) <$> b).

Definition gzip_of (b : Buffer) : Buffer := x1f :: x8b :: x08 :: b.

(** 23 bytes [0x61], and what [zlib.gzipSync] returns for them at its
    default level: the ten bytes of the header (no name, no time, written
    on Unix), five bytes of deflate data, the CRC-32 and the length of the
    input. That is 23 bytes again. *)
Definition a23 : Buffer := repeat x61 23.

Definition a23_gz : Buffer :=
  [ x1f; x8b; x08; x00; x00; x00; x00; x00; x00; x03;
    x4b; x4c; xc4; x0a; x00;
    x08; xf5; x4c; x6e;
    x17; x00; x00; x00 ].

Fixpoint same_bytes (a b : Buffer) : bool :=
  match a, b with
  | [], [] => true
  | x :: a', y :: b' => Byte.eqb x y && same_bytes a' b'
  | _, _ => false
  end.

(** [zlib.gzipSync] on [a23]; the stand-in on any other buffer. *)
Definition gzipSync (b : Buffer) : Buffer :=
  if same_bytes b a23 then a23_gz else gzip_of b.

(** Jobs [0 .. n-1] added one after the other. *)
Fixpoint add_jobs (n : nat) (q : PQueue.t nat) : Error + PQueue.t nat :=
  match n with
  | O => inr q
  | S n' =>
      match add_jobs n' q with
      | inl e => inl e
      | inr q' => RegistryService.add q' n'
      end
  end.

End Sim.

(** ** More scripted registries *)

Module Cases.

Definition FOREIGN : string := "application/vnd.docker.image.rootfs.foreign.diff.tar.gzip".

(** [s] between double quotes. *)
Definition quoted (s : string) : string := String "034"%char (s +:+ String "034"%char "").

(** A foreign layer names where its bytes are to be had. *)
Definition foreign_layer : Descriptor :=
  mkDescriptorWith FOREIGN "sha256:f0" (JS.Num 4096)
    [("urls", "[" +:+ quoted "https://mirror.example/f0" +:+ "]")].

(** A manifest whose first layer is a foreign one. *)
Definition windows_manifest : ManifestDoc :=
  mkManifestDoc 2 (Some DOCKER_MANIFEST_V2) (Some Sim.src_config)
    (Some [foreign_layer; Sim.src_layer]) None.

Definition OCI_INDEX : string := "application/vnd.oci.image.index.v1+json".

(** A registry that answers every manifest GET with [doc], announced as
    [ctype]; every blob is [Sim.blob_bytes], announced with the
    [Content-Length] header [len]; a POST is answered with [status] and the
    [Location] header [loc]; every PUT is accepted. *)
Definition serving (doc : ManifestDoc) (ctype : JS.header) (len : JS.header)
    (status : Z) (loc : JS.header) (r : Http.Request) : option Http.Response :=
  match Http.method r with
  | Http.GET | Http.HEAD =>
      if JS.includes (Http.url r) "/manifests/"
      then Some (Http.mkResponse 200 None None ctype None (Http.JManifest doc) Sim.no_body)
      else Some (Http.mkResponse 200 None len None None Http.JNone
                   (Http.mkStream Sim.blob_bytes true))
  | Http.POST => Some (Http.mkResponse status loc None None None Http.JNone Sim.no_body)
  | Http.PUT => Some (Sim.response 201 Http.JNone Sim.no_body)
  end.

Definition SESSION : string := "https://uploads.example/session?id=1".

Definition src : RegistryCopy.ImageRef :=
  RegistryCopy.mkImageRef "src.example" "app" "1.0" "token".
Definition dest : RegistryCopy.ImageRef :=
  RegistryCopy.mkImageRef "dst.example" "app" "1.0" "token".
Definition multi_src : RegistryCopy.ImageRef :=
  RegistryCopy.mkImageRef "src.example" "app" "multi" "token".
Definition multi_dest : RegistryCopy.ImageRef :=
  RegistryCopy.mkImageRef "dst.example" "app" "multi" "token".

(** [res.statusText] *)
Definition reason (res : Http.Response) : string :=
  if Http.status res =? 404 then "Not Found" else "OK".

(** A registry that sends every request of a client instance to a CDN,
    which serves [Sim.blob_bytes]. *)
Definition CDN : string := "https://cdn.example/blob?sig=abc".

Definition redirecting (r : Http.Request) : option Http.Response :=
  match Http.base r with
  | Some _ => Some (Http.mkResponse 307 (Some CDN) None None None Http.JNone Sim.no_body)
  | None => Some (Http.mkResponse 200 None (Some "3") None None Http.JNone
                    (Http.mkStream Sim.blob_bytes true))
  end.

(** A JSON value as a request body. *)
Definition as_body (j : Http.Json) : Http.Body :=
  match j with
  | Http.JManifest doc => Http.BManifest doc
  | _ => Http.BNone
  end.

(** Responses without a [Content-Encoding] header. *)
Definition no_encoding (res : Http.Response) : JS.header := None.

(** A stand-in for [Buffer.from(JSON.stringify(manifest, null, 2))]: one
    byte per layer between braces. *)
Definition manifest_bytes (m : SaveImage.OCIManifest) : Buffer :=
  x7b :: ((fun _ => x2c) <$> SaveImage.m_layers m) ++ [x7d].

Definition image : SaveImage.Image :=
  SaveImage.mkImage Sim.src_manifest [x7b; x7d] [[x01; x02; x03]; [x1f; x8b; x08; x00]].

(** A stand-in for sha256 that tells the empty buffer from the others. *)
Definition two_hashes (b : Buffer) : string :=
  match b with
  | [] => "e3b0c44298fc1c149afbf4c8996fb924"
  | _ => "9f86d081884c7d659a2feaa0c55ad015"
  end.

Definition meta : SaveImage.Meta := SaveImage.mkMeta "app" "1.0".

End Cases.

(** * Properties *)

(** ** The OCI layout writer *)

Section SaveImageFacts.
Import SaveImage.
Variable sha256hex : Buffer -> string.
Variable gzipSync : Buffer -> Buffer.
Variable stringify : OCIManifest -> Buffer.

Local Abbreviation layerData := (SaveImage.layerData gzipSync).
Local Abbreviation loop := (SaveImage.loop sha256hex gzipSync).
Local Abbreviation stored useGzip := (fun layer : Buffer => (layerData useGzip layer).1).

(** With [useGzip] unset the bytes are kept when they start with the gzip
    magic and compressed otherwise, and the media type follows the same
    test: [+gzip] exactly when the writer compressed them itself. *)
Lemma layerData_unset (layer : Buffer) :
  layerData None layer =
    if isProbablyGzip layer then (layer, TAR) else (gzipSync layer, TAR_GZIP).
Proof. unfold SaveImage.layerData. by destruct (isProbablyGzip layer). Qed.

Lemma layerData_unset_plain (layer : Buffer) :
  isProbablyGzip layer = false ->
  layerData None layer = (gzipSync layer, TAR_GZIP) /\ JS.endsWith TAR_GZIP "+gzip" = true.
Proof. intros Hl. rewrite layerData_unset, Hl. by split. Qed.


Lemma addressed_refl (dir0 : gmap string Buffer) : addressed sha256hex dir0 dir0.
Proof. intros name data Hl. by right. Qed.

Lemma addressed_writeBlob (dir0 dir : gmap string Buffer) (data : Buffer) :
  addressed sha256hex dir0 dir -> addressed sha256hex dir0 (writeBlob sha256hex data dir).2.
Proof.
  intros Hd name data' Hl. cbn in Hl.
  destruct (decide (name = sha256hex data)) as [->|Hne].
  - rewrite lookup_insert_eq in Hl. left. congruence.
  - rewrite lookup_insert_ne in Hl by congruence. by apply Hd.
Qed.

Lemma loop_step_fields (useGzip : option bool) (st : LoopState) (layer : Buffer) :
  let data := stored useGzip layer in
  let st' := loop_step sha256hex gzipSync useGzip st layer in
  layerDigests st' = layerDigests st ++ [sha256hex data]
  /\ outputLayers st' = outputLayers st ++ [data]
  /\ mediaTypes st' = mediaTypes st ++ [(layerData useGzip layer).2]
  /\ dir st' = (writeBlob sha256hex data (dir st)).2.
Proof.
  cbn. unfold loop_step. destruct (layerData useGzip layer) as [data mt]. by cbn.
Qed.

(** What the three arrays hold once the loop has run over [ls]. *)
Lemma loop_arrays (useGzip : option bool) (ls : list Buffer) (st : LoopState) :
  let st' := loop useGzip st ls in
  layerDigests st' = layerDigests st ++ map (fun l => sha256hex (stored useGzip l)) ls
  /\ outputLayers st' = outputLayers st ++ map (stored useGzip) ls
  /\ mediaTypes st' = mediaTypes st ++ map (fun l => (layerData useGzip l).2) ls.
Proof.
  revert st. induction ls as [|layer ls IH]; intros st; cbn.
  - by rewrite !app_nil_r.
  - destruct (IH (loop_step sha256hex gzipSync useGzip st layer)) as (Hd & Ho & Hm).
    destruct (loop_step_fields useGzip st layer) as (Hd1 & Ho1 & Hm1 & _).
    unfold SaveImage.loop in *. cbn in *.
    rewrite Hd, Ho, Hm, Hd1, Ho1, Hm1, <- !app_assoc. done.
Qed.

Lemma loop_addressed (useGzip : option bool) (dir0 : gmap string Buffer)
    (ls : list Buffer) (st : LoopState) :
  addressed sha256hex dir0 (dir st) -> addressed sha256hex dir0 (dir (loop useGzip st ls)).
Proof.
  revert st. induction ls as [|layer ls IH]; intros st Hst; cbn; [done|].
  apply IH. destruct (loop_step_fields useGzip st layer) as (_ & _ & _ & ->).
  by apply addressed_writeBlob.
Qed.

(** The arrays have one entry per layer, so no descriptor reads past
    their end. *)
Lemma layer_descriptors_loop (useGzip : option bool) (dir1 : gmap string Buffer)
    (ls : list Buffer) :
  layer_descriptors (loop useGzip (mkLoopState [] [] [] dir1) ls)
  = Some (map (descriptor_of sha256hex gzipSync useGzip) ls).
Proof.
  destruct (loop_arrays useGzip ls (mkLoopState [] [] [] dir1)) as (Hd & Ho & Hm).
  cbn in Hd, Ho, Hm. unfold layer_descriptors.
  apply mapM_Some, Forall2_same_length_lookup. split.
  - by rewrite length_imap, Hd, !length_map.
  - intros i [j d] desc Hi Hdesc.
    rewrite list_lookup_imap, Hd, list_lookup_fmap in Hi.
    rewrite list_lookup_fmap in Hdesc.
    destruct (ls !! i) as [layer|] eqn:Hl; cbn in *; [|done].
    injection Hi as <- <-. injection Hdesc as <-.
    unfold layer_descriptor. rewrite Hm, Ho, !list_lookup_fmap, Hl. done.
Qed.

(** C4 (the code departs from the claim): a layer that already starts with
    the gzip magic bytes [1f 8b], saved with [useGzip] unset, is stored
    unchanged but its descriptor carries the media type
    [application/vnd.oci.image.layer.v1.tar], which does not end in
    [+gzip]. *)
Theorem C4_gzip_layer_recorded_as_plain_tar
    (doc : ManifestDoc) (cfg : Buffer) (dir0 : gmap string Buffer) (meta : Meta) :
  let layer := [x1f; x8b; x08; x00] in
  exists m out,
    saveAsOCIImageLayout sha256hex gzipSync stringify (mkImage doc cfg [layer]) dir0 meta None
      = Some (m, out)
    /\ isProbablyGzip layer = true
    /\ layerData None layer = (layer, TAR)
    /\ mediaType <$> m_layers m = [TAR]
    /\ digest <$> m_layers m = ["sha256:" +:+ sha256hex layer]
    /\ JS.endsWith TAR "+gzip" = false.
Proof.
  intros layer. eexists _, _. split; [reflexivity|]. by repeat split.
Qed.

Lemma loop_dir (useGzip : option bool) (ls : list Buffer) (st : LoopState) :
  dir (loop useGzip st ls)
  = write_all sha256hex (stored useGzip <$> ls) (dir st).
Proof.
  revert st. induction ls as [|layer ls IH]; intros st; [done|].
  cbn. unfold loop in IH. rewrite IH.
  by destruct (loop_step_fields useGzip st layer) as (_ & _ & _ & ->).
Qed.

Lemma write_all_app (bs1 bs2 : list Buffer) (d : gmap string Buffer) :
  write_all sha256hex (bs1 ++ bs2) d = write_all sha256hex bs2 (write_all sha256hex bs1 d).
Proof. apply fold_left_app. Qed.

Lemma write_all_cons (b : Buffer) (bs : list Buffer) (d : gmap string Buffer) :
  write_all sha256hex (b :: bs) d = write_all sha256hex bs (<[sha256hex b := b]> d).
Proof. reflexivity. Qed.

Lemma write_all_snoc (bs : list Buffer) (b : Buffer) (d : gmap string Buffer) :
  write_all sha256hex (bs ++ [b]) d = <[sha256hex b := b]> (write_all sha256hex bs d).
Proof. by rewrite write_all_app. Qed.

(** A run of writes leaves every file alone that it does not name. *)
Lemma write_all_other (bs : list Buffer) (d : gmap string Buffer) (name : string) :
  name ∉ (sha256hex <$> bs) -> write_all sha256hex bs d !! name = d !! name.
Proof.
  induction bs as [|b bs IH] using rev_ind; intros Hnot; [done|].
  rewrite fmap_app, not_elem_of_app in Hnot. destruct Hnot as [Hbs Hb].
  rewrite write_all_snoc, lookup_insert_ne; [by apply IH|].
  intros <-. apply Hb. cbn. apply list_elem_of_singleton. done.
Qed.

(** After a run of writes the file named by the hash of a written buffer
    holds a written buffer with that hash: the last one written, which is
    the buffer itself when no other one shares its hash. *)
Lemma write_all_held (bs : list Buffer) (d : gmap string Buffer) (data : Buffer) :
  data ∈ bs ->
  exists held, write_all sha256hex bs d !! sha256hex data = Some held
    /\ held ∈ bs
    /\ sha256hex held = sha256hex data
    /\ (alone_in sha256hex bs data -> held = data).
Proof.
  induction bs as [|b bs IH] using rev_ind; intros Hin; [by apply elem_of_nil in Hin|].
  rewrite write_all_snoc.
  destruct (decide (sha256hex b = sha256hex data)) as [Heq|Hne].
  - exists b. rewrite <- Heq, lookup_insert_eq. split; [done|].
    split; [apply elem_of_app; right; by apply list_elem_of_singleton|].
    split; [done|]. intros Halone. apply Halone; [|done].
    apply elem_of_app. right. by apply list_elem_of_singleton.
  - rewrite lookup_insert_ne by done.
    apply elem_of_app in Hin as [Hin|Hin];
      [|apply list_elem_of_singleton in Hin; by subst].
    destruct (IH Hin) as (held & Hl & Hh & Hs & Hal).
    exists held. split; [done|]. split; [apply elem_of_app; by left|]. split; [done|].
    intros Halone. apply Hal. intros other Ho. apply Halone, elem_of_app. by left.
Qed.

(** What the writer leaves in [blobs/sha256]: the directory it found,
    after the writes of [written]. *)
Lemma layout_blobs (image : Image) (dir0 : gmap string Buffer) (useGzip : option bool)
    (manifestBuf : Buffer) :
  <[sha256hex manifestBuf := manifestBuf]>
    (dir (loop useGzip
            (mkLoopState [] [] [] (<[sha256hex (img_config image) := img_config image]> dir0))
            (img_layers image)))
  = write_all sha256hex (written gzipSync useGzip image manifestBuf) dir0.
Proof. rewrite loop_dir. unfold written. by rewrite write_all_cons, write_all_snoc. Qed.

(** C9: the writer cannot fail and [blobs/sha256] is a content-addressed
    store when it is done. It writes the config, each layer as stored and
    the manifest, and no other file: a file under another name is as it
    was found. The file named by the sha256 of a written buffer holds a
    written buffer with that very sha256, whatever was under that name
    before, and it holds the buffer itself unless another written buffer
    has the same sha256. The config descriptor, each layer descriptor and
    the entry of [index.json] carry the sha256 and the byte length of the
    buffer handed to [writeBlob]; the manifest, written last, is always
    found under its own digest. *)
Theorem C9_layout_is_content_addressed
    (image : Image) (dir0 : gmap string Buffer) (meta : Meta) (useGzip : option bool) :
  exists m out,
    saveAsOCIImageLayout sha256hex gzipSync stringify image dir0 meta useGzip = Some (m, out)
    /\ addressed sha256hex dir0 (blobs out)
    /\ (forall name,
          name ∉ (sha256hex <$> written gzipSync useGzip image (stringify m)) ->
          blobs out !! name = dir0 !! name)
    /\ (forall data,
          data ∈ written gzipSync useGzip image (stringify m) ->
          exists held,
            blobs out !! sha256hex data = Some held
            /\ held ∈ written gzipSync useGzip image (stringify m)
            /\ sha256hex held = sha256hex data
            /\ (alone_in sha256hex (written gzipSync useGzip image (stringify m)) data ->
                  held = data))
    /\ (digest (m_config m) = "sha256:" +:+ sha256hex (img_config image)
        /\ size (m_config m) = JS.Num (Z.of_nat (length (img_config image)))
        /\ img_config image ∈ written gzipSync useGzip image (stringify m))
    /\ Forall2 (fun layer d =>
          let data := stored useGzip layer in
          digest d = "sha256:" +:+ sha256hex data
          /\ size d = JS.Num (Z.of_nat (length data))
          /\ data ∈ written gzipSync useGzip image (stringify m))
        (img_layers image) (m_layers m)
    /\ (exists e, i_manifests (index_json out) = [e]
          /\ e_digest e = "sha256:" +:+ sha256hex (stringify m)
          /\ e_size e = JS.Num (Z.of_nat (length (stringify m)))
          /\ blobs out !! sha256hex (stringify m) = Some (stringify m)).
Proof.
  unfold saveAsOCIImageLayout. cbn.
  rewrite layer_descriptors_loop. cbn.
  set (dir1 := <[sha256hex (img_config image) := img_config image]> dir0).
  set (st := loop useGzip (mkLoopState [] [] [] dir1) (img_layers image)).
  set (m := mkOCIManifest 2 _ _).
  eexists _, _. split; [reflexivity|]. cbn.
  assert (Hst : addressed sha256hex dir0 (dir st)).
  { apply loop_addressed. cbn.
    apply (addressed_writeBlob dir0 dir0 (img_config image)), addressed_refl. }
  pose proof (layout_blobs image dir0 useGzip (stringify m)) as Hblobs.
  fold dir1 in Hblobs. fold st in Hblobs.
  split; [|split; [|split; [|split; [|split]]]].
  - apply (addressed_writeBlob dir0 (dir st) (stringify m) Hst).
  - intros name Hname. rewrite Hblobs. by apply write_all_other.
  - intros data Hdata. rewrite Hblobs. by apply write_all_held.
  - split; [done|]. split; [done|]. apply elem_of_cons. by left.
  - apply Forall2_fmap_r, Forall_Forall2_diag. rewrite Forall_forall.
    intros layer Hin. cbn. split; [done|]. split; [done|].
    apply elem_of_cons. right. apply elem_of_app. left.
    by apply (list_elem_of_fmap_2 (stored useGzip)).
  - eexists. split; [reflexivity|]. cbn. split; [done|]. split; [done|].
    apply lookup_insert_eq.
Qed.

End SaveImageFacts.

(** ** The work queue and its concurrency controller *)

Section QueueFacts.
Context {Job : Type}.
Implicit Types (q : PQueue.t Job) (job : Job).

Local Abbreviation enqueue := (@RegistryService.enqueue Job).

Lemma tryToStartAnother_concurrency q :
  PQueue.concurrency (PQueue.tryToStartAnother q).2 = PQueue.concurrency q.
Proof.
  unfold PQueue.tryToStartAnother.
  destruct (PQueue.waiting q); [done|]. by destruct (_ <? _).
Qed.

(** Starting a job moves the oldest waiting job behind the running ones. *)
Lemma tryToStartAnother_jobs q :
  let q' := (PQueue.tryToStartAnother q).2 in
  PQueue.running q' ++ PQueue.waiting q' = PQueue.running q ++ PQueue.waiting q.
Proof.
  unfold PQueue.tryToStartAnother.
  destruct (PQueue.waiting q) as [|j rest] eqn:Hw; cbn; [by rewrite Hw|].
  destruct (_ <? _); cbn; [by rewrite <- app_assoc | by rewrite Hw].
Qed.

Lemma processQueue_concurrency (n : nat) q :
  PQueue.concurrency (PQueue.processQueue n q) = PQueue.concurrency q.
Proof.
  revert q. induction n as [|n IH]; intros q; cbn; [done|].
  pose proof (tryToStartAnother_concurrency q) as Hc.
  destruct (PQueue.tryToStartAnother q) as [[] q']; cbn in *; [by rewrite IH|done].
Qed.

Lemma set_concurrency_concurrency q (c : Z) :
  PQueue.concurrency (PQueue.set_concurrency q c) = c.
Proof. unfold PQueue.set_concurrency. by rewrite processQueue_concurrency. Qed.

(** The overflow test reads the waiting list alone. *)
Lemma enqueue_overflow (queue : list Job) job :
  (RegistryService.MAX_QUEUE_SIZE <= length queue)%nat ->
  enqueue queue job = inl RegistryService.QUEUE_OVERFLOW.
Proof.
  intros Hl. unfold RegistryService.enqueue.
  destruct (Nat.leb_spec RegistryService.MAX_QUEUE_SIZE (length queue)); [done|lia].
Qed.

Lemma enqueue_admits (queue : list Job) job :
  (length queue < RegistryService.MAX_QUEUE_SIZE)%nat ->
  enqueue queue job = inr (queue ++ [job]).
Proof.
  intros Hl. unfold RegistryService.enqueue.
  destruct (Nat.leb_spec RegistryService.MAX_QUEUE_SIZE (length queue)); [lia|done].
Qed.

(** C5 (as the code has it): [queue.add] fails with the queue-overflow error,
    admitting nothing, once 1000 jobs are WAITING in the queue; the
    running jobs are not counted. With fewer than 1000 waiting jobs the job
    is admitted behind every job already there, and one more job is
    queued or running than before. *)
Theorem C5_overflow_counts_waiting_jobs q job :
  ((RegistryService.MAX_QUEUE_SIZE <= PQueue.size q)%nat ->
     RegistryService.add q job = inl RegistryService.QUEUE_OVERFLOW)
  /\ ((PQueue.size q < RegistryService.MAX_QUEUE_SIZE)%nat ->
       exists q', RegistryService.add q job = inr q'
         /\ PQueue.running q' ++ PQueue.waiting q'
            = PQueue.running q ++ PQueue.waiting q ++ [job]
         /\ (PQueue.size q' + PQueue.pending q' = S (PQueue.size q + PQueue.pending q))%nat
         /\ PQueue.concurrency q' = PQueue.concurrency q)
  /\ RegistryService.MAX_QUEUE_SIZE = 1000%nat.
Proof.
  unfold RegistryService.add, PQueue.add, PQueue.size. split; [|split; [|done]].
  - intros Hfull. by rewrite enqueue_overflow.
  - intros Hroom. rewrite enqueue_admits by done. eexists. split; [reflexivity|].
    set (q1 := PQueue.mk _ _ _).
    pose proof (tryToStartAnother_jobs q1) as Hj. cbn in Hj.
    split; [done|]. split; [|by rewrite tryToStartAnother_concurrency].
    apply (f_equal length) in Hj. rewrite !length_app in Hj. cbn in Hj.
    unfold PQueue.pending, PQueue.size. lia.
Qed.

(** The concurrency that one tick of the controller sets. *)
Lemma adjustConcurrency_concurrency (memUsage : MemoryUsage) q :
  PQueue.concurrency (RegistryService.adjustConcurrency memUsage q)
  = if RegistryService.usedMemory memUsage >? RegistryService.MEMORY_THRESHOLD
    then Z.max 1 (PQueue.concurrency q - 1)
    else if PQueue.concurrency q <? 10 then PQueue.concurrency q + 1
         else PQueue.concurrency q.
Proof.
  unfold RegistryService.adjustConcurrency.
  change RegistryService.MAX_CONCURRENCY with 10.
  change RegistryService.MIN_CONCURRENCY with 1.
  destruct (_ >? _); [by rewrite set_concurrency_concurrency|].
  destruct (_ <? _); [by rewrite set_concurrency_concurrency|done].
Qed.

(** C6: one tick of the controller from a concurrency within [1, 10]:
    above the 3 GiB threshold the concurrency goes down by one but not below
    1, otherwise it goes up by one but not above 10; it stays within
    [1, 10]. *)
Theorem C6_adjustConcurrency_stays_in_range (memUsage : MemoryUsage) q :
  1 <= PQueue.concurrency q <= 10 ->
  let c := PQueue.concurrency q in
  let c' := PQueue.concurrency (RegistryService.adjustConcurrency memUsage q) in
  (RegistryService.usedMemory memUsage > 3 * 1024 * 1024 * 1024 -> c' = Z.max 1 (c - 1))
  /\ (RegistryService.usedMemory memUsage <= 3 * 1024 * 1024 * 1024 -> c' = Z.min 10 (c + 1))
  /\ 1 <= c' <= 10.
Proof.
  intros Hc c c'. subst c c'. rewrite adjustConcurrency_concurrency.
  change RegistryService.MEMORY_THRESHOLD with (3 * 1024 * 1024 * 1024).
  destruct (Z.gtb_spec (RegistryService.usedMemory memUsage) (3 * 1024 * 1024 * 1024));
    [lia|].
  destruct (Z.ltb_spec (PQueue.concurrency q) 10); lia.
Qed.

(** Tick after tick, whatever the samples, the concurrency of a queue that
    started within [1, 10] (a new queue starts at 5) stays there. *)
Lemma adjustConcurrency_ticks (samples : list MemoryUsage) q :
  1 <= PQueue.concurrency q <= 10 ->
  1 <= PQueue.concurrency
         (fold_left (fun q memUsage => RegistryService.adjustConcurrency memUsage q) samples q)
    <= 10.
Proof.
  revert q. induction samples as [|memUsage samples IH]; intros q Hc; cbn; [done|].
  apply IH. rewrite adjustConcurrency_concurrency.
  destruct (_ >? _); [lia|]. destruct (Z.ltb_spec (PQueue.concurrency q) 10); lia.
Qed.

End QueueFacts.

(** C5, as stated, fails: after 1000 calls of [add] on a fresh queue five
    jobs run and 995 wait, so queued-plus-running has reached 1000; the next
    [add] is accepted all the same. *)
Lemma C5_counterexample :
  exists q q',
    Sim.add_jobs 1000 RegistryService.new_queue = inr q
    /\ (PQueue.size q + PQueue.pending q = RegistryService.MAX_QUEUE_SIZE)%nat
    /\ RegistryService.add q 1000%nat = inr q'
    /\ last (PQueue.waiting q') = Some 1000%nat
    /\ (PQueue.size q' + PQueue.pending q' = 1001)%nat.
Proof.
  eexists _, _. split; [vm_compute; reflexivity|].
  split; [vm_compute; reflexivity|].
  split; [vm_compute; reflexivity|].
  split; vm_compute; reflexivity.
Qed.

Lemma C5_overflow_counts_waiting_jobs_witness :
  RegistryService.add (PQueue.mk (seq 0 1000) [] 5) 7%nat = inl RegistryService.QUEUE_OVERFLOW
  /\ exists q', RegistryService.add RegistryService.new_queue 7%nat = inr q'
       /\ PQueue.running q' ++ PQueue.waiting q' = [7%nat].
Proof.
  split.
  - apply (C5_overflow_counts_waiting_jobs (PQueue.mk (seq 0 1000) [] 5) 7%nat).
    vm_compute. lia.
  - destruct (C5_overflow_counts_waiting_jobs (@RegistryService.new_queue nat) 7%nat)
      as (_ & Hadmit & _).
    destruct Hadmit as (q' & Hq & Hjobs & _).
    + vm_compute. lia.
    + exists q'. split; [exact Hq | exact Hjobs].
Defined.

Lemma C6_adjustConcurrency_stays_in_range_witness :
  let busy := mkMemoryUsage 0 0 (4 * Sim.GiB) 0 0 in
  1 <= PQueue.concurrency (RegistryService.adjustConcurrency busy
         (@RegistryService.new_queue nat)) <= 10.
Proof.
  intros busy.
  apply (C6_adjustConcurrency_stays_in_range busy (@RegistryService.new_queue nat)).
  vm_compute. split; intros Hc; discriminate Hc.
Defined.

(** ** The memory gates *)

Section GateFacts.
Context {W : Type} `{Host W}.
Implicit Types (st : State W) (w : W) (ready : W -> bool).

Lemma after_waits_0 msg st : after_waits msg 0 st = st.
Proof. destruct st. unfold after_waits. cbn. by rewrite app_nil_r. Qed.

Lemma after_waits_1 msg st :
  after_waits msg 1 st
  = mkState (elapse 1000 (world st))
      ((trace st ++ [EvLog WARN msg]) ++ [EvSleep 1000]) (tmp st).
Proof. unfold after_waits. cbn. by rewrite <- app_assoc. Qed.

Lemma after_waits_S msg (k : nat) st :
  after_waits msg k (after_waits msg 1 st) = after_waits msg (S k) st.
Proof.
  unfold after_waits, waits. cbn [world trace tmp].
  change (Nat.iter 1 (elapse 1000) (world st)) with (elapse 1000 (world st)).
  rewrite <- app_assoc, <- Nat.iter_succ_r. reflexivity.
Qed.

Lemma first_ready_S ready w (k : nat) :
  first_ready ready w (S k) -> first_ready ready (elapse 1000 w) k.
Proof.
  unfold first_ready, waits. intros [Hk Hj]. split.
  - by rewrite <- Nat.iter_succ_r.
  - intros j Hlt. rewrite <- Nat.iter_succ_r. apply Hj. lia.
Qed.

Lemma poll_returns ready msg (k : nat) :
  forall st (fuel : nat), first_ready ready (world st) k -> (k < fuel)%nat ->
    poll ready msg fuel st = (Ok tt, after_waits msg k st).
Proof.
  induction k as [|k IH]; intros st fuel Hr Hlt; (destruct fuel as [|n]; [lia|]); cbn.
  - destruct Hr as [Hk _]. change (ready (world st) = true) in Hk.
    by rewrite Hk, after_waits_0.
  - destruct Hr as [Hk Hj].
    assert (H0 : ready (world st) = false) by (apply (Hj 0%nat); lia).
    rewrite H0.
    rewrite (IH (after_waits msg 1 st) n); [by rewrite after_waits_S| |lia].
    by apply first_ready_S.
Qed.

Lemma poll_sound ready msg (fuel : nat) :
  forall st (o : outcome unit) st', poll ready msg fuel st = (o, st') ->
    match o with
    | Ok _ => exists k, (k < fuel)%nat /\ first_ready ready (world st) k
                        /\ st' = after_waits msg k st
    | Throw _ => False
    | Pending => st' = after_waits msg fuel st
                 /\ forall j, (j < fuel)%nat -> ready (waits j (world st)) = false
    end.
Proof.
  induction fuel as [|n IH]; intros st o st' Hrun; cbn in Hrun.
  - injection Hrun as <- <-. split; [by rewrite after_waits_0|]. intros j Hj. lia.
  - destruct (ready (world st)) eqn:Hr.
    + injection Hrun as <- <-. exists 0%nat. split; [lia|]. split.
      * split; [done|]. intros j Hj. lia.
      * by rewrite after_waits_0.
    + specialize (IH _ _ _ Hrun). destruct o as [[]|e|]; [|done|].
      * destruct IH as (k & Hk & [Hrk Hrj] & ->). exists (S k). split; [lia|]. split.
        -- unfold first_ready, waits in *. cbn [world after_waits] in *. split.
           ++ by rewrite Nat.iter_succ_r.
           ++ intros [|j] Hj; [done|]. rewrite Nat.iter_succ_r. apply Hrj. lia.
        -- by rewrite after_waits_S.
      * destruct IH as [-> Hrj]. split; [by rewrite after_waits_S|].
        intros [|j] Hj; [done|]. unfold waits in *. cbn [world after_waits] in Hrj.
        rewrite Nat.iter_succ_r. apply Hrj. lia.
Qed.


Lemma poll_gate_returns_when ready msg (gate : nat -> M W unit) :
  (forall n st, gate n st = poll ready msg n st) -> gate_returns_when gate ready msg.
Proof.
  intros Heq. split; [|split].
  - intros st k fuel Hr Hlt. rewrite Heq. by apply poll_returns.
  - intros st fuel st' Hrun. rewrite Heq in Hrun.
    destruct (poll_sound _ _ _ _ _ _ Hrun) as (k & Hk & Hr & ->).
    split; [apply Hr|]. by exists k.
  - intros st fuel e st' Hrun. rewrite Heq in Hrun.
    apply (poll_sound _ _ _ _ _ _ Hrun).
Qed.


Lemma service_gate_poll (n : nat) st :
  RegistryService.gate n st = poll service_ready "Memory usage high, delaying task..." n st.
Proof.
  revert st. induction n as [|n IH]; intros st; [done|].
  cbn. unfold bind, get_world, service_ready. cbn.
  destruct (_ <? _); [done|]. rewrite after_waits_1. apply IH.
Qed.

Lemma client_gate_poll (self : Client.Options) (n : nat) st :
  Client.gate self n st = poll (client_ready self) "Memory low, delaying task..." n st.
Proof.
  revert st. induction n as [|n IH]; intros st; [done|].
  cbn. unfold bind, get_world, client_ready. cbn.
  destruct (_ <? _); [|done]. rewrite after_waits_1. apply IH.
Qed.

(** C7 (as the code has it): both gates poll with a fixed wait of 1000 ms
    and never throw. The gate of [RegistryService] returns exactly at the
    first sample whose process usage [heapUsed + external + arrayBuffers]
    is below 3 GiB. The gate of [ContainerRegistryClient] does not read
    usage: it returns exactly at the first sample whose FREE system memory
    [os.freemem()] is not below the configured threshold. *)
Theorem C7_gates_return_at_first_passing_sample :
  gate_returns_when RegistryService.gate service_ready "Memory usage high, delaying task..."
  /\ forall self : Client.Options,
       gate_returns_when (Client.gate self) (client_ready self) "Memory low, delaying task...".
Proof.
  split; [|intros self]; apply poll_gate_returns_when.
  - apply service_gate_poll.
  - apply client_gate_poll.
Qed.

End GateFacts.

(** C7, as stated, fails for the gate of the client: with 4 GiB in use by
    the process (above the 3 GiB threshold) and 8 GiB of free system memory
    it returns at once; with 1 GiB in use and 1 GiB free it keeps waiting. *)
Lemma C7_counterexample :
  let self := Client.mkOptions "https://registry.example" [] None in
  let busy := Sim.mkWorld [(mkMemoryUsage 0 0 (4 * Sim.GiB) 0 0, 8 * Sim.GiB)] (fun _ => None) [] in
  let calm := Sim.mkWorld [(mkMemoryUsage 0 0 (1 * Sim.GiB) 0 0, 1 * Sim.GiB)] (fun _ => None) [] in
  (Client.gate self 1 (Sim.start busy) = (Ok tt, Sim.start busy)
   /\ service_ready busy = false)
  /\ (fst (Client.gate self 60 (Sim.start calm)) = Pending
      /\ service_ready calm = true).
Proof. repeat split; vm_compute; reflexivity. Qed.

Lemma C7_gates_return_at_first_passing_sample_witness :
  let high := (mkMemoryUsage 0 0 (4 * Sim.GiB) 0 0, 1 * Sim.GiB) in
  let w := Sim.mkWorld [high; high; Sim.idle] (fun _ => None) [] in
  let self := Client.mkOptions "https://registry.example" [] None in
  RegistryService.gate 5 (Sim.start w)
    = (Ok tt, after_waits "Memory usage high, delaying task..." 2 (Sim.start w))
  /\ Client.gate self 5 (Sim.start w)
    = (Ok tt, after_waits "Memory low, delaying task..." 2 (Sim.start w)).
Proof.
  intros high w self.
  destruct (C7_gates_return_at_first_passing_sample (W := Sim.World)) as [Hs Hc].
  split.
  - apply (proj1 Hs (Sim.start w) 2%nat 5%nat); [|lia].
    split; [reflexivity|]. intros [|[|j]] Hj; [reflexivity|reflexivity|lia].
  - apply (proj1 (Hc self) (Sim.start w) 2%nat 5%nat); [|lia].
    split; [reflexivity|]. intros [|[|j]] Hj; [reflexivity|reflexivity|lia].
Defined.

(** ** Running the monad *)

Section MonadFacts.
Context {W : Type} `{Host W}.
Implicit Types (st : State W).

Lemma bind_Ok {A B} (m : M W A) (k : A -> M W B) st (b : B) st' :
  bind m k st = (Ok b, st') ->
  exists a st1, m st = (Ok a, st1) /\ k a st1 = (Ok b, st').
Proof.
  unfold bind. destruct (m st) as [[a|e|] st1]; intros Hrun; [eauto|done|done].
Qed.

Lemma bind_steps {A B} (m : M W A) (k : A -> M W B) st (a : A) st1 :
  m st = (Ok a, st1) -> bind m k st = k a st1.
Proof. intros Hm. unfold bind. by rewrite Hm. Qed.

Lemma send_trace (r : Http.Request) st (o : outcome Http.Response) st' :
  send r st = (o, st') ->
  trace st' = trace st ++ [EvRequest r] /\ tmp st' = tmp st.
Proof.
  unfold send. destruct (http r (world st)) as [[resp|] w']; intros [= <- <-]; done.
Qed.

Lemma axios_trace (v : Z -> bool) (r : Http.Request) st (o : outcome Http.Response) st' :
  axios v r st = (o, st') ->
  trace st' = trace st ++ [EvRequest r] /\ tmp st' = tmp st.
Proof.
  unfold axios, bind. destruct (send r st) as [[resp|e|] st1] eqn:Hs.
  - apply send_trace in Hs. unfold ret, throw.
    destruct (v _); intros [= <- <-]; done.
  - apply send_trace in Hs. intros [= <- <-]; done.
  - apply send_trace in Hs. intros [= <- <-]; done.
Qed.

Lemma axios_run (v : Z -> bool) (r : Http.Request) st (resp : Http.Response) (w' : W) :
  http r (world st) = (Some resp, w') ->
  axios v r st
  = (if v (Http.status resp) then Ok resp else Throw (BadStatus (Http.status resp)),
     mkState w' (trace st ++ [EvRequest r]) (tmp st)).
Proof.
  intros Hhttp. unfold axios, bind, send. rewrite Hhttp.
  unfold ret, throw. by destruct (v _).
Qed.

End MonadFacts.

(** ** The registry client *)

Section ClientFacts.
Context {W : Type} `{Host W}.
Variable self : Client.Options.
Variable sha256hex : Buffer -> string.
Variable gzipSync : Buffer -> Buffer.
Implicit Types (st : State W).


(** C8: when the memory gate has let the pull through and the registry
    answers the blob GET with 302 or 307 and no [Location] header (absent
    or empty), [pullBlobAsStream] throws "Missing redirect location"; the
    blob GET is the only request it has issued (no follow-up GET) and no
    stream is handed to the caller. *)
Theorem C8_redirect_without_location_fails
    (fuel : nat) (repository digest : string) st st1
    (response : Http.Response) (w' : W) :
  Client.gate self fuel st = (Ok tt, st1) ->
  http (blob_get self repository digest) (world st1) = (Some response, w') ->
  Http.status response = 302 \/ Http.status response = 307 ->
  JS.falsy (Http.location response) = true ->
  Client.pullBlobAsStream self fuel repository digest st
  = (Throw (JsError "Missing redirect location"),
     mkState w' (trace st1 ++ [EvRequest (blob_get self repository digest)]) (tmp st1)).
Proof.
  intros Hgate Hhttp Hstatus Hloc.
  unfold Client.pullBlobAsStream, Client.waitForMemoryAvailability.
  rewrite (bind_steps _ _ _ _ _ Hgate).
  pose proof (axios_run (fun s => (s =? 200) || (s =? 302) || (s =? 307)) _ _ _ _ Hhttp)
    as Hget.
  unfold blob_get in Hget.
  assert (Hvalid : (Http.status response =? 200) || (Http.status response =? 302)
                   || (Http.status response =? 307) = true)
    by (destruct Hstatus as [-> | ->]; reflexivity).
  rewrite Hvalid in Hget. rewrite (bind_steps _ _ _ _ _ Hget).
  assert (Hredirect : Client.redirect_status (Http.status response) = true)
    by (destruct Hstatus as [-> | ->]; reflexivity).
  rewrite Hredirect.
  destruct (Http.location response) as [[|a l]|]; [reflexivity | discriminate Hloc | reflexivity].
Qed.


Lemma uploadBlob_Ok (repository : string) (blob : Buffer) (digest : string) st st' :
  Client.uploadBlob self repository blob digest st = (Ok tt, st') ->
  exists location, trace st' = trace st ++ upload_requests self repository location blob digest.
Proof.
  unfold Client.uploadBlob. intros Hrun.
  apply bind_Ok in Hrun as (response & st1 & Hpost & Hrun).
  apply bind_Ok in Hrun as (r2 & st2 & Hput & Hret). injection Hret as <-.
  apply axios_trace in Hpost as [Hpost _]. apply axios_trace in Hput as [Hput _].
  eexists. rewrite Hput, Hpost, <- app_assoc. reflexivity.
Qed.

Local Abbreviation dataToUpload := (Client.dataToUpload gzipSync).


Lemma push_layers_Ok (repository : string) (ls : list Client.Layer) :
  forall (acc : list string) st (ds : list string) st',
    Client.push_layers self sha256hex gzipSync repository ls acc st = (Ok ds, st') ->
    ds = acc ++ (layer_digest sha256hex gzipSync <$> ls)
    /\ exists locations, length locations = length ls
         /\ trace st' = trace st ++ concat (zip_with
              (fun location layer =>
                 upload_requests self repository location (dataToUpload layer) (layer_digest sha256hex gzipSync layer))
              locations ls).
Proof.
  induction ls as [|layer ls IH]; intros acc st ds st' Hrun; cbn in Hrun.
  - injection Hrun as <- <-. split; [by rewrite app_nil_r|].
    exists []. by rewrite app_nil_r.
  - apply bind_Ok in Hrun as ([] & st1 & Hup & Hrun).
    apply uploadBlob_Ok in Hup as (location & Hup).
    apply IH in Hrun as (-> & locations & Hlen & Htr). split.
    + by rewrite <- app_assoc.
    + exists (location :: locations). split; [cbn; by rewrite Hlen|].
      rewrite Htr, Hup, <- app_assoc. reflexivity.
Qed.


Lemma layer_entries (ls : list Client.Layer) :
  mapM (fun '(idx, d) => Client.layer_entry ls idx d) (imap pair (layer_digest sha256hex gzipSync <$> ls))
  = Some (layer_entry_of sha256hex gzipSync <$> ls).
Proof.
  apply mapM_Some, Forall2_same_length_lookup. split.
  - by rewrite length_imap, !length_fmap.
  - intros i [j d] desc Hi Hdesc.
    rewrite list_lookup_imap, list_lookup_fmap in Hi. rewrite list_lookup_fmap in Hdesc.
    destruct (ls !! i) as [layer|] eqn:Hl; cbn in *; [|done].
    injection Hi as <- <-. injection Hdesc as <-.
    unfold Client.layer_entry. by rewrite Hl.
Qed.

(** C10 (as the code has it): when [pushImage] completes, the requests it
    has issued are the upload of the config, then for each layer in order
    the upload of [dataToUpload] (the gzip of the buffer when [isGzip] is
    false, the buffer itself otherwise), then the manifest. In that
    manifest each layer's digest is the sha256 of the uploaded bytes and
    its size is the length of the ORIGINAL buffer. So the recorded size is
    the length of what was uploaded exactly for the layers whose [isGzip]
    is true and for those whose gzip has the length of the buffer itself. *)
Theorem C10_pushImage_records_uncompressed_sizes
    (repository tag : string) (manifest : ManifestDoc) (cfg : Buffer)
    (ls : list Client.Layer) st st' :
  Client.pushImage self sha256hex gzipSync repository tag manifest cfg ls st = (Ok tt, st') ->
  exists (location : string) (locations : list string) (entries : list Descriptor),
    length locations = length ls
    /\ trace st' =
         trace st
         ++ upload_requests self repository location cfg ("sha256:" +:+ sha256hex cfg)
         ++ concat (zip_with
              (fun location layer =>
                 upload_requests self repository location (dataToUpload layer)
                   ("sha256:" +:+ sha256hex (dataToUpload layer)))
              locations ls)
         ++ [EvRequest (Client.put_manifest_request self repository tag
               (mkManifestDoc 2 (Some DOCKER_MANIFEST_V2)
                  (Some (mkDescriptor Client.DOCKER_CONFIG ("sha256:" +:+ sha256hex cfg)
                           (JS.Num (Z.of_nat (length cfg)))))
                  (Some entries) None))]
    /\ Forall2 (fun layer d =>
          digest d = "sha256:" +:+ sha256hex (dataToUpload layer)
          /\ size d = JS.Num (Z.of_nat (length (Client.l_data layer)))
          /\ (Client.isGzip layer = false -> dataToUpload layer = gzipSync (Client.l_data layer))
          /\ (Client.isGzip layer = true -> dataToUpload layer = Client.l_data layer)
          /\ (size d = JS.Num (Z.of_nat (length (dataToUpload layer)))
              <-> Client.isGzip layer = true
                  \/ length (gzipSync (Client.l_data layer))
                     = length (Client.l_data layer)))
        ls entries.
Proof.
  unfold Client.pushImage. intros Hrun.
  apply bind_Ok in Hrun as ([] & st1 & Hcfg & Hrun).
  apply bind_Ok in Hrun as (ds & st2 & Hls & Hrun).
  apply uploadBlob_Ok in Hcfg as (location & Hcfg).
  apply push_layers_Ok in Hls as (-> & locations & Hlen & Hls).
  cbn [app] in Hrun. rewrite layer_entries in Hrun.
  apply bind_Ok in Hrun as (resp & st3 & Hput & Hret). injection Hret as <-.
  apply axios_trace in Hput as [Hput _].
  exists location, locations, (layer_entry_of sha256hex gzipSync <$> ls). split; [done|]. split.
  - rewrite Hput, Hls, Hcfg, <- !app_assoc. reflexivity.
  - apply Forall2_fmap_r, Forall_Forall2_diag. rewrite Forall_forall.
    intros layer _. cbn. unfold Client.dataToUpload.
    split; [done|]. split; [done|]. destruct (Client.isGzip layer); cbn.
    + split; [done|]. split; [done|]. split; [by left | done].
    + split; [done|]. split; [done|]. split.
      * intros [= Heq]. right. lia.
      * intros [Hgz|Heq]; [done|]. by rewrite Heq.
Qed.

End ClientFacts.

Lemma C8_redirect_without_location_fails_witness :
  let self := Client.mkOptions "https://registry.example" [] None in
  let w := Sim.mkWorld [Sim.idle] (fun _ => Some (Sim.response 307 Http.JNone Sim.no_body)) [] in
  Client.pullBlobAsStream self 3 "library/app" "sha256:aa" (Sim.start w)
  = (Throw (JsError "Missing redirect location"),
     mkState w [EvRequest (blob_get self "library/app" "sha256:aa")] ∅).
Proof.
  intros self w.
  apply (C8_redirect_without_location_fails self 3 "library/app" "sha256:aa"
           (Sim.start w) (Sim.start w) (Sim.response 307 Http.JNone Sim.no_body) w).
  - reflexivity.
  - reflexivity.
  - right. reflexivity.
  - reflexivity.
Defined.

(** ** What a computation may do to a state *)

Section Preserves.
Context {W : Type} `{Host W}.
Variable R : State W -> State W -> Prop.
Context `{!PreOrder R}.
Implicit Types (st : State W).

Lemma preserves_ret {A : Type} (a : A) : preserves R (ret a : M W A).
Proof. by intros st o st' [= <- <-]. Qed.

Lemma preserves_throw {A : Type} (e : Error) : preserves R (throw e : M W A).
Proof. by intros st o st' [= <- <-]. Qed.

Lemma preserves_pending {A : Type} : preserves R (pending : M W A).
Proof. by intros st o st' [= <- <-]. Qed.

Lemma preserves_get_world : preserves R (get_world : M W W).
Proof. by intros st o st' [= <- <-]. Qed.

Lemma preserves_bind {A B : Type} (m : M W A) (k : A -> M W B) :
  preserves R m -> (forall a, preserves R (k a)) -> preserves R (bind m k).
Proof.
  intros Hm Hk st o st' Hrun. unfold bind in Hrun.
  destruct (m st) as [[a|e|] st1] eqn:Hmst; pose proof (Hm _ _ _ Hmst) as H1.
  - by etrans; [|apply (Hk a _ _ _ Hrun)].
  - by injection Hrun as <- <-.
  - by injection Hrun as <- <-.
Qed.

Lemma preserves_try_catch {A : Type} (m : M W A) (h : Error -> M W A) :
  preserves R m -> (forall e, preserves R (h e)) -> preserves R (try_catch m h).
Proof.
  intros Hm Hh st o st' Hrun. unfold try_catch in Hrun.
  destruct (m st) as [[a|e|] st1] eqn:Hmst; pose proof (Hm _ _ _ Hmst) as H1.
  - by injection Hrun as <- <-.
  - by etrans; [|apply (Hh e _ _ _ Hrun)].
  - by injection Hrun as <- <-.
Qed.

Lemma preserves_for_of {A : Type} (xs : list A) (f : A -> M W unit) :
  (forall x, preserves R (f x)) -> preserves R (for_of xs f).
Proof.
  intros Hf. induction xs as [|x xs IH]; cbn; [apply preserves_ret|].
  apply preserves_bind; [apply Hf | intros _; apply IH].
Qed.

Lemma settle_all_preserves {A : Type} (xs : list A) (f : A -> M W unit) :
  (forall x, preserves R (f x)) ->
  forall st os st', settle_all xs f st = (os, st') -> R st st'.
Proof.
  intros Hf. induction xs as [|x xs IH]; intros st os st' Hrun; cbn in Hrun.
  - by injection Hrun as <- <-.
  - destruct (f x st) as [o st1] eqn:Hx.
    destruct (settle_all xs f st1) as [os' st2] eqn:Hxs. injection Hrun as <- <-.
    by etrans; [apply (Hf x _ _ _ Hx) | apply (IH _ _ _ Hxs)].
Qed.

Lemma preserves_promise_all {A : Type} (xs : list A) (f : A -> M W unit) :
  (forall x, preserves R (f x)) -> preserves R (promise_all xs f).
Proof.
  intros Hf st o st' Hrun. unfold promise_all in Hrun.
  destruct (settle_all xs f st) as [os st1] eqn:Hxs. injection Hrun as <- <-.
  by apply (settle_all_preserves xs f Hf _ _ _ Hxs).
Qed.

End Preserves.

Section TraceFacts.
Context {W : Type} `{Host W}.
Implicit Types (st : State W) (P : Event -> Prop).

#[global] Instance appends_preorder P : PreOrder (appends (W := W) P).
Proof.
  split.
  - intros st. exists []. by rewrite app_nil_r.
  - intros st1 st2 st3 (t1 & Ht1 & HP1) (t2 & Ht2 & HP2).
    exists (t1 ++ t2). rewrite Ht2, Ht1, app_assoc. split; [done|]. by apply Forall_app.
Qed.

#[global] Instance files_kept_preorder : PreOrder (files_kept (W := W)).
Proof.
  split.
  - by intros st path.
  - intros st1 st2 st3 H12 H23 path Hp. by apply H23, H12.
Qed.

Lemma appends_one P (e : Event) st st' :
  P e -> trace st' = trace st ++ [e] -> appends P st st'.
Proof. intros He Ht. exists [e]. split; [done|]. by apply Forall_singleton. Qed.

Lemma emits_emit P (e : Event) : P e -> emits P (emit e : M W unit).
Proof. intros He st o st' [= <- <-]. by apply (appends_one P e). Qed.

Lemma emits_sleep P (ms : Z) : P (EvSleep ms) -> emits P (sleep ms).
Proof. intros He st o st' [= <- <-]. by apply (appends_one P (EvSleep ms)). Qed.

Lemma emits_send P (r : Http.Request) : P (EvRequest r) -> emits P (send r).
Proof.
  intros He st o st' Hrun. apply send_trace in Hrun as [Hrun _].
  by apply (appends_one P (EvRequest r)).
Qed.

Lemma emits_axios P (v : Z -> bool) (r : Http.Request) :
  P (EvRequest r) -> emits P (axios v r).
Proof.
  intros He st o st' Hrun. apply axios_trace in Hrun as [Hrun _].
  by apply (appends_one P (EvRequest r)).
Qed.

Lemma files_kept_same st st' : tmp st' = tmp st -> files_kept st st'.
Proof. intros Ht path. by rewrite Ht. Qed.

Lemma keeps_emit (e : Event) : keeps_files (emit e : M W unit).
Proof. intros st o st' [= <- <-]. by apply files_kept_same. Qed.

Lemma keeps_sleep (ms : Z) : keeps_files (sleep ms).
Proof. intros st o st' [= <- <-]. by apply files_kept_same. Qed.

Lemma keeps_send (r : Http.Request) : keeps_files (send r).
Proof. intros st o st' Hrun. apply send_trace in Hrun as [_ Hrun]. by apply files_kept_same. Qed.

Lemma keeps_axios (v : Z -> bool) (r : Http.Request) : keeps_files (axios v r).
Proof. intros st o st' Hrun. apply axios_trace in Hrun as [_ Hrun]. by apply files_kept_same. Qed.

Lemma manifests_put_app (t1 t2 : list Event) :
  manifests_put (t1 ++ t2) = manifests_put t1 ++ manifests_put t2.
Proof. apply omap_app. Qed.

Lemma manifests_put_quiet (t : list Event) : Forall quiet t -> manifests_put t = [].
Proof.
  induction 1 as [|e t He _ IH]; [done|].
  unfold manifests_put in *. cbn. unfold quiet in He. by rewrite He.
Qed.


Lemma emits_quiet_run {A : Type} (m : M W A) st (o : outcome A) st' :
  emits quiet m -> m st = (o, st') -> no_manifest_put st st'.
Proof.
  intros Hm Hrun. destruct (Hm _ _ _ Hrun) as (t & Ht & HP).
  exists t. split; [done|]. by apply manifests_put_quiet.
Qed.

Lemma no_manifest_put_trans st1 st2 st3 :
  no_manifest_put st1 st2 -> no_manifest_put st2 st3 -> no_manifest_put st1 st3.
Proof.
  intros (t1 & Ht1 & Hq1) (t2 & Ht2 & Hq2). exists (t1 ++ t2).
  rewrite Ht2, Ht1, app_assoc, manifests_put_app, Hq1, Hq2. done.
Qed.

Lemma bind_Throw {A B : Type} (m : M W A) (k : A -> M W B) st (e : Error) st1 :
  m st = (Throw e, st1) -> bind m k st = (Throw e, st1).
Proof. intros Hm. unfold bind. by rewrite Hm. Qed.

Lemma bind_Pending {A B : Type} (m : M W A) (k : A -> M W B) st st1 :
  m st = (Pending, st1) -> bind m k st = (Pending, st1).
Proof. intros Hm. unfold bind. by rewrite Hm. Qed.

(** A failure of the first step is the failure of the sequence. *)
Lemma bind_failed (m k : M W unit) st (o : outcome unit) st1 :
  m st = (o, st1) -> failed o -> bind m (fun _ => k) st = (o, st1).
Proof.
  intros Hm Hf. destruct o as [[]|e|]; [done| |].
  - by apply bind_Throw.
  - by apply bind_Pending.
Qed.

(** A loop stops at the first iteration that fails. *)
Lemma for_of_failed {A : Type} (f : A -> M W unit) (pre : list A) (x : A) (post : list A) :
  forall st st1 (o : outcome unit) st2,
    for_of pre f st = (Ok tt, st1) -> f x st1 = (o, st2) -> failed o ->
    for_of (pre ++ x :: post) f st = (o, st2).
Proof.
  induction pre as [|y pre IH]; intros st st1 o st2 Hpre Hx Hf; cbn in *.
  - injection Hpre as <-. by apply bind_failed.
  - apply bind_Ok in Hpre as ([] & sty & Hy & Hpre).
    rewrite (bind_steps _ _ _ _ _ Hy). by apply (IH _ _ _ _ Hpre).
Qed.

Lemma for_of_fmap {A B : Type} (g : A -> B) (f : B -> M W unit) (xs : list A) st :
  for_of (g <$> xs) f st = for_of xs (fun x => f (g x)) st.
Proof.
  revert st. induction xs as [|x xs IH]; intros st; cbn; [done|].
  unfold bind. destruct (f (g x) st) as [[[]|e|] st1]; [apply IH|done|done].
Qed.

(** [Promise.all] rejects as soon as one of its tasks has not fulfilled. *)
Lemma first_failure_failed (os : list (outcome unit)) (o : outcome unit) :
  o ∈ os -> failed o -> failed (first_failure os).
Proof.
  induction os as [|o' os IH]; intros Hin Hf; [by apply elem_of_nil in Hin|].
  apply elem_of_cons in Hin as [<-|Hin].
  - by destruct o as [[]|e|].
  - destruct o' as [[]|e|]; cbn; [by apply IH|done|done].
Qed.

Lemma first_failure_Ok (os : list (outcome unit)) :
  Forall (fun o => o = Ok tt) os -> first_failure os = Ok tt.
Proof. induction 1 as [|o os -> _ IH]; [done|]. by cbn. Qed.

Lemma promise_all_settled {A : Type} (xs : list A) (f : A -> M W unit) st os st' :
  settle_all xs f st = (os, st') -> promise_all xs f st = (first_failure os, st').
Proof. intros Hs. unfold promise_all. by rewrite Hs. Qed.

End TraceFacts.

(** Discharges [emits P m] and [keeps_files m] along the structure of [m]. *)
Ltac preorder := try (solve [apply _]).

Ltac run_step :=
  first
    [ solve [auto]
    | apply preserves_ret; preorder | apply preserves_throw; preorder
    | apply preserves_pending; preorder | apply preserves_get_world; preorder
    | apply emits_emit; reflexivity | apply emits_sleep; reflexivity
    | apply emits_send; reflexivity | apply emits_axios; reflexivity
    | apply keeps_emit | apply keeps_sleep | apply keeps_send | apply keeps_axios
    | apply preserves_bind; preorder; [|intros ?]
    | apply preserves_for_of; preorder; intros ?
    | apply preserves_promise_all; preorder; intros ?
    | apply preserves_try_catch; preorder; [|intros ?]
    | match goal with
      | |- preserves _ (match ?x with _ => _ end) => destruct x
      | |- preserves _ (if ?b then _ else _) => destruct b
      end ].

Ltac emits_auto := unfold emits, keeps_files in *; repeat run_step.

(** ** [RegistryService]: the buffer-mode sync *)

Section ServiceFacts.
Context {W : Type} `{Host W}.
Variable fuel : nat.
Variables sourceRegistry sourceRepo sourceTag destRegistry destRepo destTag : string.
Implicit Types (st : State W).

Local Abbreviation transfer :=
  (RegistryService.transfer sourceRegistry sourceRepo destRegistry destRepo).
Local Abbreviation transfer_blobs :=
  (RegistryService.transfer_blobs sourceRegistry sourceRepo destRegistry destRepo).
Local Abbreviation fetch_source mode :=
  (RegistryService.fetch_source fuel mode sourceRegistry sourceRepo sourceTag
     destRegistry destRepo destTag).
Local Abbreviation syncImageWithBuffer :=
  (RegistryService.syncImageWithBuffer fuel sourceRegistry sourceRepo sourceTag
     destRegistry destRepo destTag).

Lemma service_gate_quiet (n : nat) : emits quiet (RegistryService.gate (W := W) n).
Proof. induction n as [|n IH]; cbn; emits_auto. Qed.

Lemma fetch_source_quiet (mode : string) : emits quiet (fetch_source mode).
Proof.
  unfold RegistryService.fetch_source, RegistryService.waitForMemoryAvailability,
    FactoryClient.getManifest, log.
  pose proof (service_gate_quiet fuel). emits_auto.
Qed.

Lemma transfer_quiet (d : string) : emits quiet (transfer d).
Proof.
  unfold RegistryService.transfer, FactoryClient.pullBlobAsStream,
    FactoryClient.pushBlobStream, FactoryClient.startBlobUpload.
  emits_auto.
Qed.

Lemma transfer_blobs_quiet (doc : ManifestDoc) (cd : string) :
  emits quiet (transfer_blobs doc cd).
Proof.
  unfold RegistryService.transfer_blobs. pose proof transfer_quiet. emits_auto.
Qed.

(** The blob phase is the loop over the config digest followed by the
    layer digests. *)
Lemma transfer_blobs_loop (doc : ManifestDoc) (cd : string) (ls : list Descriptor) st :
  layers doc = Some ls ->
  transfer_blobs doc cd st = for_of (cd :: (digest <$> ls)) transfer st.
Proof.
  intros Hl. unfold RegistryService.transfer_blobs. rewrite Hl. cbn.
  unfold bind. destruct (transfer cd st) as [[[]|e|] st1]; [|done|done].
  by rewrite for_of_fmap.
Qed.

(** A blob transfer that fails when its turn comes ends the sync there,
    before any manifest PUT. *)
Lemma service_sync_blob_failure
    st (json : Http.Json) st0 (doc : ManifestDoc) (cd : string) (ls : list Descriptor)
    (pre : list string) (d : string) (post : list string) st1 (o : outcome unit) st2 :
  fetch_source "Buffer" st = (Ok json, st0) ->
  RegistryService.config_digest json = Some (doc, cd) ->
  layers doc = Some ls ->
  cd :: (digest <$> ls) = pre ++ d :: post ->
  for_of pre transfer st0 = (Ok tt, st1) ->
  transfer d st1 = (o, st2) ->
  failed o ->
  syncImageWithBuffer st = (o, st2) /\ no_manifest_put st st2.
Proof.
  intros Hfetch Hcfg Hls Hsplit Hpre Hd Hfail.
  assert (Hblobs : transfer_blobs doc cd st0 = (o, st2)).
  { rewrite (transfer_blobs_loop _ _ _ _ Hls), Hsplit.
    by apply (for_of_failed _ _ _ _ _ _ _ _ Hpre Hd). }
  split.
  - unfold RegistryService.syncImageWithBuffer.
    rewrite (bind_steps _ _ _ _ _ Hfetch), Hcfg.
    by apply bind_failed.
  - apply (no_manifest_put_trans st st0 st2).
    + apply (emits_quiet_run _ _ _ _ (fetch_source_quiet "Buffer") Hfetch).
    + apply (emits_quiet_run _ _ _ _ (transfer_blobs_quiet doc cd) Hblobs).
Qed.

End ServiceFacts.

(** ** [RegistryService]: the tarball-mode sync *)

Section TarballFacts.
Context {W : Type} `{Host W}.
Variable TMP_DIR : string.
Variable fuel : nat.
Variables sourceRegistry sourceRepo sourceTag destRegistry destRepo destTag : string.
Implicit Types (st : State W).

Local Abbreviation stage_and_push :=
  (RegistryService.stage_and_push TMP_DIR fuel sourceRegistry sourceRepo sourceTag
     destRegistry destRepo destTag).
Local Abbreviation syncImageWithTarball :=
  (RegistryService.syncImageWithTarball TMP_DIR fuel sourceRegistry sourceRepo sourceTag
     destRegistry destRepo destTag).

(** Step 5 cannot fail: a file that cannot be unlinked costs a warning. *)
Lemma cleanup_total (blobs : list RegistryService.BlobFile) st :
  exists st', RegistryService.cleanup blobs st = (Ok tt, st').
Proof.
  unfold RegistryService.cleanup. revert st.
  induction blobs as [|blob blobs IH]; intros st; cbn; [by eexists|].
  unfold bind at 1. unfold try_catch, bind, RegistryService.unlinkSync, log, emit.
  destruct (tmp st !! RegistryService.filePath blob); [|apply IH].
  destruct (unlink_denied _ _); apply IH.
Qed.

Lemma service_gate_keeps (n : nat) : keeps_files (RegistryService.gate (W := W) n).
Proof. induction n as [|n IH]; cbn; emits_auto. Qed.

Lemma fetch_source_keeps (mode : string) :
  keeps_files (RegistryService.fetch_source fuel mode sourceRegistry sourceRepo sourceTag
                 destRegistry destRepo destTag).
Proof.
  unfold RegistryService.fetch_source, RegistryService.waitForMemoryAvailability,
    FactoryClient.getManifest, log.
  pose proof (service_gate_keeps fuel). emits_auto.
Qed.

Lemma write_file_keeps (path : string) (content : Buffer) :
  keeps_files (RegistryService.write_file (W := W) path content).
Proof.
  intros st o st' [= <- <-] p Hp. cbn.
  destruct (decide (p = path)) as [->|Hne].
  - rewrite lookup_insert_eq. eauto.
  - by rewrite lookup_insert_ne.
Qed.

Lemma downloadBlobToFile_keeps (registry repository d path : string) :
  keeps_files (RegistryService.downloadBlobToFile (W := W) registry repository d path).
Proof.
  unfold RegistryService.downloadBlobToFile, FactoryClient.pullBlobAsStream.
  pose proof write_file_keeps. emits_auto.
Qed.

(** A download that completes leaves its file in TMP_DIR. *)
Lemma downloadBlobToFile_creates (registry repository d path : string) st st' :
  RegistryService.downloadBlobToFile registry repository d path st = (Ok tt, st') ->
  is_Some (tmp st' !! path).
Proof.
  unfold RegistryService.downloadBlobToFile. intros Hrun.
  apply bind_Ok in Hrun as (p & st1 & _ & Hrun).
  apply bind_Ok in Hrun as ([] & st2 & Hw & Hrun).
  injection Hw as <-. destruct (Http.intact _); [|done].
  injection Hrun as <-. cbn. rewrite lookup_insert_eq. eauto.
Qed.

Lemma download_layers_keeps (registry repo : string) (ls : list Descriptor) :
  forall blobs, keeps_files
    (RegistryService.download_layers (W := W) TMP_DIR registry repo ls blobs).
Proof.
  induction ls as [|layer ls IH]; intros blobs; cbn.
  - emits_auto.
  - pose proof downloadBlobToFile_keeps. emits_auto.
Qed.

Lemma pushBlobFromFile_keeps (registry repository d path : string) :
  keeps_files (RegistryService.pushBlobFromFile (W := W) registry repository d path).
Proof.
  unfold RegistryService.pushBlobFromFile, FactoryClient.startBlobUpload,
    RegistryService.statSize.
  emits_auto.
  - intros st o st'. destruct (tmp st !! path); by intros [= <- <-].
  - by intros st o st' [= <- <-].
Qed.

(** What follows the download of the config blob in steps 1 to 4. *)
Lemma stage_rest_keeps (doc : ManifestDoc) (blobs0 : list RegistryService.BlobFile) :
  keeps_files
    (match layers doc with
     | None => throw TypeError
     | Some ls =>
         bind (RegistryService.download_layers TMP_DIR sourceRegistry sourceRepo ls blobs0)
           (fun blobs =>
              bind (for_of blobs (fun blob =>
                      RegistryService.pushBlobFromFile destRegistry destRepo
                        (RegistryService.bf_digest blob) (RegistryService.filePath blob)))
                (fun _ => bind (FactoryClient.putManifest destRegistry destRepo destTag doc)
                            (fun _ => ret blobs)))
     end : M W (list RegistryService.BlobFile)).
Proof.
  unfold FactoryClient.putManifest.
  pose proof download_layers_keeps. pose proof pushBlobFromFile_keeps. emits_auto.
Qed.

(** Steps 1 to 4 remove no file. *)
Lemma stage_and_push_keeps : keeps_files stage_and_push.
Proof.
  unfold RegistryService.stage_and_push.
  pose proof fetch_source_keeps. pose proof downloadBlobToFile_keeps.
  pose proof stage_rest_keeps.
  unfold keeps_files in *. apply preserves_bind; preorder; [auto|]. intros json.
  destruct (RegistryService.config_digest json) as [[doc cd]|]; [|emits_auto].
  apply preserves_bind; preorder; auto.
Qed.

(** A sync that fails has failed within steps 1 to 4 and ends right
    there: step 5 was not run, and no file has been removed. *)
Lemma tarball_failure_skips_cleanup st (o : outcome unit) st' :
  syncImageWithTarball st = (o, st') -> failed o ->
  (exists o' : outcome (list RegistryService.BlobFile),
     stage_and_push st = (o', st') /\ failed o')
  /\ files_kept st st'.
Proof.
  unfold RegistryService.syncImageWithTarball. intros Hrun Hfail.
  unfold bind at 1 in Hrun.
  destruct (stage_and_push st) as [[blobs|e|] st1] eqn:Hstage.
  - unfold bind in Hrun. destruct (cleanup_total blobs st1) as (st2 & Hclean).
    rewrite Hclean in Hrun. injection Hrun as <- <-. done.
  - injection Hrun as <- <-. split; [by eexists|]. apply (stage_and_push_keeps _ _ _ Hstage).
  - injection Hrun as <- <-. split; [by eexists|]. apply (stage_and_push_keeps _ _ _ Hstage).
Qed.

(** So when the sync fails after the config blob was staged, the file of
    the config blob is left in TMP_DIR. *)
Lemma tarball_failure_leaves_config_file
    st (json : Http.Json) st0 (doc : ManifestDoc) (cd : string) st1 (o : outcome unit) st' :
  RegistryService.fetch_source fuel "Tarball" sourceRegistry sourceRepo sourceTag
    destRegistry destRepo destTag st = (Ok json, st0) ->
  RegistryService.config_digest json = Some (doc, cd) ->
  RegistryService.downloadBlobToFile sourceRegistry sourceRepo cd
    (RegistryService.blob_path TMP_DIR cd) st0 = (Ok tt, st1) ->
  syncImageWithTarball st = (o, st') -> failed o ->
  is_Some (tmp st' !! RegistryService.blob_path TMP_DIR cd).
Proof.
  intros Hfetch Hcfg Hdl Hrun Hfail.
  destruct (tarball_failure_skips_cleanup _ _ _ Hrun Hfail) as [(o' & Hstage & _) _].
  unfold RegistryService.stage_and_push in Hstage.
  rewrite (bind_steps _ _ _ _ _ Hfetch), Hcfg, (bind_steps _ _ _ _ _ Hdl) in Hstage.
  apply (stage_rest_keeps _ _ _ _ _ Hstage).
  by apply (downloadBlobToFile_creates _ _ _ _ _ _ Hdl).
Qed.

End TarballFacts.

(** ** [copyImage] *)

Section CopyFacts.
Import RegistryCopy.
Context {W : Type} `{Host W}.
Variables src dest : ImageRef.
Implicit Types (st : State W) (f : Fetched).

Lemma fetchManifest_quiet (ref : ImageRef) : emits quiet (fetchManifest (W := W) ref).
Proof. unfold fetchManifest, fetch. emits_auto. Qed.

Lemma downloadBlob_quiet (ref : ImageRef) (d : string) : emits quiet (downloadBlob (W := W) ref d).
Proof. unfold downloadBlob, fetch. emits_auto. Qed.

Lemma uploadViaPipeline_quiet (s : Http.Stream) (ref : ImageRef) (d : string) :
  emits quiet (uploadViaPipeline (W := W) s ref d).
Proof. unfold uploadViaPipeline, fetch. emits_auto. Qed.

Lemma checkBlobSize_quiet (ref : ImageRef) (d : string) :
  emits quiet (checkBlobSize (W := W) ref d).
Proof. unfold checkBlobSize, fetch. emits_auto. Qed.

Lemma copy_blob_quiet (what : string) (d : string) : emits quiet (copy_blob what src dest d).
Proof.
  unfold copy_blob, check_memory.
  pose proof checkBlobSize_quiet. pose proof downloadBlob_quiet.
  pose proof uploadViaPipeline_quiet. emits_auto.
Qed.

Lemma copy_blob_v1_quiet (d : string) : emits quiet (copy_blob_v1 src dest d).
Proof.
  unfold copy_blob_v1.
  pose proof downloadBlob_quiet. pose proof uploadViaPipeline_quiet. emits_auto.
Qed.

Lemma copy_blobs_quiet (manifest : ManifestDoc) : emits quiet (copy_blobs src dest manifest).
Proof. unfold copy_blobs. pose proof copy_blob_quiet. emits_auto. Qed.

(** The PUT of [uploadManifest] is the one request it issues. *)
Lemma uploadManifest_trace (ref : ImageRef) (manifest : ManifestDoc)
    (mediaType reference : string) st (o : outcome unit) st' :
  uploadManifest ref manifest mediaType reference st = (o, st') ->
  trace st' = trace st ++ [EvRequest (upload_manifest_request ref manifest mediaType reference)].
Proof.
  unfold uploadManifest, bind.
  destruct (send _ st) as [[res|e|] st1] eqn:Hsend; apply send_trace in Hsend as [Hsend _].
  - unfold ret, throw. destruct (negb (ok res)); by intros [= <- <-].
  - by intros [= <- <-].
  - by intros [= <- <-].
Qed.


(** A layer transfer that fails makes the copy of a concrete manifest fail
    once the layer tasks have settled: the config is not transferred and no
    manifest is PUT. *)
Lemma copy_layer_failure (depth : nat) st f st0 (ls : list Descriptor)
    (os : list (outcome unit)) st1 (o : outcome unit) :
  fetchManifest src st = (Ok f, st0) ->
  is_index (f_mediaType f) = false ->
  layers (f_manifest f) = Some ls ->
  layer_tasks src dest ls st0 = (os, st1) ->
  o ∈ os -> failed o ->
  copyImage (S depth) src dest st = (first_failure os, st1)
  /\ failed (first_failure os)
  /\ no_manifest_put st st1.
Proof.
  intros Hfetch Hidx Hls Htasks Hin Hfail.
  pose proof (first_failure_failed os o Hin Hfail) as Hff.
  assert (Hblobs : copy_blobs src dest (f_manifest f) st0 = (first_failure os, st1)).
  { unfold copy_blobs. rewrite Hls.
    apply bind_failed; [|done]. by apply promise_all_settled. }
  split; [|split; [done|]].
  - cbn. rewrite (bind_steps _ _ _ _ _ Hfetch), Hidx.
    unfold copy_concrete. by apply bind_failed.
  - apply (no_manifest_put_trans st st0 st1).
    + apply (emits_quiet_run _ _ _ _ (fetchManifest_quiet src) Hfetch).
    + apply (emits_quiet_run _ _ _ _ (copy_blobs_quiet (f_manifest f)) Hblobs).
Qed.

(** So does a config transfer that fails after every layer went through. *)
Lemma copy_config_failure (depth : nat) st f st0 (ls : list Descriptor)
    (os : list (outcome unit)) st1 (cfg : Descriptor) (o : outcome unit) st2 :
  fetchManifest src st = (Ok f, st0) ->
  is_index (f_mediaType f) = false ->
  layers (f_manifest f) = Some ls ->
  layer_tasks src dest ls st0 = (os, st1) ->
  Forall (fun o => o = Ok tt) os ->
  config (f_manifest f) = Some cfg ->
  copy_blob "config" src dest (digest cfg) st1 = (o, st2) ->
  failed o ->
  copyImage (S depth) src dest st = (o, st2) /\ no_manifest_put st st2.
Proof.
  intros Hfetch Hidx Hls Htasks Hall Hcfg Hcopy Hfail.
  assert (Hblobs : copy_blobs src dest (f_manifest f) st0 = (o, st2)).
  { unfold copy_blobs. rewrite Hls.
    erewrite bind_steps; [|rewrite (promise_all_settled _ _ _ _ _ Htasks);
                            by rewrite (first_failure_Ok _ Hall)].
    by rewrite Hcfg. }
  split.
  - cbn. rewrite (bind_steps _ _ _ _ _ Hfetch), Hidx.
    unfold copy_concrete. by apply bind_failed.
  - apply (no_manifest_put_trans st st0 st2).
    + apply (emits_quiet_run _ _ _ _ (fetchManifest_quiet src) Hfetch).
    + apply (emits_quiet_run _ _ _ _ (copy_blobs_quiet (f_manifest f)) Hblobs).
Qed.

(** An index: until its children have settled the copy has issued the
    manifest GET and nothing more of its own; if a child failed it stops in
    the state the children left; if all fulfilled, its next and only step is
    the PUT of the index. *)
Lemma copy_index (depth : nat) st f st0 (ms : list Descriptor)
    (os : list (outcome unit)) st1 :
  fetchManifest src st = (Ok f, st0) ->
  is_index (f_mediaType f) = true ->
  manifests (f_manifest f) = Some ms ->
  child_copies src dest depth ms (mkState (world st0) (trace st0 ++ [MULTI_ARCH]) (tmp st0)) = (os, st1) ->
  no_manifest_put st st0
  /\ (forall o, o ∈ os -> failed o ->
        copyImage (S depth) src dest st = (first_failure os, st1)
        /\ failed (first_failure os))
  /\ (Forall (fun o => o = Ok tt) os ->
        exists o st2,
          copyImage (S depth) src dest st = (o, st2)
          /\ trace st2 = trace st1 ++
               [EvRequest (upload_manifest_request dest (f_manifest f) (f_mediaType f)
                             (reference dest))]).
Proof.
  intros Hfetch Hidx Hms Hkids.
  assert (Hrun : copyImage (S depth) src dest st
                 = bind (promise_all ms (fun m =>
                           copyImage depth (with_reference src (digest m))
                                           (with_reference dest (digest m))))
                     (fun _ => uploadManifest dest (f_manifest f) (f_mediaType f)
                                 (reference dest))
                     (mkState (world st0) (trace st0 ++ [MULTI_ARCH]) (tmp st0))).
  { cbn. rewrite (bind_steps _ _ _ _ _ Hfetch), Hidx. by rewrite Hms. }
  pose proof (promise_all_settled _ _ _ _ _ Hkids) as Hall.
  split; [|split].
  - apply (emits_quiet_run _ _ _ _ (fetchManifest_quiet src) Hfetch).
  - intros o Hin Hfail. pose proof (first_failure_failed os o Hin Hfail) as Hff.
    split; [|done]. rewrite Hrun. by apply bind_failed.
  - intros Hok. rewrite (first_failure_Ok _ Hok) in Hall.
    rewrite Hrun, (bind_steps _ _ _ _ _ Hall).
    destruct (uploadManifest dest (f_manifest f) (f_mediaType f) (reference dest) st1)
      as [o st2] eqn:Hput.
    exists o, st2. split; [done|]. by apply uploadManifest_trace in Hput.
Qed.

(** ver 1 on a concrete manifest: what is PUT at the destination is the
    document that was fetched, as it was fetched. *)
Lemma copyImage_v1_republishes_source (depth : nat) st f st0 st' :
  fetchManifest src st = (Ok f, st0) ->
  is_index (f_mediaType f) = false ->
  copyImage_v1 (S depth) src dest st = (Ok tt, st') ->
  exists t, trace st' = trace st ++ t /\ manifests_put t = [f_manifest f].
Proof.
  intros Hfetch Hidx Hrun. cbn in Hrun.
  rewrite (bind_steps _ _ _ _ _ Hfetch), Hidx in Hrun.
  unfold copy_concrete_v1 in Hrun.
  destruct (layers (f_manifest f)) as [ls|]; [|done].
  apply bind_Ok in Hrun as ([] & st1 & Hlayers & Hrun).
  destruct (config (f_manifest f)) as [cfg|]; [|done].
  apply bind_Ok in Hrun as ([] & st2 & Hcfg & Hrun).
  apply bind_Ok in Hrun as ([] & st3 & Hput & Hlog).
  injection Hlog as <-. cbn.
  apply uploadManifest_trace in Hput.
  destruct (emits_quiet_run _ _ _ _ (fetchManifest_quiet src) Hfetch) as (t0 & Ht0 & Hq0).
  assert (Hq1 : emits quiet (promise_all (layerBlobs ls)
                   (fun layer => copy_blob_v1 src dest (digest layer))))
    by (pose proof copy_blob_v1_quiet; emits_auto).
  destruct (emits_quiet_run _ _ _ _ Hq1 Hlayers) as (t1 & Ht1 & Hq1').
  destruct (emits_quiet_run _ _ _ _ (copy_blob_v1_quiet (digest cfg)) Hcfg) as (t2 & Ht2 & Hq2).
  eexists. rewrite Hput, Ht2, Ht1, Ht0, <- !app_assoc. split; [reflexivity|].
  rewrite !manifests_put_app, Hq0, Hq1', Hq2. reflexivity.
Qed.

End CopyFacts.

(** ** The sync operations *)

Section SyncClaims.
Context {W : Type} `{Host W}.
Implicit Types (st : State W).

(** C2: a failed blob transfer or child copy blocks the manifest PUT.
    - [RegistryService.syncImageWithBuffer]: when the transfer of a blob
      fails in its turn, the task ends with that failure in that state, and
      no manifest has been PUT since the task began.
    - [copyImage] on a concrete manifest: when a layer task has failed, or
      the config transfer fails after all layer tasks fulfilled, the copy
      fails and no manifest has been PUT since it began.
    - [copyImage] on an index: before its children settle the copy has PUT
      nothing; when a child copy has failed the copy fails in the state the
      children left, so the index is not PUT; when every child fulfilled, the
      one step that follows is the PUT of the index. *)
Theorem C2_failed_transfer_blocks_manifest_put :
  (forall (fuel : nat) (sourceRegistry sourceRepo sourceTag destRegistry destRepo destTag : string)
      st (json : Http.Json) st0 (doc : ManifestDoc) (cd : string) (ls : list Descriptor)
      (pre : list string) (d : string) (post : list string) st1 (o : outcome unit) st2,
      RegistryService.fetch_source fuel "Buffer" sourceRegistry sourceRepo sourceTag
        destRegistry destRepo destTag st = (Ok json, st0) ->
      RegistryService.config_digest json = Some (doc, cd) ->
      layers doc = Some ls ->
      cd :: (digest <$> ls) = pre ++ d :: post ->
      for_of pre (RegistryService.transfer sourceRegistry sourceRepo destRegistry destRepo) st0
        = (Ok tt, st1) ->
      RegistryService.transfer sourceRegistry sourceRepo destRegistry destRepo d st1 = (o, st2) ->
      failed o ->
      RegistryService.syncImageWithBuffer fuel sourceRegistry sourceRepo sourceTag
        destRegistry destRepo destTag st = (o, st2)
      /\ no_manifest_put st st2)
  /\ (forall (src dest : RegistryCopy.ImageRef) (depth : nat) st (f : RegistryCopy.Fetched) st0
        (ls : list Descriptor) (os : list (outcome unit)) st1,
        RegistryCopy.fetchManifest src st = (Ok f, st0) ->
        RegistryCopy.is_index (RegistryCopy.f_mediaType f) = false ->
        layers (RegistryCopy.f_manifest f) = Some ls ->
        layer_tasks src dest ls st0 = (os, st1) ->
        (forall o, o ∈ os -> failed o ->
           RegistryCopy.copyImage (S depth) src dest st = (first_failure os, st1)
           /\ failed (first_failure os)
           /\ no_manifest_put st st1)
        /\ (forall (cfg : Descriptor) (o : outcome unit) st2,
              Forall (fun o => o = Ok tt) os ->
              config (RegistryCopy.f_manifest f) = Some cfg ->
              RegistryCopy.copy_blob "config" src dest (digest cfg) st1 = (o, st2) ->
              failed o ->
              RegistryCopy.copyImage (S depth) src dest st = (o, st2)
              /\ no_manifest_put st st2))
  /\ (forall (src dest : RegistryCopy.ImageRef) (depth : nat) st (f : RegistryCopy.Fetched) st0
        (ms : list Descriptor) (os : list (outcome unit)) st1,
        RegistryCopy.fetchManifest src st = (Ok f, st0) ->
        RegistryCopy.is_index (RegistryCopy.f_mediaType f) = true ->
        manifests (RegistryCopy.f_manifest f) = Some ms ->
        child_copies src dest depth ms
          (mkState (world st0) (trace st0 ++ [MULTI_ARCH]) (tmp st0)) = (os, st1) ->
        no_manifest_put st st0
        /\ (forall o, o ∈ os -> failed o ->
              RegistryCopy.copyImage (S depth) src dest st = (first_failure os, st1)
              /\ failed (first_failure os))
        /\ (Forall (fun o => o = Ok tt) os ->
              exists o st2,
                RegistryCopy.copyImage (S depth) src dest st = (o, st2)
                /\ trace st2 = trace st1 ++
                     [EvRequest (RegistryCopy.upload_manifest_request dest
                                   (RegistryCopy.f_manifest f) (RegistryCopy.f_mediaType f)
                                   (RegistryCopy.reference dest))])).
Proof.
  split; [|split].
  - intros. by eapply service_sync_blob_failure.
  - intros src dest depth st f st0 ls os st1 Hfetch Hidx Hls Htasks. split.
    + intros o Hin Hfail. by eapply copy_layer_failure.
    + intros cfg o st2 Hall Hcfg Hcopy Hfail. by eapply copy_config_failure.
  - intros. by eapply copy_index.
Qed.

End SyncClaims.

Lemma C2_failed_transfer_blocks_manifest_put_witness :
  let w := Sim.calm (Sim.registry (Some "3") (Some "sha256:a1")) in
  let w2 := Sim.calm (Sim.registry (Some "3") (Some "sha256:m2")) in
  let src := RegistryCopy.mkImageRef "src.example" "app" "1.0" "token" in
  let dest := RegistryCopy.mkImageRef "dst.example" "app" "1.0" "token" in
  let multi_src := RegistryCopy.mkImageRef "src.example" "app" "multi" "token" in
  let multi_dest := RegistryCopy.mkImageRef "dst.example" "app" "multi" "token" in
  (exists o st2,
     RegistryService.syncImageWithBuffer 3 "https://src.example" "app" "1.0"
       "https://dst.example" "app" "1.0" (Sim.start w) = (o, st2)
     /\ failed o /\ no_manifest_put (Sim.start w) st2)
  /\ (exists o st1,
        RegistryCopy.copyImage 2 src dest (Sim.start w) = (o, st1)
        /\ failed o /\ no_manifest_put (Sim.start w) st1)
  /\ (exists o st1,
        RegistryCopy.copyImage 2 multi_src multi_dest (Sim.start w2) = (o, st1)
        /\ failed o
        /\ manifests_put (trace st1) = [Sim.src_manifest]).
Proof.
  intros w w2 src dest multi_src multi_dest.
  destruct (C2_failed_transfer_blocks_manifest_put (W := Sim.World)) as (Hsvc & Hcopy & Hidx).
  split; [|split].
  - pose (run := RegistryService.fetch_source 3 "Buffer" "https://src.example" "app" "1.0"
                   "https://dst.example" "app" "1.0" (Sim.start w)).
    pose (st0 := snd run).
    pose (r1 := RegistryService.transfer "https://src.example" "app" "https://dst.example" "app"
                  "sha256:c0" st0).
    pose (r2 := RegistryService.transfer "https://src.example" "app" "https://dst.example" "app"
                  "sha256:a1" (snd r1)).
    destruct (Hsvc 3%nat "https://src.example" "app" "1.0" "https://dst.example" "app" "1.0"
                (Sim.start w) (Http.JManifest Sim.src_manifest) st0 Sim.src_manifest
                "sha256:c0" [Sim.src_layer] ["sha256:c0"] "sha256:a1" [] (snd r1)
                (fst r2) (snd r2)) as [Hrun Hno].
    + vm_compute. reflexivity.
    + reflexivity.
    + reflexivity.
    + reflexivity.
    + vm_compute. reflexivity.
    + vm_compute. reflexivity.
    + vm_compute. exact I.
    + exists (fst r2), (snd r2). split; [exact Hrun|]. split; [vm_compute; exact I | exact Hno].
  - pose (r0 := RegistryCopy.fetchManifest src (Sim.start w)).
    pose (r1 := layer_tasks src dest [Sim.src_layer] (snd r0)).
    destruct (Hcopy src dest 1%nat (Sim.start w)
                (RegistryCopy.mkFetched Sim.src_manifest DOCKER_MANIFEST_V2 "")
                (snd r0) [Sim.src_layer] (fst r1) (snd r1)) as [Hlayer _].
    + vm_compute. reflexivity.
    + reflexivity.
    + reflexivity.
    + vm_compute. reflexivity.
    + destruct (Hlayer (Throw (JsError "Failed to HEAD blob sha256:a1: 404")))
        as (Hrun & Hfail & Hno).
      * vm_compute. apply list_elem_of_here.
      * exact I.
      * exists (first_failure (fst r1)), (snd r1). split; [exact Hrun|]. split; [exact Hfail | exact Hno].
  - pose (r0 := RegistryCopy.fetchManifest multi_src (Sim.start w2)).
    pose (st0 := mkState (world (snd r0)) (trace (snd r0) ++ [MULTI_ARCH]) (tmp (snd r0))).
    pose (ms := [ mkDescriptor DOCKER_MANIFEST_V2 "sha256:m1" (JS.Num 528);
                  mkDescriptor DOCKER_MANIFEST_V2 "sha256:m2" (JS.Num 528) ]).
    pose (r1 := child_copies multi_src multi_dest 1 ms st0).
    destruct (Hidx multi_src multi_dest 1%nat (Sim.start w2)
                (RegistryCopy.mkFetched Sim.src_index Sim.MANIFEST_LIST "")
                (snd r0) ms (fst r1) (snd r1)) as (_ & Hfailing & _).
    + vm_compute. reflexivity.
    + reflexivity.
    + reflexivity.
    + vm_compute. reflexivity.
    + destruct (Hfailing (Throw (JsError "Failed to fetch manifest: 404"))) as (Hrun & Hfail).
      * vm_compute. apply list_elem_of_further, list_elem_of_here.
      * exact I.
      * exists (first_failure (fst r1)), (snd r1). split; [exact Hrun|]. split; [exact Hfail|].
        vm_compute. reflexivity.
Defined.

(** ** [ContainerRegistryClient.syncImageWithBuffer] and the tarball sync *)

Section ClientSyncFacts.
Context {W : Type} `{Host W}.
Variable self : Client.Options.
Variable fuel : nat.
Implicit Types (st : State W).

Lemma client_gate_quiet (n : nat) : emits quiet (Client.gate (W := W) self n).
Proof. induction n as [|n IH]; cbn; emits_auto. Qed.

Lemma client_pull_quiet (repository d : string) :
  emits quiet (Client.pullBlobAsStream self fuel repository d).
Proof.
  unfold Client.pullBlobAsStream, Client.waitForMemoryAvailability.
  pose proof (client_gate_quiet fuel). emits_auto.
Qed.

Lemma client_push_quiet (repository d : string) (s : Http.Stream) (n : JS.number) :
  emits quiet (Client.pushBlobStream self fuel repository d s n).
Proof.
  unfold Client.pushBlobStream, Client.waitForMemoryAvailability, Client.startBlobUpload.
  pose proof (client_gate_quiet fuel). emits_auto.
Qed.

Lemma copy_descriptor_reduces (ls : list Descriptor) :
  Forall2 reduced_from ls (map Client.copy_descriptor ls).
Proof. apply Forall2_fmap_r, Forall_Forall2_diag, Forall_forall. by intros l _. Qed.

(** What a completed [syncImageWithBuffer] of the client republishes: a
    document built anew, with the layers of the source manifest in their
    order, each reduced to its media type, digest and size (any other
    member of a layer entry, such as [urls], is dropped), the config digest
    and media type of the source, and as config size the size that the
    pull of the config blob reported, which comes from the
    [Content-Length] header of the blob response. Nothing else of the
    source document is republished. *)
Lemma client_sync_republishes (sourceRepo sourceTag destRepo destTag : string) st st' :
  Client.syncImageWithBuffer self fuel sourceRepo sourceTag destRepo destTag st = (Ok tt, st') ->
  exists (source : ManifestDoc) (cfg : Descriptor) (ls : list Descriptor) st0
         (pulled : PulledBlob) st1,
    Client.getImageManifest self sourceRepo sourceTag st = (Ok (Http.JManifest source), st0)
    /\ config source = Some cfg
    /\ layers source = Some ls
    /\ Client.pullBlobAsStream self fuel sourceRepo (digest cfg) st0 = (Ok pulled, st1)
    /\ exists t (republished : ManifestDoc) (ls' : list Descriptor),
         trace st' = trace st ++ t
         /\ manifests_put t = [republished]
         /\ schemaVersion republished = 2
         /\ docMediaType republished = Some DOCKER_MANIFEST_V2
         /\ config republished
            = Some (mkDescriptorWith (mediaType cfg) (digest cfg) (pb_size pulled) [])
         /\ layers republished = Some ls'
         /\ Forall2 reduced_from ls ls'
         /\ manifests republished = None
         /\ docOthers republished = [].
Proof.
  unfold Client.syncImageWithBuffer. intros Hrun.
  apply bind_Ok in Hrun as (body & st0 & Hget & Hrun).
  destruct body as [|source|loc]; [done| |done].
  destruct (config source) as [cfg|] eqn:Hcfg; [|done].
  apply bind_Ok in Hrun as (pulled & st1 & Hpull & Hrun).
  apply bind_Ok in Hrun as ([] & st2 & Hpush & Hrun).
  destruct (layers source) as [ls|] eqn:Hls; [|done].
  apply bind_Ok in Hrun as ([] & st3 & Hloop & Hrun).
  apply bind_Ok in Hrun as (resp & st4 & Hput & Hret). injection Hret as <-.
  exists source, cfg, ls, st0, pulled, st1. repeat (split; [done|]).
  assert (Hq0 : emits quiet (Client.getImageManifest (W := W) self sourceRepo sourceTag))
    by (unfold Client.getImageManifest; emits_auto).
  destruct (emits_quiet_run _ _ _ _ Hq0 Hget) as (t0 & Ht0 & Hn0).
  destruct (emits_quiet_run _ _ _ _ (client_pull_quiet _ _) Hpull) as (t1 & Ht1 & Hn1).
  destruct (emits_quiet_run _ _ _ _ (client_push_quiet _ _ _ _) Hpush) as (t2 & Ht2 & Hn2).
  assert (Hq3 : emits quiet (for_of ls (fun layer =>
                   bind (Client.pullBlobAsStream self fuel sourceRepo (digest layer))
                     (fun p => Client.pushBlobStream self fuel destRepo (digest layer)
                                 (pb_stream p) (pb_size p))))).
  { pose proof client_pull_quiet. pose proof client_push_quiet. emits_auto. }
  destruct (emits_quiet_run _ _ _ _ Hq3 Hloop) as (t3 & Ht3 & Hn3).
  apply axios_trace in Hput as [Hput _].
  eexists _, _, (map Client.copy_descriptor ls).
  rewrite Hput, Ht3, Ht2, Ht1, Ht0, <- !app_assoc. split; [reflexivity|].
  rewrite !manifests_put_app, Hn0, Hn1, Hn2, Hn3. split; [reflexivity|].
  cbn. repeat (split; [reflexivity|]). split; [apply copy_descriptor_reduces|done].
Qed.

End ClientSyncFacts.

(** C1 (the code departs from the claim): [copyImage] republishes the
    fetched document itself, but [ContainerRegistryClient.syncImageWithBuffer]
    rebuilds it with the config size taken from the [Content-Length] of
    the config blob response. Against a registry whose manifest declares a
    config of 1469 bytes and which serves that blob as 3 bytes, announced
    as such, the sync completes and the manifest PUT at the destination
    records a config size of 3; config digest and layers, sizes included,
    are the source's. *)
Theorem C1_client_sync_records_response_length :
  let st := Sim.start (Sim.calm (Sim.registry (Some "3") None)) in
  exists st' republished,
    fst (Client.getImageManifest Sim.options "src/app" "1.0" st)
      = Ok (Http.JManifest Sim.src_manifest)
    /\ Client.syncImageWithBuffer Sim.options 3 "src/app" "1.0" "dst/app" "1.0" st = (Ok tt, st')
    /\ manifests_put (trace st') = [republished]
    /\ size <$> config Sim.src_manifest = Some (JS.Num 1469)
    /\ size <$> config republished = Some (JS.Num 3)
    /\ digest <$> config republished = digest <$> config Sim.src_manifest
    /\ layers republished = layers Sim.src_manifest.
Proof.
  intros st. eexists _, _.
  split; [vm_compute; reflexivity|].
  split; [vm_compute; reflexivity|].
  split; [vm_compute; reflexivity|].
  repeat split.
Qed.

(** The same sync when the blob responses carry no [Content-Length]: the
    pull reports a size of 0, the push announces 0 for the three bytes of
    the config blob, and undici refuses the body. The sync fails before
    any blob is uploaded and republishes nothing. *)
Lemma client_sync_without_content_length :
  let st := Sim.start (Sim.calm (Sim.registry None None)) in
  exists st',
    Client.syncImageWithBuffer Sim.options 3 "src/app" "1.0" "dst/app" "1.0" st
    = (Throw LengthMismatch, st')
    /\ manifests_put (trace st') = []
    /\ blobs_put (trace st') = [].
Proof.
  intros st. eexists.
  split; [vm_compute; reflexivity|].
  split; vm_compute; reflexivity.
Qed.

(** C3 (the code departs from the claim): a tarball-mode sync whose layer
    download is refused (404) after the config blob was written to
    [TMP_DIR] throws, and the config blob's file is still there: step 5,
    the only place that unlinks, is reached on success alone. *)
Theorem C3_failed_tarball_sync_leaves_temp_file :
  let st := Sim.start (Sim.calm (Sim.registry (Some "3") (Some "sha256:a1"))) in
  exists st',
    RegistryService.syncImageWithTarball "/app/tmp" 3
      "https://src.example" "app" "1.0" "https://dst.example" "app" "1.0" st
    = (Throw (BadStatus 404), st')
    /\ tmp st = ∅
    /\ map_to_list (tmp st') = [("/app/tmp/sha256_c0.blob", Sim.blob_bytes)]
    /\ manifests_put (trace st') = [].
Proof.
  intros st. eexists.
  split; [vm_compute; reflexivity|].
  split; [reflexivity|].
  split; vm_compute; reflexivity.
Qed.

(** The successful run does clean up: both files are unlinked. *)
Lemma tarball_sync_success_cleans_up :
  let st := Sim.start (Sim.calm (Sim.registry (Some "3") None)) in
  exists st',
    RegistryService.syncImageWithTarball "/app/tmp" 3
      "https://src.example" "app" "1.0" "https://dst.example" "app" "1.0" st
    = (Ok tt, st')
    /\ map_to_list (tmp st') = []
    /\ manifests_put (trace st') = [Sim.src_manifest].
Proof.
  intros st. eexists.
  split; [vm_compute; reflexivity|].
  split; vm_compute; reflexivity.
Qed.

(** A file that cannot be unlinked is reported with a warning and the
    sync still completes. *)
Lemma tarball_sync_unlink_failure_is_logged :
  let w := Sim.mkWorld [Sim.idle] (Sim.registry (Some "3") None) ["/app/tmp/sha256_a1.blob"] in
  exists st',
    RegistryService.syncImageWithTarball "/app/tmp" 3
      "https://src.example" "app" "1.0" "https://dst.example" "app" "1.0" (Sim.start w)
    = (Ok tt, st')
    /\ map_to_list (tmp st') = [("/app/tmp/sha256_a1.blob", Sim.blob_bytes)]
    /\ In (EvLog WARN "[Tarball] Failed to delete temp file: /app/tmp/sha256_a1.blob")
         (trace st').
Proof.
  intros w. eexists.
  split; [vm_compute; reflexivity|].
  split; [vm_compute; reflexivity|].
  vm_compute. tauto.
Qed.

Lemma C10_pushImage_records_uncompressed_sizes_witness :
  let ls := [Client.mkLayer [x01; x02; x03] false; Client.mkLayer [x1f; x8b; x08; x00] true] in
  let ran := Client.pushImage Sim.options Sim.digest_of Sim.gzip_of "dst/app" "1.0"
               Sim.src_manifest [x7b; x7d] ls
               (Sim.start (Sim.calm (Sim.registry None None))) in
  exists entries : list Descriptor,
    manifests_put (trace (snd ran))
    = [mkManifestDoc 2 (Some DOCKER_MANIFEST_V2)
         (Some (mkDescriptor Client.DOCKER_CONFIG ("sha256:" +:+ Sim.digest_of [x7b; x7d])
                  (JS.Num 2)))
         (Some entries) None]
    /\ size <$> entries = [JS.Num 3; JS.Num 4]
    /\ digest <$> entries
       = ["sha256:" +:+ Sim.digest_of (Sim.gzip_of [x01; x02; x03]);
          "sha256:" +:+ Sim.digest_of [x1f; x8b; x08; x00]].
Proof.
  intros ls ran.
  destruct (C10_pushImage_records_uncompressed_sizes Sim.options Sim.digest_of Sim.gzip_of
              "dst/app" "1.0" Sim.src_manifest [x7b; x7d] ls
              (Sim.start (Sim.calm (Sim.registry None None))) (snd ran))
    as (location & locations & entries & Hlen & Htrace & Hentries).
  - vm_compute. reflexivity.
  - exists entries. rewrite Htrace.
    rewrite !manifests_put_app.
    apply Forall2_cons_inv_l in Hentries as (d1 & es & (Hd1 & Hs1 & _) & Hentries & ->).
    apply Forall2_cons_inv_l in Hentries as (d2 & es' & (Hd2 & Hs2 & _) & Hentries & ->).
    apply Forall2_nil_inv_l in Hentries as ->.
    destruct locations as [|l1 [|l2 [|l3 locations]]]; try discriminate Hlen.
    cbn. rewrite Hd1, Hd2, Hs1, Hs2. repeat split.
Defined.

(** C10, as stated, fails: a layer of 23 bytes [0x61] whose [isGzip] is
    false is uploaded as the 23 bytes that gzip makes of it, and the
    manifest records the size 23, the length of the original buffer: the
    recorded size is the length of the uploaded blob although [isGzip] is
    not true. *)
Lemma C10_counterexample :
  let layer := Client.mkLayer Sim.a23 false in
  let ran := Client.pushImage Sim.options Sim.digest_of Sim.gzipSync "dst/app" "1.0"
               Sim.src_manifest [x7b; x7d] [layer]
               (Sim.start (Sim.calm (Sim.registry None None))) in
  exists (pushed : ManifestDoc) (d : Descriptor),
    fst ran = Ok tt
    /\ manifests_put (trace (snd ran)) = [pushed]
    /\ layers pushed = Some [d]
    /\ blobs_put (trace (snd ran)) = [[x7b; x7d]; Sim.a23_gz]
    /\ Client.isGzip layer = false
    /\ Client.dataToUpload Sim.gzipSync layer = Sim.a23_gz
    /\ size d = JS.Num 23
    /\ Z.of_nat (length Sim.a23_gz) = 23
    /\ Z.of_nat (length (Client.l_data layer)) = 23.
Proof.
  intros layer ran. eexists _, _.
  split; [vm_compute; reflexivity|].
  split; [vm_compute; reflexivity|].
  split; [reflexivity|].
  split; [vm_compute; reflexivity|].
  repeat split.
Qed.

Lemma C9_layout_is_content_addressed_witness :
  let written := [ [x7b; x7d]; Sim.gzip_of [x01; x02; x03]; [x1f; x8b; x08; x00] ] in
  let junk : gmap string Buffer := {[ Sim.digest_of [x1f; x8b; x08; x00] := [xff] ]} in
  exists m out,
    SaveImage.saveAsOCIImageLayout Sim.digest_of Sim.gzip_of Cases.manifest_bytes
      Cases.image junk Cases.meta None = Some (m, out)
    /\ Forall (fun data => SaveImage.blobs out !! Sim.digest_of data = Some data) written.
Proof.
  intros written junk.
  destruct (C9_layout_is_content_addressed Sim.digest_of Sim.gzip_of Cases.manifest_bytes
              Cases.image junk Cases.meta None)
    as (m & out & Hrun & _ & _ & Hheld & _).
  exists m, out. split; [exact Hrun|].
  assert (Hm : m = (default (m, out)
                      (SaveImage.saveAsOCIImageLayout Sim.digest_of Sim.gzip_of
                         Cases.manifest_bytes Cases.image junk Cases.meta None)).1)
    by (by rewrite Hrun).
  assert (Hin : forall data, data ∈ written ->
                  SaveImage.blobs out !! Sim.digest_of data = Some data).
  { intros data Hdata.
    destruct (Hheld data) as (held & Hfile & _ & _ & Halone).
    - rewrite Hm. revert Hdata. unfold written.
      rewrite !elem_of_cons.
      intros [->|[->|[->|Hnil]]]; [| | |by apply elem_of_nil in Hnil];
        vm_compute; repeat (first [left; reflexivity | right]).
    - rewrite Hfile. f_equal. apply Halone. rewrite Hm.
      intros other Hother Hhash. vm_compute in Hother.
      match type of Hother with list_elem_of _ ?l => change (other ∈ l) in Hother end.
      rewrite !elem_of_cons in Hother. revert Hdata. unfold written.
      rewrite !elem_of_cons.
      destruct Hother as [->|[->|[->|[->|Hnil]]]]; [| | | |by apply elem_of_nil in Hnil];
        (intros [->|[->|[->|Hnil]]]; [| | |by apply elem_of_nil in Hnil]);
        first [reflexivity | vm_compute in Hhash; discriminate Hhash]. }
  by apply Forall_forall.
Defined.

(** * Further properties *)

(** ** The copier: what is republished, what is never fetched *)

Section CopyExtras.
Import RegistryCopy.
Context {W : Type} `{Host W}.
Variables src dest : ImageRef.
Implicit Types (st : State W) (f : Fetched).

Lemma first_failure_Ok_inv (os : list (outcome unit)) :
  first_failure os = Ok tt -> Forall (fun o => o = Ok tt) os.
Proof.
  induction os as [|[[]|e|] os IH]; cbn; intros Hf; [done| |done|done].
  constructor; [done|by apply IH].
Qed.

Lemma settle_all_length {A : Type} (xs : list A) (g : A -> M W unit) :
  forall st os st', settle_all xs g st = (os, st') -> length os = length xs.
Proof.
  induction xs as [|x xs IH]; intros st os st' Hrun; cbn in Hrun.
  - by injection Hrun as <- <-.
  - destruct (g x st) as [o st1]. destruct (settle_all xs g st1) as [os' st2] eqn:Hxs.
    injection Hrun as <- <-. cbn. by rewrite (IH _ _ _ Hxs).
Qed.

(** A completed copy of a concrete manifest has PUT one manifest, as its
    last request: the fetched document, unchanged, under the destination
    reference, with the media type of the fetch response as its content
    type. *)
Theorem copyImage_concrete_republishes (depth : nat) st f st0 st' :
  fetchManifest src st = (Ok f, st0) ->
  is_index (f_mediaType f) = false ->
  copyImage (S depth) src dest st = (Ok tt, st') ->
  exists t,
    trace st' = trace st ++ t
      ++ [EvRequest (upload_manifest_request dest (f_manifest f) (f_mediaType f)
                       (reference dest));
          EvLog LOG (copied_message src dest (f_digest f))]
    /\ manifests_put t = [].
Proof.
  intros Hfetch Hidx Hrun. cbn in Hrun.
  rewrite (bind_steps _ _ _ _ _ Hfetch), Hidx in Hrun. unfold copy_concrete in Hrun.
  apply bind_Ok in Hrun as ([] & st1 & Hblobs & Hrun).
  apply bind_Ok in Hrun as ([] & st2 & Hput & Hlog). injection Hlog as <-. cbn.
  apply uploadManifest_trace in Hput.
  destruct (emits_quiet_run _ _ _ _ (fetchManifest_quiet src) Hfetch) as (t0 & Ht0 & Hq0).
  destruct (emits_quiet_run _ _ _ _ (copy_blobs_quiet src dest (f_manifest f)) Hblobs)
    as (t1 & Ht1 & Hq1).
  exists (t0 ++ t1). rewrite Hput, Ht1, Ht0, <- !app_assoc. split; [reflexivity|].
  by rewrite manifests_put_app, Hq0, Hq1.
Qed.

(** A completed copy of an index: every child copy fulfilled, and the
    request that follows them, the last one, is the PUT of the fetched
    index document, unchanged. *)
Theorem copyImage_index_republishes (depth : nat) st f st0 (ms : list Descriptor) st' :
  fetchManifest src st = (Ok f, st0) ->
  is_index (f_mediaType f) = true ->
  manifests (f_manifest f) = Some ms ->
  copyImage (S depth) src dest st = (Ok tt, st') ->
  exists os st1,
    child_copies src dest depth ms (mkState (world st0) (trace st0 ++ [MULTI_ARCH]) (tmp st0))
      = (os, st1)
    /\ length os = length ms
    /\ Forall (fun o => o = Ok tt) os
    /\ trace st' = trace st1
         ++ [EvRequest (upload_manifest_request dest (f_manifest f) (f_mediaType f)
                          (reference dest))].
Proof.
  intros Hfetch Hidx Hms Hrun. cbn in Hrun.
  rewrite (bind_steps _ _ _ _ _ Hfetch), Hidx in Hrun.
  apply bind_Ok in Hrun as ([] & st0' & Hlog & Hrun). injection Hlog as <-.
  rewrite Hms in Hrun.
  apply bind_Ok in Hrun as ([] & st1 & Hkids & Hput).
  unfold copy_children, promise_all in Hkids. unfold child_copies.
  destruct (settle_all ms _ _) as [os st1'] eqn:Hsettle. injection Hkids as Hff <-.
  exists os, st1'. split; [done|]. split; [by apply settle_all_length in Hsettle|].
  split; [by apply first_failure_Ok_inv|]. by apply uploadManifest_trace in Hput.
Qed.

(** URLs of the copier. *)
Lemma blob_url_inj (ref : ImageRef) (d1 d2 : string) :
  blob_url ref d1 = blob_url ref d2 -> d1 = d2.
Proof.
  unfold blob_url. intros Heq.
  repeat (apply (inj (String.append _)) in Heq). done.
Qed.

Lemma manifest_url_not_blob_url (ref : ImageRef) (r d : string) :
  manifest_url ref r <> blob_url ref d.
Proof.
  unfold manifest_url, blob_url. intros Heq.
  do 4 (apply (inj (String.append _)) in Heq). discriminate Heq.
Qed.

Lemma copy_blob_not_fetching (what d d' : string) :
  d' <> d -> emits (not_fetching src d) (copy_blob what src dest d').
Proof.
  intros Hne. unfold emits, copy_blob, check_memory, checkBlobSize, downloadBlob,
    uploadViaPipeline, fetch.
  assert (Hurl : blob_url src d' <> blob_url src d) by (intros Heq; by apply blob_url_inj in Heq).
  repeat first
    [ apply emits_send; cbn; try done; intros [Hm|Hm]; discriminate Hm
    | run_step ].
Qed.

Lemma settle_all_preserves_in {A : Type} (R : State W -> State W -> Prop) `{!PreOrder R}
    (xs : list A) (g : A -> M W unit) :
  (forall x, x ∈ xs -> preserves R (g x)) ->
  forall st os st', settle_all xs g st = (os, st') -> R st st'.
Proof.
  induction xs as [|x xs IH]; intros Hg st os st' Hrun; cbn in Hrun.
  - by injection Hrun as <- <-.
  - destruct (g x st) as [o st1] eqn:Hx.
    destruct (settle_all xs g st1) as [os' st2] eqn:Hxs. injection Hrun as <- <-.
    etrans; [apply (Hg x (list_elem_of_here _ _) _ _ _ Hx)|].
    apply (IH (fun y Hy => Hg y (list_elem_of_further _ _ _ Hy)) _ _ _ Hxs).
Qed.

Lemma layerBlobs_not_foreign (ls : list Descriptor) (l : Descriptor) :
  l ∈ layerBlobs ls <-> l ∈ ls /\ JS.includes (mediaType l) "foreign" = false.
Proof.
  unfold layerBlobs. rewrite !list_elem_of_In, filter_In.
  destruct (JS.includes (mediaType l) "foreign"); cbn; intuition congruence.
Qed.

(** A foreign layer is not transferred: when no transferred blob shares its
    digest, the copy of a concrete manifest issues no GET or HEAD for that
    digest at the source, whatever its outcome (the republished document
    still lists the layer, as it is the fetched one). *)
Theorem copyImage_skips_foreign_layers (depth : nat) st f st0 (ls : list Descriptor)
    (d : string) (o : outcome unit) st' :
  fetchManifest src st = (Ok f, st0) ->
  is_index (f_mediaType f) = false ->
  layers (f_manifest f) = Some ls ->
  (forall l, l ∈ ls -> digest l = d -> JS.includes (mediaType l) "foreign" = true) ->
  (forall cfg, config (f_manifest f) = Some cfg -> digest cfg <> d) ->
  copyImage (S depth) src dest st = (o, st') ->
  exists t, trace st' = trace st ++ t /\ Forall (not_fetching src d) t.
Proof.
  intros Hfetch Hidx Hls Hforeign Hcfg Hrun. cbn in Hrun.
  rewrite (bind_steps _ _ _ _ _ Hfetch), Hidx in Hrun.
  change (appends (not_fetching src d) st st'). etrans.
  - assert (Hf : emits (not_fetching src d) (fetchManifest (W := W) src)); [|by apply Hf in Hfetch].
    unfold emits, fetchManifest, fetch.
    repeat first
      [ apply emits_send; cbn; intros _; apply manifest_url_not_blob_url
      | run_step ].
  - revert Hrun. generalize st0 o st'. change (emits (not_fetching src d) (copy_concrete src dest f)).
    unfold emits, copy_concrete, copy_blobs, uploadManifest. rewrite Hls.
    apply preserves_bind; preorder.
    + apply preserves_bind; preorder.
      * intros s1 o1 s1' Hp. unfold promise_all in Hp.
        destruct (settle_all _ _ s1) as [os s2] eqn:Hs. injection Hp as <- <-.
        apply (settle_all_preserves_in (appends (not_fetching src d))) in Hs; [done|].
        intros l Hl. apply layerBlobs_not_foreign in Hl as [Hl Hnf].
        apply copy_blob_not_fetching. intros Heq.
        rewrite (Hforeign l Hl Heq) in Hnf. discriminate Hnf.
      * intros _. destruct (config (f_manifest f)) as [cfg|] eqn:Hc; [|run_step].
        apply copy_blob_not_fetching. by apply Hcfg.
    + intros _. repeat first
        [ apply emits_send; cbn; intros [Hm|Hm]; discriminate Hm
        | apply emits_emit; exact I
        | run_step ].
Qed.

End CopyExtras.

Section CopyGuardFacts.
Import RegistryCopy.
Context {W : Type} `{Host W}.
Variables src dest : ImageRef.
Implicit Types (st : State W).

Lemma send_run (r : Http.Request) st (resp : option Http.Response) (w' : W) :
  http r (world st) = (resp, w') ->
  send r st = (match resp with Some res => Ok res | None => Throw NoResponse end,
               mkState w' (trace st ++ [EvRequest r]) (tmp st)).
Proof. intros Hhttp. unfold send. rewrite Hhttp. by destruct resp. Qed.

Lemma checkBlobSize_run (ref : ImageRef) (d : string) st (res : Http.Response) (w1 : W) :
  http (head_request ref d) (world st) = (Some res, w1) ->
  let sized := ok res && match probed_size res with
                         | JS.Num n => n <=? MAX_BLOB_SIZE_BYTES
                         | JS.NaN => false
                         end in
  exists o : outcome JS.number,
    checkBlobSize ref d st
      = (o, mkState w1 (trace st ++ [EvRequest (head_request ref d)]) (tmp st))
    /\ ((sized = true /\ o = Ok (probed_size res)) \/ (sized = false /\ exists e, o = Throw e)).
Proof.
  intros Hhttp. unfold checkBlobSize, fetch. fold (head_request ref d). unfold bind.
  rewrite (send_run _ _ _ _ Hhttp). unfold probed_size.
  destruct (ok res); cbn; [|by eauto 6].
  destruct (Http.contentLength res) as [[|a l]|]; cbn; [by eauto 6| |by eauto 6].
  destruct (JS.parseInt (String a l)) as [n|]; cbn; [|by eauto 6].
  rewrite Z.gtb_ltb, Z.ltb_antisym. destruct (n <=? MAX_BLOB_SIZE_BYTES); cbn; by eauto 6.
Qed.

Lemma downloadBlob_trace (ref : ImageRef) (d : string) st (o : outcome Http.Stream) st' :
  downloadBlob ref d st = (o, st') ->
  trace st' = trace st ++ [EvRequest (download_request ref d)].
Proof.
  unfold downloadBlob, fetch, bind. fold (download_request ref d).
  destruct (send _ st) as [[res|e|] st1] eqn:Hsend; apply send_trace in Hsend as [Hsend _].
  - unfold ret, throw. destruct (negb (ok res)); by intros [= <- <-].
  - by intros [= <- <-].
  - by intros [= <- <-].
Qed.

(** The size probe and the memory check guard every transfer of
    [RegistryCopyService]: unless the HEAD is answered 2xx with a
    [Content-Length] of at most 500 MiB that [parseInt] reads, and the
    resident set is below 300 MiB once it is answered, the task throws
    having issued the HEAD and nothing else; otherwise the request that
    follows the HEAD is the GET of the blob. *)
Theorem copy_blob_is_guarded (what d : string) st (resp : option Http.Response) (w1 : W) :
  http (head_request src d) (world st) = (resp, w1) ->
  ((forall res, resp = Some res -> probe_passes res w1 = false) ->
     exists e, copy_blob what src dest d st
       = (Throw e, mkState w1 (trace st ++ [EvRequest (head_request src d)]) (tmp st)))
  /\ (forall res, resp = Some res -> probe_passes res w1 = true ->
        forall (o : outcome unit) st', copy_blob what src dest d st = (o, st') ->
          exists t, trace st' = trace st
            ++ [EvRequest (head_request src d); EvRequest (download_request src d)] ++ t).
Proof.
  intros Hhttp. unfold copy_blob. destruct resp as [res|].
  - destruct (checkBlobSize_run src d st res w1 Hhttp) as (o1 & Hprobe & Hsized).
    unfold probe_passes. split.
    + intros Hno. specialize (Hno res eq_refl).
      destruct Hsized as [[Hsized ->]|[_ (e & ->)]].
      * rewrite (bind_steps _ _ _ _ _ Hprobe). rewrite Hsized in Hno.
        cbn in Hno. unfold check_memory, bind, get_world. cbn. rewrite Hno. cbn. by eexists.
      * exists e. unfold bind. by rewrite Hprobe.
    + intros ? [= <-] Hpass o st'. apply andb_prop in Hpass as [Hpass Hmem].
      destruct Hsized as [[_ ->]|[Hsized _]]; [|congruence].
      rewrite (bind_steps _ _ _ _ _ Hprobe).
      unfold check_memory, bind at 1 2, get_world. cbn. rewrite Hmem. cbn.
      unfold bind. destruct (downloadBlob src d _) as [[s|e|] st1] eqn:Hget;
        apply downloadBlob_trace in Hget; cbn in Hget.
      * intros Hrun.
        destruct (emits_quiet_run _ _ _ _ (uploadViaPipeline_quiet s dest d) Hrun) as (t & Ht & _).
        exists t. rewrite Ht, Hget, <- !app_assoc. reflexivity.
      * intros [= <- <-]. exists []. by rewrite Hget, <- !app_assoc.
      * intros [= <- <-]. exists []. by rewrite Hget, <- !app_assoc.
  - split; [|done]. intros _. exists NoResponse.
    unfold checkBlobSize, fetch. fold (head_request src d). unfold bind.
    by rewrite (send_run _ _ _ _ Hhttp).
Qed.

(** [uploadViaPipeline] fulfils exactly when the POST is answered with a
    non-empty [Location] header, whatever its status, that location with
    [&digest=...] appended makes a URL, the stream ends cleanly, and the PUT
    to that URL is answered 2xx. These two requests are then all it has
    issued. *)
Theorem uploadViaPipeline_fulfilled (s : Http.Stream) (ref : ImageRef) (d : string) st st' :
  uploadViaPipeline s ref d st = (Ok tt, st') <->
  exists (startRes : Http.Response) (w1 : W) (a : ascii) (l : string)
         (res : Http.Response) (w2 : W),
    http (session_request ref) (world st) = (Some startRes, w1)
    /\ Http.location startRes = Some (String a l)
    /\ url_ok (String a l +:+ "&digest=" +:+ d) = true
    /\ http (blob_put_request ref (String a l) d s) w1 = (Some res, w2)
    /\ Http.intact s = true
    /\ ok res = true
    /\ st' = mkState w2
               (trace st ++ [EvRequest (session_request ref);
                             EvRequest (blob_put_request ref (String a l) d s)])
               (tmp st).
Proof.
  unfold uploadViaPipeline, fetch. fold (session_request ref). unfold bind at 1.
  destruct (http (session_request ref) (world st)) as [startRes w1] eqn:Hpost.
  rewrite (send_run _ _ _ _ Hpost). split.
  - destruct startRes as [startRes|]; [|done].
    destruct (Http.location startRes) as [[|a l]|] eqn:Hloc; [done| |done].
    destruct (url_ok _) eqn:Hurl; [|done]. cbn. unfold bind.
    fold (blob_put_request ref (String a l) d s).
    destruct (http (blob_put_request ref (String a l) d s) w1) as [res w2] eqn:Hput.
    rewrite (send_run _ (mkState w1 _ _) _ _ Hput).
    destruct res as [res|]; [|done].
    destruct (Http.intact s) eqn:Hint; [|done]. cbn.
    destruct (ok res) eqn:Hok; [|done]. intros [= <-].
    exists startRes, w1, a, l, res, w2. rewrite <- app_assoc. done.
  - intros (sr & w1' & a & l & res & w2 & [= -> <-] & Hloc & Hurl & Hput & Hint & Hok & ->).
    rewrite Hloc, Hurl. cbn. unfold bind.
    fold (blob_put_request ref (String a l) d s).
    rewrite (send_run _ (mkState w1 _ _) _ _ Hput), Hint, Hok. cbn.
    by rewrite <- app_assoc.
Qed.

End CopyGuardFacts.

(** ** The first version of the copier *)

Section CopyV0Facts.
Import RegistryCopy.
Context {W : Type} `{Host W}.
Variable statusText : Http.Response -> string.
Variables src dest : ImageRef.
Implicit Types (st : State W).

(** The first version takes for multi-arch only a response whose
    [Content-Type] is the Docker manifest-list type, letter for letter.
    Anything else is copied as a concrete manifest, so a document without
    [config] (an OCI index, say) makes the copy throw a [TypeError] right
    after the manifest was fetched: nothing is transferred and nothing is
    PUT. *)
Theorem copyImage_v0_needs_the_docker_list_type (depth : nat) st
    (f : RegistryCopyV0.Fetched) st0 :
  RegistryCopyV0.fetchManifest statusText src st = (Ok f, st0) ->
  RegistryCopyV0.f_mediaType f <> Some RegistryCopyV0.MANIFEST_LIST ->
  config (RegistryCopyV0.f_manifest f) = None ->
  RegistryCopyV0.copyImage statusText (S depth) src dest st = (Throw TypeError, st0).
Proof.
  intros Hfetch Htype Hcfg. cbn. rewrite (bind_steps _ _ _ _ _ Hfetch).
  assert (Hno : RegistryCopyV0.is_manifest_list (RegistryCopyV0.f_mediaType f) = false).
  { unfold RegistryCopyV0.is_manifest_list.
    destruct (RegistryCopyV0.f_mediaType f) as [s|]; [|done].
    destruct (String.eqb_spec s RegistryCopyV0.MANIFEST_LIST); congruence. }
  rewrite Hno. unfold RegistryCopyV0.copy_concrete. by rewrite Hcfg.
Qed.

(** The children of a manifest list are copied one after the other: the
    first child copy that fails ends the copy there, in the state that
    child left. The children behind it are not attempted and the list is
    not PUT. *)
Theorem copyImage_v0_stops_at_first_failed_child (depth : nat) st
    (f : RegistryCopyV0.Fetched) st0 (pre : list Descriptor) (m : Descriptor)
    (post : list Descriptor) st1 (o : outcome unit) st2 :
  RegistryCopyV0.fetchManifest statusText src st = (Ok f, st0) ->
  RegistryCopyV0.f_mediaType f = Some RegistryCopyV0.MANIFEST_LIST ->
  manifests (RegistryCopyV0.f_manifest f) = Some (pre ++ m :: post) ->
  RegistryCopyV0.copy_children (RegistryCopyV0.copyImage statusText depth) src dest pre
    (mkState (world st0) (trace st0 ++ [EvLog LOG "Multi-arch image detected"]) (tmp st0))
    = (Ok tt, st1) ->
  RegistryCopyV0.copyImage statusText depth
    (with_reference src (digest m)) (with_reference dest (digest m)) st1 = (o, st2) ->
  failed o ->
  RegistryCopyV0.copyImage statusText (S depth) src dest st = (o, st2).
Proof.
  intros Hfetch Htype Hms Hpre Hchild Hfail. cbn.
  rewrite (bind_steps _ _ _ _ _ Hfetch), Htype. cbn.
  unfold log, emit, bind at 1. cbn. rewrite Hms. apply bind_failed; [|done].
  unfold RegistryCopyV0.copy_children in *.
  by apply (for_of_failed _ pre m post _ st1).
Qed.

End CopyV0Facts.

Lemma copyImage_concrete_republishes_witness :
  let st := Sim.start (Sim.calm (Sim.registry (Some "3") None)) in
  exists t,
    trace (RegistryCopy.copyImage 1 Cases.src Cases.dest st).2
    = trace st ++ t
        ++ [EvRequest (RegistryCopy.upload_manifest_request Cases.dest Sim.src_manifest
                         DOCKER_MANIFEST_V2 "1.0");
            EvLog LOG "Image app@ copied to app@1.0"]
    /\ manifests_put t = [].
Proof.
  intros st.
  apply (copyImage_concrete_republishes Cases.src Cases.dest 0 st
           (RegistryCopy.mkFetched Sim.src_manifest DOCKER_MANIFEST_V2 "")
           (RegistryCopy.fetchManifest Cases.src st).2).
  - vm_compute. reflexivity.
  - reflexivity.
  - vm_compute. reflexivity.
Defined.

Lemma copyImage_index_republishes_witness :
  let st := Sim.start (Sim.calm (Sim.registry (Some "3") None)) in
  exists (os : list (outcome unit)) (st1 : State Sim.World),
    length os = 2%nat
    /\ Forall (fun o => o = Ok tt) os
    /\ trace (RegistryCopy.copyImage 2 Cases.multi_src Cases.multi_dest st).2
       = trace st1
           ++ [EvRequest (RegistryCopy.upload_manifest_request Cases.multi_dest Sim.src_index
                            Sim.MANIFEST_LIST "multi")].
Proof.
  intros st.
  pose (ms := [ mkDescriptor DOCKER_MANIFEST_V2 "sha256:m1" (JS.Num 528);
                mkDescriptor DOCKER_MANIFEST_V2 "sha256:m2" (JS.Num 528) ]).
  destruct (copyImage_index_republishes Cases.multi_src Cases.multi_dest 1 st
              (RegistryCopy.mkFetched Sim.src_index Sim.MANIFEST_LIST "")
              (RegistryCopy.fetchManifest Cases.multi_src st).2 ms
              (RegistryCopy.copyImage 2 Cases.multi_src Cases.multi_dest st).2)
    as (os & st1 & _ & Hlen & Hall & Htrace).
  - vm_compute. reflexivity.
  - reflexivity.
  - reflexivity.
  - vm_compute. reflexivity.
  - exists os, st1. split; [exact Hlen|]. split; [exact Hall | exact Htrace].
Defined.

Lemma copyImage_skips_foreign_layers_witness :
  let srv := Cases.serving Cases.windows_manifest (Some DOCKER_MANIFEST_V2) (Some "3")
               202 (Some Cases.SESSION) in
  let st := Sim.start (Sim.calm srv) in
  exists t,
    trace (RegistryCopy.copyImage 1 Cases.src Cases.dest st).2 = trace st ++ t
    /\ Forall (not_fetching Cases.src "sha256:f0") t.
Proof.
  intros srv st.
  apply (copyImage_skips_foreign_layers Cases.src Cases.dest 0 st
           (RegistryCopy.mkFetched Cases.windows_manifest DOCKER_MANIFEST_V2 "")
           (RegistryCopy.fetchManifest Cases.src st).2
           [Cases.foreign_layer; Sim.src_layer] "sha256:f0"
           (RegistryCopy.copyImage 1 Cases.src Cases.dest st).1).
  - vm_compute. reflexivity.
  - reflexivity.
  - reflexivity.
  - intros l Hl Hd.
    apply elem_of_cons in Hl as [->|Hl]; [reflexivity|].
    apply elem_of_cons in Hl as [->|Hl]; [discriminate Hd|].
    by apply elem_of_nil in Hl.
  - intros cfg [= <-] Hd. discriminate Hd.
  - vm_compute. reflexivity.
Defined.

Lemma copy_blob_is_guarded_witness :
  let big := Sim.start (Sim.calm (Sim.registry (Some "524288001") None)) in
  let small := Sim.start (Sim.calm (Sim.registry (Some "524288000") None)) in
  (exists e, RegistryCopy.copy_blob "blob" Cases.src Cases.dest "sha256:a1" big
     = (Throw e, mkState (world big) [EvRequest (head_request Cases.src "sha256:a1")] ∅))
  /\ exists t,
       trace (RegistryCopy.copy_blob "blob" Cases.src Cases.dest "sha256:a1" small).2
       = [EvRequest (head_request Cases.src "sha256:a1");
          EvRequest (download_request Cases.src "sha256:a1")] ++ t.
Proof.
  intros big small. split.
  - destruct (copy_blob_is_guarded Cases.src Cases.dest "blob" "sha256:a1" big
                (Sim.registry (Some "524288001") None (head_request Cases.src "sha256:a1"))
                (world big)) as [Hstop _].
    + reflexivity.
    + apply Hstop. intros res [= <-]. vm_compute. reflexivity.
  - destruct (copy_blob_is_guarded Cases.src Cases.dest "blob" "sha256:a1" small
                (Sim.registry (Some "524288000") None (head_request Cases.src "sha256:a1"))
                (world small)) as [_ Hgo].
    + reflexivity.
    + apply (Hgo _ eq_refl) with
        (o := (RegistryCopy.copy_blob "blob" Cases.src Cases.dest "sha256:a1" small).1).
      * vm_compute. reflexivity.
      * apply surjective_pairing.
Defined.

Lemma copyImage_v0_needs_the_docker_list_type_witness :
  let srv := Cases.serving Sim.src_index (Some Cases.OCI_INDEX) (Some "3")
               202 (Some Cases.SESSION) in
  let st := Sim.start (Sim.calm srv) in
  RegistryCopy.is_index Cases.OCI_INDEX = true
  /\ exists st0,
       RegistryCopyV0.copyImage Cases.reason 2 Cases.src Cases.dest st = (Throw TypeError, st0)
       /\ length (trace st0) = 1%nat.
Proof.
  intros srv st. split; [reflexivity|].
  exists (RegistryCopyV0.fetchManifest Cases.reason Cases.src st).2. split.
  - apply (copyImage_v0_needs_the_docker_list_type Cases.reason Cases.src Cases.dest 1 st
             (RegistryCopyV0.mkFetched Sim.src_index (Some Cases.OCI_INDEX))).
    + vm_compute. reflexivity.
    + intros Heq. discriminate Heq.
    + reflexivity.
  - reflexivity.
Defined.

Lemma copyImage_v0_stops_at_first_failed_child_witness :
  let st := Sim.start (Sim.calm (Sim.registry (Some "3") (Some "sha256:m1"))) in
  exists st2,
    RegistryCopyV0.copyImage Cases.reason 2 Cases.multi_src Cases.multi_dest st
    = (Throw (JsError "Fetch manifest failed: Not Found"), st2)
    /\ length (trace st2) = 3%nat.
Proof.
  intros st.
  pose (r0 := RegistryCopyV0.fetchManifest Cases.reason Cases.multi_src st).
  pose (st1 := mkState (world r0.2) (trace r0.2 ++ [EvLog LOG "Multi-arch image detected"])
                 (tmp r0.2)).
  pose (m1 := mkDescriptor DOCKER_MANIFEST_V2 "sha256:m1" (JS.Num 528)).
  pose (m2 := mkDescriptor DOCKER_MANIFEST_V2 "sha256:m2" (JS.Num 528)).
  pose (r1 := RegistryCopyV0.copyImage Cases.reason 1
                (RegistryCopy.with_reference Cases.multi_src "sha256:m1")
                (RegistryCopy.with_reference Cases.multi_dest "sha256:m1") st1).
  exists r1.2. split.
  - apply (copyImage_v0_stops_at_first_failed_child Cases.reason Cases.multi_src
             Cases.multi_dest 1 st
             (RegistryCopyV0.mkFetched Sim.src_index (Some Sim.MANIFEST_LIST))
             r0.2 [] m1 [m2] st1).
    + vm_compute. reflexivity.
    + reflexivity.
    + reflexivity.
    + reflexivity.
    + vm_compute. reflexivity.
    + exact I.
  - reflexivity.
Defined.

Lemma uploadViaPipeline_fulfilled_witness :
  let srv := Cases.serving Sim.src_manifest None None 401 (Some Cases.SESSION) in
  let st := Sim.start (Sim.calm srv) in
  let s := Http.mkStream Sim.blob_bytes true in
  RegistryCopy.uploadViaPipeline s Cases.dest "sha256:a1" st
  = (Ok tt,
     mkState (world st)
       [EvRequest (session_request Cases.dest);
        EvRequest (blob_put_request Cases.dest Cases.SESSION "sha256:a1" s)] ∅).
Proof.
  intros srv st s.
  apply (uploadViaPipeline_fulfilled s Cases.dest "sha256:a1" st).
  exists (Http.mkResponse 401 (Some Cases.SESSION) None None None Http.JNone Sim.no_body),
    (world st), "h"%char, "ttps://uploads.example/session?id=1",
    (Sim.response 201 Http.JNone Sim.no_body), (world st).
  repeat split; reflexivity.
Defined.

(** ** The queue of [RegistryService]: what a tick and an [add] keep *)

Section QueueExtras.
Context {Job : Type}.
Implicit Types (q : PQueue.t Job) (job : Job).

Lemma processQueue_jobs (n : nat) q :
  let q' := PQueue.processQueue n q in
  PQueue.running q' ++ PQueue.waiting q' = PQueue.running q ++ PQueue.waiting q.
Proof.
  revert q. induction n as [|n IH]; intros q; cbn; [done|].
  pose proof (tryToStartAnother_jobs q) as Hj. cbn in Hj.
  destruct (PQueue.tryToStartAnother q) as [[] q1]; cbn in *; [|done].
  by rewrite IH.
Qed.

Lemma tryToStartAnother_size q :
  (PQueue.size (PQueue.tryToStartAnother q).2 <= PQueue.size q)%nat.
Proof.
  unfold PQueue.tryToStartAnother, PQueue.size.
  destruct (PQueue.waiting q) as [|j rest] eqn:Hw; cbn; [by rewrite Hw|].
  destruct (_ <? _); cbn; [lia|]. rewrite Hw. cbn. lia.
Qed.

Lemma processQueue_size (n : nat) q :
  (PQueue.size (PQueue.processQueue n q) <= PQueue.size q)%nat.
Proof.
  revert q. induction n as [|n IH]; intros q; cbn; [done|].
  pose proof (tryToStartAnother_size q) as Hs.
  destruct (PQueue.tryToStartAnother q) as [[] q1]; cbn in *; [|done].
  etrans; [apply IH|done].
Qed.

(** Once [processQueue] has had a turn for every waiting job, none waits
    while a slot is free. *)
Lemma processQueue_saturated (n : nat) q :
  (PQueue.size q <= n)%nat -> saturated (PQueue.processQueue n q).
Proof.
  revert q. induction n as [|n IH]; intros q Hn.
  - left. cbn. unfold PQueue.size in Hn. destruct (PQueue.waiting q); [done|cbn in Hn; lia].
  - cbn. unfold PQueue.tryToStartAnother, PQueue.size in *.
    destruct (PQueue.waiting q) as [|j rest] eqn:Hw; [by left|].
    destruct (Z.ltb_spec (Z.of_nat (PQueue.pending q)) (PQueue.concurrency q)).
    + apply IH. cbn in *. lia.
    + by right.
Qed.

Lemma set_concurrency_saturated q (c : Z) : saturated (PQueue.set_concurrency q c).
Proof. unfold PQueue.set_concurrency. by apply processQueue_saturated. Qed.

Lemma set_concurrency_jobs q (c : Z) :
  let q' := PQueue.set_concurrency q c in
  PQueue.running q' ++ PQueue.waiting q' = PQueue.running q ++ PQueue.waiting q.
Proof.
  unfold PQueue.set_concurrency.
  apply (processQueue_jobs _ (PQueue.mk (PQueue.waiting q) (PQueue.running q) c)).
Qed.

Lemma set_concurrency_size q (c : Z) :
  (PQueue.size (PQueue.set_concurrency q c) <= PQueue.size q)%nat.
Proof.
  unfold PQueue.set_concurrency.
  apply (processQueue_size _ (PQueue.mk (PQueue.waiting q) (PQueue.running q) c)).
Qed.

(** A tick of the controller loses no job and reorders none: the running
    jobs followed by the waiting ones are the same list before and after
    (jobs only move from the head of the waiting list to the end of the
    running ones); no job is left waiting while a slot is free if none was
    before. *)
Theorem adjustConcurrency_keeps_jobs (memUsage : MemoryUsage) q :
  let q' := RegistryService.adjustConcurrency memUsage q in
  PQueue.running q' ++ PQueue.waiting q' = PQueue.running q ++ PQueue.waiting q
  /\ (PQueue.size q' <= PQueue.size q)%nat
  /\ (saturated q -> saturated q').
Proof.
  unfold RegistryService.adjustConcurrency.
  destruct (_ >? _).
  - split; [apply set_concurrency_jobs|]. split; [apply set_concurrency_size|].
    intros _. apply set_concurrency_saturated.
  - destruct (_ <? _); [|done].
    split; [apply set_concurrency_jobs|]. split; [apply set_concurrency_size|].
    intros _. apply set_concurrency_saturated.
Qed.

(** After an [add] that was accepted, at most 1000 jobs wait, however
    many waited before; and no job waits while a slot is free if none did
    before. *)
Theorem add_keeps_queue_bounded q job (q' : PQueue.t Job) :
  RegistryService.add q job = inr q' ->
  (PQueue.size q' <= RegistryService.MAX_QUEUE_SIZE)%nat
  /\ (saturated q -> saturated q').
Proof.
  unfold RegistryService.add, PQueue.add, RegistryService.enqueue.
  destruct (Nat.leb_spec RegistryService.MAX_QUEUE_SIZE (length (PQueue.waiting q)))
    as [Hfull|Hroom]; [done|].
  intros [= <-]. split.
  - etrans; [apply tryToStartAnother_size|]. unfold PQueue.size. cbn.
    rewrite length_app. cbn. lia.
  - intros Hsat. unfold PQueue.tryToStartAnother, saturated, PQueue.pending in *. cbn.
    destruct Hsat as [Hempty|Hbusy].
    + rewrite Hempty. cbn.
      destruct (Z.ltb_spec (Z.of_nat (length (PQueue.running q))) (PQueue.concurrency q));
        cbn; [by left|by right].
    + destruct (PQueue.waiting q ++ [job]) as [|j rest] eqn:Hw; [by left|].
      destruct (Z.ltb_spec (Z.of_nat (length (PQueue.running q))) (PQueue.concurrency q));
        [lia|]. cbn. by right.
Qed.

End QueueExtras.

Lemma adjustConcurrency_keeps_jobs_witness :
  let busy := mkMemoryUsage 0 0 (4 * Sim.GiB) 0 0 in
  let q := PQueue.mk [6; 7; 8]%nat [1; 2; 3; 4; 5]%nat 5 in
  saturated (RegistryService.adjustConcurrency Sim.idle.1 q)
  /\ PQueue.running (RegistryService.adjustConcurrency Sim.idle.1 q) = [1; 2; 3; 4; 5; 6]%nat
  /\ PQueue.waiting (RegistryService.adjustConcurrency busy q) = [6; 7; 8]%nat.
Proof.
  intros busy q.
  destruct (adjustConcurrency_keeps_jobs Sim.idle.1 q) as (_ & _ & Hsat).
  split; [|split; reflexivity].
  apply Hsat. right. vm_compute. intros Hc. discriminate Hc.
Defined.

Lemma add_keeps_queue_bounded_witness :
  let q := PQueue.mk (seq 0 999) [1; 2; 3; 4; 5]%nat 5 in
  exists q', RegistryService.add q 7%nat = inr q'
    /\ (PQueue.size q' <= RegistryService.MAX_QUEUE_SIZE)%nat /\ saturated q'.
Proof.
  intros q. exists (PQueue.mk (seq 0 999 ++ [7%nat]) [1; 2; 3; 4; 5]%nat 5).
  split; [vm_compute; reflexivity|].
  destruct (add_keeps_queue_bounded q 7%nat
              (PQueue.mk (seq 0 999 ++ [7%nat]) [1; 2; 3; 4; 5]%nat 5)) as [Hsize Hsat].
  - vm_compute. reflexivity.
  - split; [exact Hsize|]. apply Hsat. right. vm_compute. intros Hc. discriminate Hc.
Defined.

(** ** [RegistryService]: what a sync sends and what it leaves behind *)

Section FilesFacts.
Context {W : Type} `{Host W}.
Implicit Types (st : State W) (paths : list string).

#[global] Instance untouched_preorder paths : PreOrder (untouched (W := W) paths).
Proof.
  split.
  - by intros st path.
  - intros st1 st2 st3 H12 H23 path Hp. by rewrite H23, H12.
Qed.






End FilesFacts.


Section ServiceExtras.
Context {W : Type} `{Host W}.
Variable TMP_DIR : string.
Variable fuel : nat.
Variables sourceRegistry sourceRepo sourceTag destRegistry destRepo destTag : string.
Implicit Types (st : State W).

Local Abbreviation fetch_source mode :=
  (RegistryService.fetch_source fuel mode sourceRegistry sourceRepo sourceTag
     destRegistry destRepo destTag).
Local Abbreviation syncImageWithBuffer :=
  (RegistryService.syncImageWithBuffer fuel sourceRegistry sourceRepo sourceTag
     destRegistry destRepo destTag).
Local Abbreviation syncImageWithTarball :=
  (RegistryService.syncImageWithTarball TMP_DIR fuel sourceRegistry sourceRepo sourceTag
     destRegistry destRepo destTag).
Local Abbreviation stage_and_push :=
  (RegistryService.stage_and_push TMP_DIR fuel sourceRegistry sourceRepo sourceTag
     destRegistry destRepo destTag).

Lemma config_digest_Some (json : Http.Json) (doc : ManifestDoc) (cd : string) :
  RegistryService.config_digest json = Some (doc, cd) ->
  json = Http.JManifest doc /\ digest <$> config doc = Some cd.
Proof.
  unfold RegistryService.config_digest. destruct json as [|doc'|loc]; [done| |done].
  destruct (config doc') as [cfg|] eqn:Hc; [|done]. cbn. intros [= <- <-].
  by rewrite Hc.
Qed.

Lemma putManifest_trace (registry repository tag : string) (doc : ManifestDoc)
    st (o : outcome unit) st' :
  FactoryClient.putManifest registry repository tag doc st = (o, st') ->
  trace st' = trace st ++ [EvRequest (FactoryClient.put_manifest_request registry repository tag doc)]
  /\ tmp st' = tmp st.
Proof.
  unfold FactoryClient.putManifest, bind.
  destruct (axios _ _ st) as [[res|e|] st1] eqn:Hput; apply axios_trace in Hput;
    by intros [= <- <-].
Qed.

(** A completed buffer-mode sync of the service has PUT one manifest, as
    its last request: the document that the source answered, unchanged. *)
Theorem service_sync_republishes_source st st' :
  syncImageWithBuffer st = (Ok tt, st') ->
  exists (doc : ManifestDoc) st0 (t : list Event),
    fetch_source "Buffer" st = (Ok (Http.JManifest doc), st0)
    /\ trace st' = trace st ++ t
         ++ [EvRequest (FactoryClient.put_manifest_request destRegistry destRepo destTag doc);
             EvLog LOG ("[Buffer] Sync complete for "
                        +:+ RegistryService.image_name sourceRegistry sourceRepo sourceTag)]
    /\ manifests_put t = [].
Proof.
  unfold RegistryService.syncImageWithBuffer. intros Hrun.
  apply bind_Ok in Hrun as (json & st0 & Hfetch & Hrun).
  destruct (RegistryService.config_digest json) as [[doc cd]|] eqn:Hcfg; [|done].
  apply config_digest_Some in Hcfg as [-> _].
  apply bind_Ok in Hrun as ([] & st1 & Hblobs & Hrun).
  apply bind_Ok in Hrun as ([] & st2 & Hput & Hlog). injection Hlog as <-. cbn.
  apply putManifest_trace in Hput as [Hput _].
  destruct (emits_quiet_run _ _ _ _
              (fetch_source_quiet fuel sourceRegistry sourceRepo sourceTag
                 destRegistry destRepo destTag "Buffer") Hfetch) as (t0 & Ht0 & Hq0).
  destruct (emits_quiet_run _ _ _ _
              (transfer_blobs_quiet sourceRegistry sourceRepo destRegistry destRepo doc cd)
              Hblobs) as (t1 & Ht1 & Hq1).
  exists doc, st0, (t0 ++ t1). split; [done|].
  rewrite Hput, Ht1, Ht0, <- !app_assoc. split; [reflexivity|].
  by rewrite manifests_put_app, Hq0, Hq1.
Qed.

Lemma axios_Ok (v : Z -> bool) (r : Http.Request) st (res : Http.Response) st' :
  axios v r st = (Ok res, st') ->
  exists w1, http r (world st) = (Some res, w1)
    /\ v (Http.status res) = true
    /\ st' = mkState w1 (trace st ++ [EvRequest r]) (tmp st).
Proof.
  unfold axios, bind, send. destruct (http r (world st)) as [[res'|] w1]; [|done].
  unfold ret, throw. destruct (v (Http.status res')) eqn:Hv; [|done].
  intros [= <- <-]. by exists w1.
Qed.

Lemma send_Ok (r : Http.Request) st (res : Http.Response) st' :
  send r st = (Ok res, st') ->
  exists w1, http r (world st) = (Some res, w1)
    /\ st' = mkState w1 (trace st ++ [EvRequest r]) (tmp st).
Proof.
  unfold send. destruct (http r (world st)) as [[res'|] w1]; [|done].
  intros [= <- <-]. by exists w1.
Qed.

Lemma factory_pull_Ok (registry repository d : string) st (p : PulledBlob) st' :
  FactoryClient.pullBlobAsStream registry repository d st = (Ok p, st') ->
  exists res w1,
    http (factory_blob_get registry repository d) (world st) = (Some res, w1)
    /\ p = mkPulledBlob (Http.stream res) d (announced_size res)
    /\ st' = mkState w1 (trace st ++ [EvRequest (factory_blob_get registry repository d)])
               (tmp st).
Proof.
  unfold FactoryClient.pullBlobAsStream. intros Hrun.
  apply bind_Ok in Hrun as (res & st1 & Hget & Hret). injection Hret as <- <-.
  apply axios_Ok in Hget as (w1 & Hhttp & _ & ->). by exists res, w1.
Qed.

Lemma factory_session_Ok (registry repository : string) st (uploadUrl : JS.header) st' :
  FactoryClient.startBlobUpload registry repository st = (Ok uploadUrl, st') ->
  trace st' = trace st ++ [EvRequest (factory_session registry repository)]
  /\ tmp st' = tmp st.
Proof.
  unfold FactoryClient.startBlobUpload. intros Hrun.
  apply bind_Ok in Hrun as (res & st1 & Hpost & Hret).
  apply axios_trace in Hpost as [Hpost Htmp].
  destruct (Http.data res) as [| |[[|a l]|]]; injection Hret as _ <-; done.
Qed.

Lemma factory_session_trace (registry repository : string) st (o : outcome JS.header) st' :
  FactoryClient.startBlobUpload registry repository st = (o, st') ->
  trace st' = trace st ++ [EvRequest (factory_session registry repository)].
Proof.
  unfold FactoryClient.startBlobUpload, bind.
  destruct (axios _ _ st) as [[res|e|] st1] eqn:Hpost; apply axios_trace in Hpost as [Hpost _].
  - destruct (Http.data res) as [| |[[|a l]|]]; by intros [= <- <-].
  - by intros [= <- <-].
  - by intros [= <- <-].
Qed.

Lemma blobs_put_app (t1 t2 : list Event) : blobs_put (t1 ++ t2) = blobs_put t1 ++ blobs_put t2.
Proof. apply omap_app. Qed.

(** What [pushBlobStream] has sent when it is over: the POST and the PUT
    of a sound stream that undici let through when it has completed, and
    no blob at all when undici refused the body. *)
Lemma factory_push_run (registry repository d : string) (stream : Http.Stream)
    (size : JS.number) st (o : outcome unit) st' :
  FactoryClient.pushBlobStream registry repository d stream size st = (o, st') ->
  (o = Ok tt ->
     undici_refuses stream size = None
     /\ Http.intact stream = true
     /\ exists u, trace st' = trace st
          ++ [EvRequest (factory_session registry repository);
              EvRequest (stream_put u stream size)])
  /\ (undici_refuses stream size <> None ->
      failed o /\ blobs_put (trace st') = blobs_put (trace st)).
Proof.
  unfold FactoryClient.pushBlobStream, bind.
  assert (Hstop : forall st1 (o' : outcome unit),
             trace st1 = trace st ++ [EvRequest (factory_session registry repository)] ->
             failed o' ->
             (o' = Ok tt ->
                undici_refuses stream size = None
                /\ Http.intact stream = true
                /\ exists u, trace st1 = trace st
                     ++ [EvRequest (factory_session registry repository);
                         EvRequest (stream_put u stream size)])
             /\ (undici_refuses stream size <> None ->
                 failed o' /\ blobs_put (trace st1) = blobs_put (trace st))).
  { intros st1 o' Htrace Hfailed. split; [by intros ->|]. intros _. split; [done|].
    by rewrite Htrace, blobs_put_app, app_nil_r. }
  destruct (FactoryClient.startBlobUpload registry repository st) as [[uploadUrl|e|] st1]
    eqn:Hsession; apply factory_session_trace in Hsession;
    [|intros [= <- <-]; by apply Hstop..].
  destruct (finalUrl uploadUrl d) as [u|]; [|intros [= <- <-]; by apply Hstop].
  destruct (undici_refuses stream size) as [e|] eqn:Hrefuses;
    [intros [= <- <-]; by apply Hstop|].
  destruct (send _ st1) as [[response|e|] st2] eqn:Hput;
    apply send_trace in Hput as [Hput _];
    fold (stream_put u stream size) in Hput;
    [|intros [= <- <-]; split; [done|by intros []]..].
  destruct (Http.intact stream); cbn [negb];
    [|intros [= <- <-]; split; [done|by intros []]].
  destruct (negb _); intros [= <- <-]; (split; [|by intros []]); [done|].
  intros _. split; [done|]. split; [done|].
  exists u. by rewrite Hput, Hsession, <- app_assoc.
Qed.

(** Buffer mode can only forward a blob whose length the source announced
    truly. A transfer pulls the blob, opens a session and hands the stream
    to undici with, as [Content-Length], the number read off the pull
    response's own [Content-Length] header, which is 0 when the header is
    missing or empty. When the transfer completes, it has issued three
    requests, the GET, the POST and the PUT of that stream, and the number
    announced is the number of bytes of the stream. When the stream is
    sound and the number announced is not its length, as for a blob that
    is not empty and comes without the header, the transfer fails and no
    PUT of a blob has gone through. *)
Theorem transfer_needs_the_announced_length (d : string) st (o : outcome unit) st'
    (res : Http.Response) (w1 : W) :
  RegistryService.transfer sourceRegistry sourceRepo destRegistry destRepo d st = (o, st') ->
  http (factory_blob_get sourceRegistry sourceRepo d) (world st) = (Some res, w1) ->
  let given := JS.Num (Z.of_nat (length (Http.bytes (Http.stream res)))) in
  (o = Ok tt ->
     announced_size res = given
     /\ exists u, trace st' = trace st
          ++ [EvRequest (factory_blob_get sourceRegistry sourceRepo d);
              EvRequest (factory_session destRegistry destRepo);
              EvRequest (stream_put u (Http.stream res) given)])
  /\ (Http.intact (Http.stream res) = true -> announced_size res <> given ->
      failed o /\ blobs_put (trace st') = blobs_put (trace st))
  /\ (JS.falsy (Http.contentLength res) = true -> announced_size res = JS.Num 0).
Proof.
  intros Hrun Hhttp given.
  assert (Hsound : Http.intact (Http.stream res) = true ->
                   undici_refuses (Http.stream res) (announced_size res) = None ->
                   announced_size res = given).
  { unfold undici_refuses. intros ->. subst given.
    destruct (announced_size res) as [n|]; [|done].
    destruct (n <? _) eqn:Hlt; [done|]. cbn. destruct (_ <? n) eqn:Hgt; [done|].
    intros _. apply Z.ltb_ge in Hlt, Hgt. f_equal. lia. }
  pose proof (axios_run status_2xx _ _ _ _ Hhttp) as Hget.
  fold (FactoryClient.req sourceRegistry) in Hget.
  unfold RegistryService.transfer, FactoryClient.pullBlobAsStream in Hrun.
  fold (factory_blob_get sourceRegistry sourceRepo d) in Hrun.
  unfold bind at 1 2 in Hrun. rewrite Hget in Hrun.
  split; [|split]; [| |unfold announced_size; by destruct (Http.contentLength res) as [[|a l]|]].
  - intros ->. destruct (status_2xx (Http.status res)); [|done].
    cbn [ret pb_stream pb_size] in Hrun. fold (announced_size res) in Hrun.
    apply factory_push_run in Hrun as [Hdone _].
    destruct (Hdone eq_refl) as (Hlets & Hintact & u & Htrace). cbn [trace] in Htrace.
    pose proof (Hsound Hintact Hlets) as Hsize.
    split; [done|]. exists u. rewrite Htrace, <- Hsize, <- app_assoc. done.
  - intros Hintact Hne. destruct (status_2xx (Http.status res)).
    + cbn [ret pb_stream pb_size] in Hrun. fold (announced_size res) in Hrun.
      apply factory_push_run in Hrun as [_ Hrefused].
      destruct Hrefused as [Hfailed Hputs].
      { intros Hlets. by apply Hne, Hsound. }
      split; [done|]. rewrite Hputs. cbn [trace]. by rewrite blobs_put_app, app_nil_r.
    + injection Hrun as <- <-. split; [done|]. cbn [trace].
      by rewrite blobs_put_app, app_nil_r.
Qed.

Lemma pushBlobFromFile_Ok (registry repository d path : string) st st' :
  RegistryService.pushBlobFromFile registry repository d path st = (Ok tt, st') ->
  exists (content : Buffer) (u : string),
    tmp st !! path = Some content
    /\ trace st' = trace st
         ++ [EvRequest (factory_session registry repository);
             EvRequest (file_put registry u content)]
    /\ tmp st' = tmp st.
Proof.
  unfold RegistryService.pushBlobFromFile. intros Hrun.
  apply bind_Ok in Hrun as (uploadUrl & st1 & Hsession & Hrun).
  apply factory_session_Ok in Hsession as [Hsession Htmp].
  destruct (finalUrl uploadUrl d) as [u|]; [|done].
  apply bind_Ok in Hrun as (sz & st2 & Hstat & Hrun).
  unfold RegistryService.statSize in Hstat.
  destruct (tmp st1 !! path) as [content|] eqn:Hfile; [|done].
  injection Hstat as <- <-.
  apply bind_Ok in Hrun as (content' & st3 & Hread & Hrun).
  injection Hread as <- <-. rewrite Hfile in Hrun. cbn in Hrun.
  apply bind_Ok in Hrun as (res & st4 & Hput & Hret).
  apply axios_trace in Hput as [Hput Htmp'].
  fold (file_put registry u content) in Hput.
  assert (st' = st4) as -> by (destruct (negb _); [done|by injection Hret]).
  exists content, u. rewrite <- Htmp. split; [done|]. split.
  - by rewrite Hput, Hsession, <- app_assoc.
  - by rewrite Htmp', Htmp.
Qed.

(** Tarball mode sends what it received: when a blob was downloaded to its
    file and that file is then pushed, the PUT carries the bytes that the
    source's stream gave, announced with their count, whatever
    [Content-Length] the source had announced. *)
Theorem tarball_blob_round_trip (d path : string) st st1 st2 st3 :
  RegistryService.downloadBlobToFile sourceRegistry sourceRepo d path st = (Ok tt, st1) ->
  tmp st2 !! path = tmp st1 !! path ->
  RegistryService.pushBlobFromFile destRegistry destRepo d path st2 = (Ok tt, st3) ->
  exists (res : Http.Response) (w1 : W) (u : string),
    http (factory_blob_get sourceRegistry sourceRepo d) (world st) = (Some res, w1)
    /\ tmp st1 !! path = Some (Http.bytes (Http.stream res))
    /\ trace st3 = trace st2
         ++ [EvRequest (factory_session destRegistry destRepo);
             EvRequest (file_put destRegistry u (Http.bytes (Http.stream res)))].
Proof.
  unfold RegistryService.downloadBlobToFile. intros Hdl Hsame Hpush.
  apply bind_Ok in Hdl as (p & st0 & Hpull & Hdl).
  apply factory_pull_Ok in Hpull as (res & w1 & Hhttp & -> & ->).
  apply bind_Ok in Hdl as ([] & st0' & Hwrite & Hret).
  injection Hwrite as <-. cbn in Hret.
  assert (Hfile : tmp st1 !! path = Some (Http.bytes (Http.stream res))).
  { destruct (Http.intact _); [|done]. injection Hret as <-. cbn. apply lookup_insert_eq. }
  apply pushBlobFromFile_Ok in Hpush as (content & u & Hcontent & Htrace & _).
  rewrite Hsame, Hfile in Hcontent. injection Hcontent as <-.
  by exists res, w1, u.
Qed.

End ServiceExtras.

Section TarballExtras.
Context {W : Type} `{Host W}.
Variable TMP_DIR : string.
Variable fuel : nat.
Variables sourceRegistry sourceRepo sourceTag destRegistry destRepo destTag : string.
Implicit Types (st : State W) (blobs : list RegistryService.BlobFile).

Local Abbreviation fetch_source mode :=
  (RegistryService.fetch_source fuel mode sourceRegistry sourceRepo sourceTag
     destRegistry destRepo destTag).
Local Abbreviation syncImageWithTarball :=
  (RegistryService.syncImageWithTarball TMP_DIR fuel sourceRegistry sourceRepo sourceTag
     destRegistry destRepo destTag).
Local Abbreviation stage_and_push :=
  (RegistryService.stage_and_push TMP_DIR fuel sourceRegistry sourceRepo sourceTag
     destRegistry destRepo destTag).
Local Abbreviation blob_path := (RegistryService.blob_path TMP_DIR).
Local Abbreviation paths_of blobs := (RegistryService.filePath <$> blobs).

(** One turn of the loop of step 5. *)
Lemma unlink_turn (blob : RegistryService.BlobFile) st :
  let path := RegistryService.filePath blob in
  exists st1,
    try_catch
      (bind (RegistryService.unlinkSync path)
         (fun _ => log LOG ("[Tarball] Cleaned up temp file: " +:+ path)))
      (fun e => log WARN ("[Tarball] Failed to delete temp file: " +:+ path)) st
    = (Ok tt, st1)
    /\ world st1 = world st
    /\ no_manifest_put st st1
    /\ ((tmp st1 = delete path (tmp st) /\ unlink_denied path (world st) = false)
        \/ (tmp st1 = tmp st /\ (tmp st !! path = None \/ unlink_denied path (world st) = true))).
Proof.
  cbn. unfold try_catch, bind, RegistryService.unlinkSync, log, emit.
  destruct (tmp st !! RegistryService.filePath blob) eqn:Hfile.
  - destruct (unlink_denied _ _) eqn:Hdenied; eexists; (split; [reflexivity|]); cbn;
      (split; [done|]); (split; [by eexists [_]|]); [right|left]; by eauto.
  - eexists. split; [reflexivity|]. cbn. split; [done|]. split; [by eexists [_]|].
    right. by eauto.
Qed.

(** Step 5 cannot fail and only removes: each file recorded in [blobs] is
    gone afterwards unless the system refused to unlink it, in which case
    it is as it was; every other file of TMP_DIR is as it was. *)
Theorem cleanup_removes_the_recorded_files blobs st :
  exists st',
    RegistryService.cleanup blobs st = (Ok tt, st')
    /\ world st' = world st
    /\ no_manifest_put st st'
    /\ untouched (paths_of blobs) st st'
    /\ forall path, path ∈ paths_of blobs ->
         tmp st' !! path = None
         \/ (unlink_denied path (world st) = true /\ tmp st' !! path = tmp st !! path).
Proof.
  unfold RegistryService.cleanup. revert st.
  induction blobs as [|blob blobs IH]; intros st.
  - exists st. split; [done|]. split; [done|]. split; [by exists []; rewrite app_nil_r|].
    split; [done|]. intros path Hin. by apply elem_of_nil in Hin.
  - destruct (unlink_turn blob st) as (st1 & Hturn & Hworld & Hquiet & Hfiles).
    destruct (IH st1) as (st' & Hrest & Hworld' & Hquiet' & Hother & Hlisted).
    exists st'. cbn [for_of]. rewrite (bind_steps _ _ _ _ _ Hturn).
    split; [done|]. split; [congruence|].
    split; [by apply (no_manifest_put_trans st st1 st')|].
    set (p0 := RegistryService.filePath blob) in *.
    assert (Hstep : forall path, path <> p0 -> tmp st1 !! path = tmp st !! path).
    { intros path Hne. destruct Hfiles as [[-> _]|[-> _]]; [|done].
      by rewrite lookup_delete_ne. }
    split.
    + intros path Hout. cbn in Hout. apply not_elem_of_cons in Hout as [Hne Hout].
      by rewrite (Hother path Hout), Hstep.
    + intros path Hin. cbn in Hin. rewrite Hworld in Hlisted.
      destruct (decide (path ∈ paths_of blobs)) as [Hlater|Hnot].
      * destruct (Hlisted path Hlater) as [Hgone|[Hdenied Hsame]]; [by left|].
        destruct (decide (path = p0)) as [->|Hne].
        -- destruct Hfiles as [[_ Hallowed]|[Heq _]]; [congruence|].
           right. split; [done|]. by rewrite Hsame, Heq.
        -- right. split; [done|]. by rewrite Hsame, Hstep.
      * apply elem_of_cons in Hin as [Heq|Hin]; [|done].
        subst path. rewrite (Hother _ Hnot).
        destruct Hfiles as [[-> _]|[-> [Hnone|Hdenied]]].
        -- left. apply lookup_delete_eq.
        -- by left.
        -- right. done.
Qed.









End TarballExtras.

Lemma service_sync_republishes_source_witness :
  let st := Sim.start (Sim.calm (Sim.registry (Some "3") None)) in
  let st' := (RegistryService.syncImageWithBuffer 3 "https://src.example" "app" "1.0"
                "https://dst.example" "app" "1.0" st).2 in
  manifests_put (trace st') = [Sim.src_manifest]
  /\ exists (doc : ManifestDoc) (t : list Event),
       trace st' = trace st ++ t
         ++ [EvRequest (FactoryClient.put_manifest_request "https://dst.example" "app" "1.0" doc);
             EvLog LOG "[Buffer] Sync complete for https://src.example/app:1.0"]
       /\ manifests_put t = [].
Proof.
  intros st st'. split; [vm_compute; reflexivity|].
  destruct (service_sync_republishes_source 3 "https://src.example" "app" "1.0"
              "https://dst.example" "app" "1.0" st st')
    as (doc & st0 & t & Hfetch & Htrace & Hquiet).
  - vm_compute. reflexivity.
  - exists doc, t. split; [exact Htrace | exact Hquiet].
Defined.

Lemma transfer_needs_the_announced_length_witness :
  let run len :=
    RegistryService.transfer "https://src.example" "app" "https://dst.example" "app"
      "sha256:a1" (Sim.start (Sim.calm (Sim.registry len None))) in
  ((run None).1 = Throw LengthMismatch /\ blobs_put (trace (run None).2) = [])
  /\ ((run (Some "3")).1 = Ok tt
      /\ exists u,
           trace (run (Some "3")).2
           = [EvRequest (factory_blob_get "https://src.example" "app" "sha256:a1");
              EvRequest (factory_session "https://dst.example" "app");
              EvRequest (stream_put u (Http.mkStream Sim.blob_bytes true) (JS.Num 3))]).
Proof.
  intros run.
  pose (res len := Http.mkResponse 200 None len None None Http.JNone
                     (Http.mkStream Sim.blob_bytes true)).
  split.
  - split; [vm_compute; reflexivity|].
    destruct (transfer_needs_the_announced_length "https://src.example" "app"
                "https://dst.example" "app" "sha256:a1"
                (Sim.start (Sim.calm (Sim.registry None None)))
                (run None).1 (run None).2 (res None) (Sim.calm (Sim.registry None None)))
      as (_ & Hrefused & _).
    + apply surjective_pairing.
    + reflexivity.
    + destruct Hrefused as [_ Hputs]; [reflexivity | discriminate | exact Hputs].
  - split; [vm_compute; reflexivity|].
    destruct (transfer_needs_the_announced_length "https://src.example" "app"
                "https://dst.example" "app" "sha256:a1"
                (Sim.start (Sim.calm (Sim.registry (Some "3") None)))
                (run (Some "3")).1 (run (Some "3")).2 (res (Some "3"))
                (Sim.calm (Sim.registry (Some "3") None)))
      as (Hdone & _ & _).
    + apply surjective_pairing.
    + reflexivity.
    + destruct Hdone as (_ & u & Htrace); [vm_compute; reflexivity|].
      exists u. exact Htrace.
Defined.

Lemma tarball_blob_round_trip_witness :
  let st := Sim.start (Sim.calm (Sim.registry (Some "1469") None)) in
  let path := "/app/tmp/sha256_c0.blob" in
  let st1 := (RegistryService.downloadBlobToFile "https://src.example" "app" "sha256:c0"
                path st).2 in
  let st3 := (RegistryService.pushBlobFromFile "https://dst.example" "app" "sha256:c0"
                path st1).2 in
  exists u,
    trace st3 = trace st1
      ++ [EvRequest (factory_session "https://dst.example" "app");
          EvRequest (file_put "https://dst.example" u Sim.blob_bytes)]
    /\ length Sim.blob_bytes = 3%nat.
Proof.
  intros st path st1 st3.
  destruct (tarball_blob_round_trip "https://src.example" "app" "https://dst.example" "app"
              "sha256:c0" path st st1 st1 st3)
    as (res & w1 & u & Hhttp & _ & Htrace).
  - vm_compute. reflexivity.
  - reflexivity.
  - vm_compute. reflexivity.
  - exists u. split; [|reflexivity]. rewrite Htrace. injection Hhttp as <- _. reflexivity.
Defined.

Lemma cleanup_removes_the_recorded_files_witness :
  let w := Sim.mkWorld [Sim.idle] (Sim.registry None None) ["/app/tmp/b.blob"] in
  let files : gmap string Buffer :=
    {[ "/app/tmp/a.blob" := [x01]; "/app/tmp/b.blob" := [x02]; "/app/tmp/c.blob" := [x03] ]} in
  let blobs := [ RegistryService.mkBlobFile "sha256:a" 0 "/app/tmp/a.blob";
                 RegistryService.mkBlobFile "sha256:b" 0 "/app/tmp/b.blob" ] in
  exists st',
    RegistryService.cleanup blobs (mkState w [] files) = (Ok tt, st')
    /\ tmp st' !! "/app/tmp/a.blob" = None
    /\ tmp st' !! "/app/tmp/b.blob" = Some [x02]
    /\ tmp st' !! "/app/tmp/c.blob" = Some [x03].
Proof.
  intros w files blobs.
  destruct (cleanup_removes_the_recorded_files blobs (mkState w [] files))
    as (st' & Hrun & _ & _ & Hother & _).
  exists st'. split; [exact Hrun|].
  assert (Hst : st' = (RegistryService.cleanup blobs (mkState w [] files)).2)
    by (by rewrite Hrun).
  rewrite Hst. repeat split; vm_compute; reflexivity.
Defined.


(** ** [AuthService] *)

Section AuthFacts.
Import AuthService.
Implicit Types (s : string) (users : gmap string string).

Lemma split_nonempty (sep : ascii) s : split sep s <> [].
Proof.
  destruct s as [|a rest]; cbn; [done|].
  destruct (Ascii.eqb a sep); [done|]. by destruct (split sep rest).
Qed.

(** No piece of a split holds the separator. *)
Lemma split_pieces (sep : ascii) s (piece : string) :
  piece ∈ split sep s -> occurs sep piece = false.
Proof.
  revert piece. induction s as [|a rest IH]; intros piece Hin; cbn in Hin.
  - apply list_elem_of_singleton in Hin as ->. done.
  - destruct (Ascii.eqb a sep) eqn:Ha.
    + apply elem_of_cons in Hin as [->|Hin]; [done|by apply IH].
    + destruct (split sep rest) as [|p ps] eqn:Hs.
      * apply list_elem_of_singleton in Hin as ->. cbn. by rewrite Ha.
      * apply elem_of_cons in Hin as [->|Hin].
        -- cbn. rewrite Ha. apply IH, list_elem_of_here.
        -- by apply IH, list_elem_of_further.
Qed.

(** A piece holds no character that the whole does not hold. *)
Lemma split_pieces_lack (sep c : ascii) s (piece : string) :
  occurs c s = false -> piece ∈ split sep s -> occurs c piece = false.
Proof.
  revert piece. induction s as [|a rest IH]; intros piece Hc Hin; cbn in Hin, Hc.
  - apply list_elem_of_singleton in Hin as ->. done.
  - apply orb_false_elim in Hc as [Ha Hc]. destruct (Ascii.eqb a sep).
    + apply elem_of_cons in Hin as [->|Hin]; [done|by apply IH].
    + destruct (split sep rest) as [|p ps] eqn:Hs.
      * apply list_elem_of_singleton in Hin as ->. cbn. by rewrite Ha.
      * apply elem_of_cons in Hin as [->|Hin].
        -- cbn. rewrite Ha. apply IH; [done|apply list_elem_of_here].
        -- apply IH; [done|by apply list_elem_of_further].
Qed.

Lemma append_cons (a : ascii) (r s : string) : String a r +:+ s = String a (r +:+ s).
Proof. reflexivity. Qed.

Lemma append_empty_r s : s +:+ "" = s.
Proof. induction s as [|a r IH]; [done|]. by rewrite append_cons, IH. Qed.

(** Splitting around a separator. *)
Lemma split_app (sep : ascii) (s1 s2 : string) :
  split sep (s1 +:+ String sep s2) = split sep s1 ++ split sep s2.
Proof.
  induction s1 as [|a r IH].
  - change ("" +:+ String sep s2) with (String sep s2). cbn. by rewrite Ascii.eqb_refl.
  - rewrite append_cons. cbn. destruct (Ascii.eqb a sep); [by rewrite IH|].
    rewrite IH. pose proof (split_nonempty sep r). by destruct (split sep r).
Qed.

Lemma split_whole (sep : ascii) s : occurs sep s = false -> split sep s = [s].
Proof.
  induction s as [|a r IH]; cbn; [done|]. intros Hc.
  apply orb_false_elim in Hc as [Ha Hc]. by rewrite Ha, IH.
Qed.

Lemma occurs_app (c : ascii) (s1 s2 : string) :
  occurs c (s1 +:+ s2) = occurs c s1 || occurs c s2.
Proof.
  induction s1 as [|a r IH]; [done|].
  rewrite append_cons. cbn. by rewrite IH, orb_assoc.
Qed.

Lemma split_concat (entries : list string) (pair : string) :
  occurs "," pair = false ->
  exists pairs, split "," (String.concat "," (entries ++ [pair])) = pairs ++ [pair].
Proof.
  intros Hpair. induction entries as [|e es IH].
  - exists []. cbn. by apply split_whole.
  - destruct IH as (pairs & IH). rewrite <- app_comm_cons.
    destruct (es ++ [pair]) as [|x xs] eqn:Hes; [by destruct es|].
    change (String.concat "," (e :: x :: xs))
      with (e +:+ String "," (String.concat "," (x :: xs))).
    rewrite split_app, IH. exists (split "," e ++ pairs). by rewrite app_assoc.
Qed.

Lemma or_default_self s : JS.or_default (Some s) "" = s.
Proof. by destruct s. Qed.

Lemma assign_lookup users (u p u' : string) :
  assign users u p !! u' =
    if String.eqb u "__proto__" then users !! u'
    else if String.eqb u u' then Some p else users !! u'.
Proof.
  unfold assign. destruct (String.eqb u "__proto__"); [done|].
  destruct (String.eqb_spec u u') as [->|Hne].
  - apply lookup_insert_eq.
  - by apply lookup_insert_ne.
Qed.

(** Every stored credential came from a pair whose first two pieces it
    is, both non-empty. *)
Lemma loaded_from_a_pair (pairs : list string) users (u p : string) :
  fold_left add_pair pairs users !! u = Some p ->
  users !! u = Some p
  \/ (u <> "" /\ p <> "" /\ u <> "__proto__"
      /\ exists pair more, pair ∈ pairs /\ split ":" pair = u :: p :: more).
Proof.
  revert users. induction pairs as [|pair pairs IH]; intros users Hl; cbn in Hl; [by left|].
  apply IH in Hl as [Hl|(Hu & Hp & Hproto & pair' & more & Hin & Hsplit)].
  - unfold add_pair in Hl.
    destruct (split ":" pair) as [|[|a u0] [|[|b p0] more]] eqn:Hs; try by left.
    rewrite assign_lookup in Hl.
    destruct (String.eqb_spec (String a u0) "__proto__") as [Hp|Hp]; [by left|].
    destruct (String.eqb_spec (String a u0) u) as [<-|Hne]; [|by left].
    injection Hl as <-. right. split; [done|]. split; [done|]. split; [done|].
    exists pair, more. split; [apply list_elem_of_here|done].
  - right. split; [done|]. split; [done|]. split; [done|].
    exists pair', more. split; [by apply list_elem_of_further|done].
Qed.

Lemma accepted_from_a_pair (AUTH_USERS : option string) (username password user : string) :
  validateUser (loadUsersFromEnv AUTH_USERS) username password = Some user ->
  user = username /\ username <> "" /\ password <> "" /\ username <> "__proto__"
  /\ exists pair more,
       pair ∈ split "," (JS.or_default AUTH_USERS "")
       /\ split ":" pair = username :: password :: more.
Proof.
  unfold validateUser, loadUsersFromEnv.
  destruct (fold_left _ _ _ !! username) as [[|a p]|] eqn:Hl; [done| |done].
  destruct (String.eqb_spec (String a p) password) as [<-|Hne]; [|done].
  intros [= <-]. split; [done|].
  apply loaded_from_a_pair in Hl as [Hl|(Hu & Hp & Hproto & pair & more & Hin & Hsplit)];
    [by rewrite lookup_empty in Hl|].
  split; [done|]. split; [done|]. split; [done|]. by exists pair, more.
Qed.

(** Only configured credentials are accepted: when [validateUser] returns
    a user, it is the one asked for, and some comma-separated entry of
    AUTH_USERS has that name and that password as its first two
    colon-separated pieces. Name and password are therefore not empty and
    hold no comma and no colon, and the name is not [__proto__]. *)
Theorem validateUser_accepts_only_configured_pairs
    (AUTH_USERS : option string) (username password user : string) :
  validateUser (loadUsersFromEnv AUTH_USERS) username password = Some user ->
  user = username
  /\ plain username /\ plain password /\ username <> "__proto__"
  /\ exists pair more,
       pair ∈ split "," (JS.or_default AUTH_USERS "")
       /\ split ":" pair = username :: password :: more.
Proof.
  intros Hv.
  apply accepted_from_a_pair in Hv as (-> & Hu & Hp & Hproto & pair & more & Hin & Hsplit).
  split; [done|].
  assert (Hcomma : occurs "," pair = false) by (by apply (split_pieces "," _ _ Hin)).
  assert (Hpieces : forall x, x ∈ split ":" pair -> occurs "," x = false /\ occurs ":" x = false).
  { intros x Hx. split; [by apply (split_pieces_lack ":" "," pair)|by apply (split_pieces ":" pair)]. }
  rewrite Hsplit in Hpieces.
  destruct (Hpieces username (list_elem_of_here _ _)) as [Hu1 Hu2].
  destruct (Hpieces password (list_elem_of_further _ _ _ (list_elem_of_here _ _)))
    as [Hp1 Hp2].
  split; [done|]. split; [done|]. split; [done|]. by exists pair, more.
Qed.

(** The last entry for a name decides: whatever entries come before it,
    an entry [name:password], or [name:password:more], at the end of
    AUTH_USERS makes [validateUser] accept exactly that password for that
    name; what follows a second colon is dropped. *)
Theorem validateUser_last_entry_wins
    (entries : list string) (username password tail attempt : string) :
  plain username -> plain password -> username <> "__proto__" ->
  tail = "" \/ (exists more, tail = String ":" more /\ occurs "," more = false) ->
  let AUTH_USERS :=
    String.concat "," (entries ++ [username +:+ ":" +:+ password +:+ tail]) in
  validateUser (loadUsersFromEnv (Some AUTH_USERS)) username attempt
  = if String.eqb password attempt then Some username else None.
Proof.
  intros (Hu & Hu1 & Hu2) (Hp & Hp1 & Hp2) Hproto Htail AUTH_USERS.
  set (pair := username +:+ ":" +:+ password +:+ tail) in *.
  assert (Hcomma : occurs "," pair = false).
  { unfold pair. rewrite !occurs_app, Hu1, Hp1. cbn.
    destruct Htail as [->|(more & -> & Hmore)]; [done|]. cbn. by rewrite Hmore. }
  assert (Hsplit : exists more, split ":" pair = username :: password :: more).
  { unfold pair. change (":" +:+ password +:+ tail) with (String ":" (password +:+ tail)).
    rewrite split_app, (split_whole ":" username Hu2). cbn [app].
    destruct Htail as [->|(more & -> & _)].
    - exists []. by rewrite append_empty_r, split_whole.
    - rewrite split_app, (split_whole ":" password Hp2). by eexists. }
  destruct Hsplit as (more & Hsplit).
  destruct (split_concat entries pair Hcomma) as (pairs & Hpairs).
  unfold validateUser, loadUsersFromEnv. rewrite or_default_self.
  fold AUTH_USERS in Hpairs. rewrite Hpairs, fold_left_app. cbn [fold_left].
  unfold add_pair at 1. rewrite Hsplit.
  destruct username as [|a u]; [done|]. destruct password as [|b p]; [done|].
  rewrite assign_lookup.
  destruct (String.eqb_spec (String a u) "__proto__") as [Heq|_]; [done|].
  by rewrite String.eqb_refl.
Qed.

(** Without AUTH_USERS (unset or empty) every login is refused. *)
Theorem login_without_users_is_refused
    (sign : string -> Z -> string) (now : Z) (AUTH_USERS : option string)
    (username password : string) :
  JS.falsy AUTH_USERS = true ->
  login sign now (loadUsersFromEnv AUTH_USERS) username password = Unauthorized.
Proof.
  intros Hempty. unfold login.
  destruct (validateUser _ username password) as [user|] eqn:Hv; [|done].
  apply accepted_from_a_pair in Hv as (_ & _ & _ & _ & pair & more & Hin & Hsplit).
  assert (Henv : JS.or_default AUTH_USERS "" = "")
    by (destruct AUTH_USERS as [[|a s]|]; done).
  rewrite Henv in Hin. cbn in Hin. apply list_elem_of_singleton in Hin as ->. done.
Qed.

End AuthFacts.

Lemma validateUser_accepts_only_configured_pairs_witness :
  plain "ops" /\ plain "s3cret"
  /\ exists pair more,
       pair ∈ AuthService.split "," "admin:password123,ops:s3cret"
       /\ AuthService.split ":" pair = "ops" :: "s3cret" :: more.
Proof.
  destruct (validateUser_accepts_only_configured_pairs
              (Some "admin:password123,ops:s3cret") "ops" "s3cret" "ops")
    as (_ & Hu & Hp & _ & Hpair).
  - vm_compute. reflexivity.
  - split; [exact Hu|]. split; [exact Hp | exact Hpair].
Defined.

Lemma validateUser_last_entry_wins_witness :
  AuthService.validateUser
    (AuthService.loadUsersFromEnv (Some "admin:old,ops:s3cret,admin:new:ignored"))
    "admin" "new" = Some "admin"
  /\ AuthService.validateUser
       (AuthService.loadUsersFromEnv (Some "admin:old,ops:s3cret,admin:new:ignored"))
       "admin" "old" = None.
Proof.
  assert (Hplain : forall s, s <> "" -> occurs "," s = false -> occurs ":" s = false -> plain s)
    by (intros s H1 H2 H3; split; [exact H1|]; split; [exact H2 | exact H3]).
  split.
  - apply (validateUser_last_entry_wins ["admin:old"; "ops:s3cret"] "admin" "new" ":ignored" "new").
    + apply Hplain; [intros Heq; discriminate Heq | reflexivity | reflexivity].
    + apply Hplain; [intros Heq; discriminate Heq | reflexivity | reflexivity].
    + intros Heq. discriminate Heq.
    + right. exists "ignored". split; reflexivity.
  - apply (validateUser_last_entry_wins ["admin:old"; "ops:s3cret"] "admin" "new" ":ignored" "old").
    + apply Hplain; [intros Heq; discriminate Heq | reflexivity | reflexivity].
    + apply Hplain; [intros Heq; discriminate Heq | reflexivity | reflexivity].
    + intros Heq. discriminate Heq.
    + right. exists "ignored". split; reflexivity.
Defined.

Lemma login_without_users_is_refused_witness :
  AuthService.login (fun user sub => user +:+ "." +:+ pretty sub) 1700000000000
    (AuthService.loadUsersFromEnv None) "admin" "password123" = AuthService.Unauthorized.
Proof.
  apply (login_without_users_is_refused (fun user sub => user +:+ "." +:+ pretty sub)
           1700000000000 None "admin" "password123").
  reflexivity.
Defined.

(** ** Building a client *)

Section SetupFacts.
Import ClientSetup.
Variable AxiosInstance : Type.
Variable base64 : string -> string.
Implicit Types (options : RegistryClientOptions AxiosInstance) (parsed : option DockerConfig).

Lemma headers_of_fails options parsed :
  (exists e, headers_of base64 options parsed = inl e)
  <-> JS.falsy (username options) || JS.falsy (password options) = true
      /\ auths (loadDockerConfig parsed) = None.
Proof.
  unfold headers_of, getAuthFromDockerConfig. split.
  - intros [e He].
    destruct (username options) as [[|a u]|]; destruct (password options) as [[|b p]|];
      try done;
      (destruct (auths (loadDockerConfig parsed)) as [entries|]; [|done]);
      (destruct (find _ entries) as [[key [[|c t]|]]|]; done).
  - intros [Hcred Hauths]. rewrite Hauths. exists TypeError.
    destruct (username options) as [[|a u]|]; destruct (password options) as [[|b p]|];
      done.
Qed.

(** The constructor throws in two cases and no other: when it is given no
    complete credentials (user name or password missing or empty) and the
    Docker configuration has no [auths] (or cannot be read), even if an
    axios instance is passed in and the headers would not be used; and
    when [maxConcurrency] is given and below 1, which [new PQueue] refuses.
    What it throws is a [TypeError] in both. Complete credentials are never
    checked against the Docker configuration. *)
Theorem constructor_throws_exactly_when options parsed :
  ((exists e, constructor base64 options parsed = inl e)
   <-> (JS.falsy (username options) || JS.falsy (password options) = true
        /\ auths (loadDockerConfig parsed) = None)
       \/ (exists c, maxConcurrency options = Some c /\ c < 1))
  /\ (forall e, constructor base64 options parsed = inl e -> e = TypeError).
Proof.
  pose proof (headers_of_fails options parsed) as Hheaders.
  unfold constructor, new_PQueue.
  destruct (headers_of base64 options parsed) as [e0|headers] eqn:Hh.
  - assert (He0 : e0 = TypeError).
    { revert Hh. unfold headers_of, getAuthFromDockerConfig.
      destruct (username options) as [[|a u]|]; destruct (password options) as [[|b p]|];
        try done;
        (destruct (auths (loadDockerConfig parsed)) as [entries|]; [|by intros [= <-]]);
        (destruct (find _ entries) as [[key [[|c t]|]]|]; done). }
    split.
    + split; [intros _; left; apply Hheaders; by exists e0 | intros _; by exists e0].
    + by intros e [= <-].
  - assert (Hno : ~ (JS.falsy (username options) || JS.falsy (password options) = true
                     /\ auths (loadDockerConfig parsed) = None)).
    { intros Hc. apply Hheaders in Hc as [e He]. discriminate He. }
    destruct (maxConcurrency options) as [c|]; cbn.
    + destruct (c <? 1) eqn:Hc.
      * apply Z.ltb_lt in Hc. split; [|by intros e [= <-]].
        split; [intros _; right; by exists c | intros _; by exists TypeError].
      * apply Z.ltb_ge in Hc. split; [|done].
        split; [by intros [e He]|]. intros [Hcred|(c' & [= <-] & Hlt)]; [done|lia].
    + split; [|done]. split; [by intros [e He]|].
      intros [Hcred|(c' & Hsome & _)]; done.
Qed.

(** The first entry of [auths] whose key is part of the registry name, or
    holds it, decides alone: the token is its [auth], and there is none if
    it has no [auth], whatever the entries behind it hold. *)
Theorem docker_auth_first_match_decides
    (pre : list (string * JS.header)) (key : string) (auth : JS.header)
    (post : list (string * JS.header)) (registry : string) :
  Forall (fun entry => matches registry entry.1 = false) pre ->
  matches registry key = true ->
  getAuthFromDockerConfig (Some (mkDockerConfig (Some (pre ++ (key, auth) :: post)))) registry
  = inr (if JS.falsy auth then None else Some ("Basic " +:+ default "" auth)).
Proof.
  intros Hpre Hkey. unfold getAuthFromDockerConfig. cbn [loadDockerConfig auths].
  assert (Hfind : find (fun entry : string * JS.header => matches registry entry.1)
                    (pre ++ (key, auth) :: post) = Some (key, auth)).
  { induction Hpre as [|entry pre Hentry _ IH]; cbn.
    - by rewrite Hkey.
    - by rewrite Hentry. }
  rewrite Hfind. by destruct auth as [[|a l]|].
Qed.

End SetupFacts.

(** ** More of the registry client *)

Section ClientMoreFacts.
Context {W : Type} `{Host W}.
Variable self : Client.Options.
Variable contentEncoding : Http.Response -> JS.header.
Variable as_body : Http.Json -> Http.Body.
Implicit Types (st : State W).

(** [tagImage] republishes what it fetched: when it completes, it has
    issued the GET of the source tag and the PUT of that very document
    under the target tag, announced as a Docker v2 manifest whatever the
    document says of itself. *)
Theorem tagImage_republishes_unchanged (repository sourceTag targetTag : string)
    (doc : ManifestDoc) st st0 st' :
  as_body (Http.JManifest doc) = Http.BManifest doc ->
  Client.getImageManifest self repository sourceTag st = (Ok (Http.JManifest doc), st0) ->
  ClientMore.tagImage self as_body repository sourceTag targetTag st = (Ok tt, st') ->
  trace st' = trace st0
    ++ [EvRequest (Client.put_manifest_request self repository targetTag doc)]
  /\ exists t, trace st' = trace st ++ t /\ manifests_put t = [doc].
Proof.
  intros Hbody Hget Hrun. unfold ClientMore.tagImage in Hrun.
  rewrite (bind_steps _ _ _ _ _ Hget), Hbody in Hrun.
  apply bind_Ok in Hrun as (res & st1 & Hput & Hret). injection Hret as <-.
  apply axios_trace in Hput as [Hput _].
  fold (Client.put_manifest_request self repository targetTag doc) in Hput.
  split; [done|].
  unfold Client.getImageManifest in Hget.
  apply bind_Ok in Hget as (r0 & st0' & Hget & Hret). injection Hret as _ <-.
  apply axios_trace in Hget as [Hget _].
  eexists. rewrite Hput, Hget, <- app_assoc. split; [reflexivity|]. reflexivity.
Qed.

Lemma axios_buffer_no_JsError (v : Z -> bool) (r : Http.Request) st
    (o : outcome Http.Response) st' (msg : string) :
  ClientMore.axios_buffer v r st = (o, st') -> o <> Throw (JsError msg).
Proof.
  unfold ClientMore.axios_buffer, bind, send.
  destruct (http r (world st)) as [[res|] w1]; [|by intros [= <- <-]].
  destruct (negb _); [by intros [= <- <-]|]. unfold ret, throw.
  destruct (v _); by intros [= <- <-].
Qed.

Lemma axios_buffer_valid (v : Z -> bool) (r : Http.Request) st (res : Http.Response) st' :
  ClientMore.axios_buffer v r st = (Ok res, st') -> v (Http.status res) = true.
Proof.
  unfold ClientMore.axios_buffer, bind, send.
  destruct (http r (world st)) as [[res'|] w1]; [|done].
  destruct (negb _); [done|]. unfold ret, throw.
  destruct (v (Http.status res')) eqn:Hv; [|done]. by intros [= <- <-].
Qed.

Lemma pullBlob_response_expected (autoRedirect : bool) (repository digest : string) st
    (o : outcome Http.Response) st' (msg : string) :
  ClientMore.pullBlob_response self autoRedirect repository digest st = (o, st') ->
  o <> Throw (JsError ("Unexpected status code " +:+ msg)).
Proof.
  unfold ClientMore.pullBlob_response. destruct autoRedirect.
  - apply axios_buffer_no_JsError.
  - unfold bind. destruct (ClientMore.axios_buffer _ _ st) as [[r0|e0|] st0] eqn:Hget.
    + apply axios_buffer_valid in Hget as Hvalid. cbv beta in Hvalid.
      destruct ((Http.status r0 =? 302) || (Http.status r0 =? 307)) eqn:Hredirect.
      * destruct (Http.location r0) as [[|a l]|].
        -- intros [= <- <-] Heq. discriminate Heq.
        -- apply axios_buffer_no_JsError.
        -- intros [= <- <-] Heq. discriminate Heq.
      * destruct (Http.status r0 =? 200) eqn:H200; [by intros [= <- <-]|].
        cbn in Hvalid. congruence.
    + intros [= <- <-]. apply (axios_buffer_no_JsError _ _ _ _ _ _ Hget).
    + by intros [= <- <-].
Qed.

(** The "Unexpected status code" branches of [pullBlob] and
    [pullBlobWithRedirect] cannot be reached: [validateStatus] has already
    rejected every status that would lead there, so neither function ever
    throws that error. *)
Theorem pull_never_reports_unexpected_status (msg : string) :
  (forall (autoRedirect : bool) (repository digest : string) st
          (o : outcome Client.Layer) st',
      ClientMore.pullBlob self contentEncoding autoRedirect repository digest st = (o, st') ->
      o <> Throw (JsError ("Unexpected status code " +:+ msg)))
  /\ (forall (url : string) (headers : list (string * string)) st
             (o : outcome Http.Response) st',
        ClientMore.pullBlobWithRedirect self url headers st = (o, st') ->
        o <> Throw (JsError ("Unexpected status code " +:+ msg))).
Proof.
  split.
  - intros autoRedirect repository digest st o st'.
    unfold ClientMore.pullBlob, bind at 1.
    destruct (ClientMore.pullBlob_response _ _ _ _ st) as [[res|e|] st1] eqn:Hres;
      [by intros [= <- <-] | | by intros [= <- <-]].
    intros [= <- <-] [= ->].
    by apply (pullBlob_response_expected _ _ _ _ _ _ msg Hres).
  - intros url headers st o st'. unfold ClientMore.pullBlobWithRedirect, try_catch.
    set (m := bind _ _). destruct (m st) as [o1 st1] eqn:Hm.
    assert (Hno : o1 <> Throw (JsError ("Unexpected status code " +:+ msg))).
    { revert Hm. unfold m, bind.
      destruct (ClientMore.axios_buffer _ _ st) as [[r0|e0|] st0] eqn:Hget.
      - apply axios_buffer_valid in Hget as Hvalid. cbv beta in Hvalid.
        destruct (Http.status r0 =? 200) eqn:H200; [by intros [= <- <-]|].
        destruct (Http.status r0 =? 307) eqn:H307; [|done].
        destruct (Http.location r0) as [[|a l]|].
        + intros [= <- <-] Heq. discriminate Heq.
        + apply axios_buffer_no_JsError.
        + intros [= <- <-] Heq. discriminate Heq.
      - intros [= <- <-]. apply (axios_buffer_no_JsError _ _ _ _ _ _ Hget).
      - by intros [= <- <-]. }
    destruct o1 as [res|e|]; intros [= <- <-]; done.
Qed.

(** [streamBlobchunk] has one return value: whenever it returns, it
    returns [true]. It opens the upload session first, so its first request
    is the POST to the destination, whatever becomes of the pull. *)
Theorem streamBlobchunk_only_returns_true
    (sourceRepository digest destinationRepository : string) st (o : outcome bool) st' :
  ClientMore.streamBlobchunk self sourceRepository digest destinationRepository st = (o, st') ->
  (forall b, o = Ok b -> b = true)
  /\ exists t, trace st' = trace st
       ++ EvRequest (Client.req self Http.POST
                       ("/v2/" +:+ destinationRepository +:+ "/blobs/uploads/")
                       [("Content-Length", "0")] (Some 0) Http.BNone) :: t.
Proof.
  unfold ClientMore.streamBlobchunk. intros Hrun. split.
  - intros b ->.
    apply bind_Ok in Hrun as (response & st1 & _ & Hrun).
    apply bind_Ok in Hrun as (initial & st2 & _ & Hrun).
    apply bind_Ok in Hrun as (blobStream & st3 & _ & Hrun).
    apply bind_Ok in Hrun as (putResponse & st4 & _ & Hrun).
    destruct (negb (Http.intact blobStream)); [done|].
    destruct (Http.status putResponse =? 201) eqn:H201; [|done].
    by injection Hrun as <- _.
  - unfold bind at 1 in Hrun.
    destruct (axios _ _ st) as [[response|e|] st1] eqn:Hpost;
      apply axios_trace in Hpost as [Hpost _].
    + set (rest := bind _ _) in Hrun.
      assert (Hrest : emits (fun _ => True) rest).
      { unfold rest. repeat first
          [ apply emits_send; exact I | apply emits_axios; exact I | run_step ]. }
      destruct (Hrest _ _ _ Hrun) as (t & Ht & _).
      exists t. by rewrite Ht, Hpost, <- app_assoc.
    + injection Hrun as <- <-. by exists [].
    + injection Hrun as <- <-. by exists [].
Qed.

End ClientMoreFacts.

Lemma constructor_throws_exactly_when_witness :
  let no_auth :=
    ClientSetup.mkRegistryClientOptions "https://registry.example" (Some "admin") None
      (Some tt) None None None in
  let no_slot :=
    ClientSetup.mkRegistryClientOptions "https://registry.example" (Some "admin")
      (Some "secret") (Some tt) None (Some 0) None in
  ClientSetup.constructor (fun s => s) no_auth None = inl TypeError
  /\ ClientSetup.constructor (fun s => s) no_slot None = inl TypeError.
Proof.
  intros no_auth no_slot. split.
  - destruct (constructor_throws_exactly_when unit (fun s => s) no_auth None) as [Hiff Herr].
    destruct (proj2 Hiff) as [e He]; [left; split; reflexivity|].
    rewrite He. f_equal. by apply Herr.
  - destruct (constructor_throws_exactly_when unit (fun s => s) no_slot None) as [Hiff Herr].
    destruct (proj2 Hiff) as [e He]; [right; exists 0; split; [reflexivity|lia]|].
    rewrite He. f_equal. by apply Herr.
Defined.

Lemma docker_auth_first_match_decides_witness :
  ClientSetup.getAuthFromDockerConfig
    (Some (ClientSetup.mkDockerConfig
             (Some [ ("quay.io", Some "cXVheQ==");
                     ("", None);
                     ("registry.example", Some "YWRtaW46cGFzcw==") ])))
    "https://registry.example"
  = inr None.
Proof.
  apply (docker_auth_first_match_decides [("quay.io", Some "cXVheQ==")] "" None
           [("registry.example", Some "YWRtaW46cGFzcw==")] "https://registry.example").
  - apply Forall_cons. split; [reflexivity | apply Forall_nil_2].
  - reflexivity.
Defined.

Lemma tagImage_republishes_unchanged_witness :
  let st := Sim.start (Sim.calm (Sim.registry None None)) in
  let st' := (ClientMore.tagImage Sim.options Cases.as_body "app" "1.0" "stable" st).2 in
  exists t, trace st' = trace st ++ t /\ manifests_put t = [Sim.src_manifest].
Proof.
  intros st st'.
  destruct (tagImage_republishes_unchanged Sim.options Cases.as_body "app" "1.0" "stable"
              Sim.src_manifest st (Client.getImageManifest Sim.options "app" "1.0" st).2 st')
    as [_ Hput].
  - reflexivity.
  - vm_compute. reflexivity.
  - vm_compute. reflexivity.
  - exact Hput.
Defined.

Lemma pull_never_reports_unexpected_status_witness :
  let srv := fun _ : Http.Request => Some (Sim.response 404 Http.JNone Sim.no_body) in
  let st := Sim.start (Sim.calm srv) in
  (ClientMore.pullBlob Sim.options Cases.no_encoding false "app" "sha256:a1" st).1
  <> Throw (JsError ("Unexpected status code " +:+ "404 when pulling blob"))
  /\ (ClientMore.pullBlob Sim.options Cases.no_encoding false "app" "sha256:a1" st).1
     = Throw (BadStatus 404).
Proof.
  intros srv st. split; [|vm_compute; reflexivity].
  destruct (pull_never_reports_unexpected_status Sim.options Cases.no_encoding
              "404 when pulling blob") as [Hpull _].
  apply (Hpull false "app" "sha256:a1" st _
           (ClientMore.pullBlob Sim.options Cases.no_encoding false "app" "sha256:a1" st).2).
  apply surjective_pairing.
Defined.

Lemma streamBlobchunk_only_returns_true_witness :
  let st := Sim.start (Sim.calm (Sim.registry None None)) in
  (ClientMore.streamBlobchunk Sim.options "src/app" "sha256:a1" "dst/app" st).1 = Ok true.
Proof.
  intros st.
  destruct (streamBlobchunk_only_returns_true Sim.options "src/app" "sha256:a1" "dst/app" st
              (ClientMore.streamBlobchunk Sim.options "src/app" "sha256:a1" "dst/app" st).1
              (ClientMore.streamBlobchunk Sim.options "src/app" "sha256:a1" "dst/app" st).2)
    as [Htrue _].
  - apply surjective_pairing.
  - assert (Hok : exists b,
               (ClientMore.streamBlobchunk Sim.options "src/app" "sha256:a1" "dst/app" st).1
               = Ok b) by (eexists; vm_compute; reflexivity).
    destruct Hok as (b & Hb). rewrite Hb. f_equal. by apply Htrue.
Defined.

(** ** The other writers *)

Section SaveImageExtras.
Import SaveImage.
Variable sha256hex : Buffer -> string.
Variable gzipSync : Buffer -> Buffer.
Variable stringify : OCIManifest -> Buffer.

Local Abbreviation stored useGzip := (fun layer : Buffer => (layerData gzipSync useGzip layer).1).

Lemma gzip_loop_arrays (ls : list Buffer) (st : SaveImageMore.GzipLoopState) :
  let st' := fold_left (SaveImageMore.gzip_step sha256hex gzipSync) ls st in
  SaveImageMore.layerDigests st'
    = SaveImageMore.layerDigests st ++ ((fun l => sha256hex (gzipSync l)) <$> ls)
  /\ SaveImageMore.compressedLayers st' = SaveImageMore.compressedLayers st ++ (gzipSync <$> ls)
  /\ SaveImageMore.dir st' = write_all sha256hex (gzipSync <$> ls) (SaveImageMore.dir st).
Proof.
  revert st. induction ls as [|layer ls IH]; intros st.
  - cbn. by rewrite !app_nil_r.
  - destruct (IH (SaveImageMore.gzip_step sha256hex gzipSync st layer)) as (Hd & Hc & Hdir).
    cbn [fold_left fmap list_fmap]. rewrite Hd, Hc, Hdir. cbn. by rewrite <- !app_assoc.
Qed.

Lemma gzip_descriptors (dir1 : gmap string Buffer) (ls : list Buffer) :
  let st := fold_left (SaveImageMore.gzip_step sha256hex gzipSync) ls
              (SaveImageMore.mkGzipLoopState [] [] dir1) in
  mapM (fun '(i, d) => SaveImageMore.gzip_descriptor st i d)
    (imap pair (SaveImageMore.layerDigests st))
  = Some (descriptor_of sha256hex gzipSync (Some true) <$> ls).
Proof.
  destruct (gzip_loop_arrays ls (SaveImageMore.mkGzipLoopState [] [] dir1)) as (Hd & Hc & _).
  cbn in *. apply mapM_Some, Forall2_same_length_lookup. split.
  - by rewrite length_imap, Hd, !length_fmap.
  - intros i [j d] desc Hi Hdesc.
    rewrite list_lookup_imap, Hd, list_lookup_fmap in Hi.
    rewrite list_lookup_fmap in Hdesc.
    destruct (ls !! i) as [layer|] eqn:Hl; cbn in *; [|done].
    injection Hi as <- <-. injection Hdesc as <-.
    unfold SaveImageMore.gzip_descriptor. rewrite Hc, list_lookup_fmap, Hl. done.
Qed.

(** [saveAsOCIImageLayoutWithgzip] is [saveAsOCIImageLayout] with [useGzip]
    set: on every image and directory the two write the same manifest, the
    same blobs and the same index. *)
Theorem gzip_writer_agrees (image : Image) (dir0 : gmap string Buffer) (meta : Meta) :
  SaveImageMore.saveAsOCIImageLayoutWithgzip sha256hex gzipSync stringify image dir0 meta
  = saveAsOCIImageLayout sha256hex gzipSync stringify image dir0 meta (Some true).
Proof.
  unfold SaveImageMore.saveAsOCIImageLayoutWithgzip, saveAsOCIImageLayout. cbn.
  rewrite gzip_descriptors, layer_descriptors_loop. cbn.
  destruct (gzip_loop_arrays (img_layers image)
              (SaveImageMore.mkGzipLoopState [] []
                 (<[sha256hex (img_config image) := img_config image]> dir0)))
    as (_ & _ & ->).
  by rewrite loop_dir.
Qed.

(** What a run of writes leaves under a name does not depend on the
    directory it started from, unless it leaves what was there. *)
Lemma write_all_lookup (bs : list Buffer) (name : string) :
  (exists b, forall d, write_all sha256hex bs d !! name = Some b)
  \/ (forall d, write_all sha256hex bs d !! name = d !! name).
Proof.
  induction bs as [|b bs IH]; [by right|].
  destruct IH as [(b' & Hb')|Hkeep].
  - left. exists b'. intros d. apply Hb'.
  - destruct (decide (sha256hex b = name)) as [<-|Hne].
    + left. exists b. intros d. rewrite write_all_cons, Hkeep. apply lookup_insert_eq.
    + right. intros d. rewrite write_all_cons, Hkeep. by apply lookup_insert_ne.
Qed.

Lemma write_all_twice (bs : list Buffer) (d : gmap string Buffer) :
  write_all sha256hex bs (write_all sha256hex bs d) = write_all sha256hex bs d.
Proof.
  apply map_eq. intros name.
  destruct (write_all_lookup bs name) as [(b & Hb)|Hkeep]; [by rewrite !Hb|by rewrite Hkeep].
Qed.

(** Exporting an image again into the directory it was exported to
    changes nothing: the same manifest comes back and the layout is the
    one that was there. *)
Theorem saveAsOCIImageLayout_again (image : Image) (dir0 : gmap string Buffer) (meta : Meta)
    (useGzip : option bool) (m : OCIManifest) (out : Layout) :
  saveAsOCIImageLayout sha256hex gzipSync stringify image dir0 meta useGzip = Some (m, out) ->
  saveAsOCIImageLayout sha256hex gzipSync stringify image (blobs out) meta useGzip
  = Some (m, out).
Proof.
  unfold saveAsOCIImageLayout. cbn. rewrite !layer_descriptors_loop. cbn.
  intros [= <- <-]. cbn [blobs] in *. do 3 f_equal.
  set (mb := stringify _) in *.
  set (bs := img_config image :: (stored useGzip <$> img_layers image) ++ [mb]) in *.
  assert (Hagain : forall d,
             <[sha256hex mb := mb]>
               (dir (loop sha256hex gzipSync useGzip
                       (mkLoopState [] [] []
                          (<[sha256hex (img_config image) := img_config image]> d))
                       (img_layers image)))
             = write_all sha256hex bs d).
  { intros d. rewrite loop_dir. unfold bs. by rewrite write_all_cons, write_all_app. }
  rewrite !Hagain. apply write_all_twice.
Qed.

(** ** [saveAsDockerTar] *)

Lemma pack_layers_spec (ls : list Buffer) :
  forall (i : nat) (entries : list SaveImageMore.Entry) (layers : list string),
    let packed := SaveImageMore.pack_layers sha256hex i ls entries layers in
    packed.2 = layers ++ (layer_path sha256hex <$> ls)
    /\ length packed.1 = (length entries + 3 * length ls)%nat
    /\ (forall e, e ∈ entries -> e ∈ packed.1)
    /\ (forall layer, layer ∈ ls ->
          SaveImageMore.mkEntry (layer_path sha256hex layer) (SaveImageMore.Bytes layer)
          ∈ packed.1).
Proof.
  induction ls as [|l ls IH]; intros i entries layers.
  - cbn. rewrite app_nil_r. split; [done|]. split; [lia|]. split; [done|].
    intros layer Hin. by apply elem_of_nil in Hin.
  - cbn [SaveImageMore.pack_layers SaveImageMore.layer_entries].
    destruct (IH (S i)
                (entries ++ [ SaveImageMore.mkEntry (String.substring 0 12 (sha256hex l) +:+ "/VERSION")
                                (SaveImageMore.Text "1.0");
                              SaveImageMore.mkEntry (String.substring 0 12 (sha256hex l) +:+ "/json")
                                (SaveImageMore.LayerJson ("layer-" +:+ pretty (Z.of_nat i)));
                              SaveImageMore.mkEntry (String.substring 0 12 (sha256hex l) +:+ "/layer.tar")
                                (SaveImageMore.Bytes l) ])
                (layers ++ [String.substring 0 12 (sha256hex l) +:+ "/layer.tar"]))
      as (Hpaths & Hlen & Hkeep & Hlayers).
    cbv zeta. split; [|split; [|split]].
    + rewrite Hpaths, <- app_assoc. reflexivity.
    + rewrite Hlen, length_app. cbn. lia.
    + intros e He. apply Hkeep, elem_of_app. by left.
    + intros layer Hin. apply elem_of_cons in Hin as [->|Hin]; [|by apply Hlayers].
      apply Hkeep, elem_of_app. right.
      apply list_elem_of_further, list_elem_of_further, list_elem_of_here.
Qed.

(** The archive that [saveAsDockerTar] packs is consistent with its own
    [manifest.json]: it has three entries per layer and three more; the
    manifest lists one path per layer, in order, and the archive holds an
    entry with that layer's bytes under that path; [Config] names the
    entry that holds the config. *)
Theorem docker_tar_resolves_its_manifest (image : Image) (meta : Meta) :
  let entries := SaveImageMore.saveAsDockerTar sha256hex image meta in
  let configFilename := sha256hex (img_config image) +:+ ".json" in
  length entries = (3 * length (img_layers image) + 3)%nat
  /\ SaveImageMore.mkEntry "manifest.json"
       (SaveImageMore.ManifestJson configFilename [repository meta +:+ ":" +:+ tag meta]
          (layer_path sha256hex <$> img_layers image)) ∈ entries
  /\ SaveImageMore.mkEntry configFilename (SaveImageMore.Bytes (img_config image)) ∈ entries
  /\ Forall (fun layer =>
         SaveImageMore.mkEntry (layer_path sha256hex layer) (SaveImageMore.Bytes layer)
         ∈ entries) (img_layers image).
Proof.
  unfold SaveImageMore.saveAsDockerTar.
  destruct (pack_layers_spec (img_layers image) 0 [] []) as (Hpaths & Hlen & _ & Hlayers).
  destruct (SaveImageMore.pack_layers sha256hex 0 (img_layers image) [] [])
    as [entries layers]. cbn in Hpaths, Hlen, Hlayers. subst layers. cbv zeta.
  split; [rewrite length_app, Hlen; cbn; lia|].
  split; [apply elem_of_app; right; apply list_elem_of_further, list_elem_of_here|].
  split; [apply elem_of_app; right; apply list_elem_of_here|].
  apply Forall_forall. intros layer Hin. apply elem_of_app. left. by apply Hlayers.
Qed.

Lemma substring_lacks (c : ascii) (m : nat) (s : string) :
  occurs c s = false -> occurs c (String.substring 0 m s) = false.
Proof.
  revert s. induction m as [|m IH]; intros [|a r] Hc; cbn in *; try done.
  apply orb_false_elim in Hc as [Ha Hc]. by rewrite Ha, IH.
Qed.

Lemma replace_str_suffix (s : string) :
  occurs "/" s = false ->
  SaveImageMore.replace_str "/layer.tar" "" (s +:+ "/layer.tar") = s.
Proof.
  induction s as [|a r IH]; intros Hc; [reflexivity|].
  cbn in Hc. apply orb_false_elim in Hc as [Ha Hc].
  rewrite append_cons. cbn [SaveImageMore.replace_str String.prefix].
  destruct (ascii_dec "/" a) as [<-|Hne]; [done|]. by rewrite IH.
Qed.

(** The [repositories] entry points at the directory of the last layer,
    and at nothing when the image has no layer (sha256 digests being
    hexadecimal, they hold no slash). *)
Theorem docker_tar_repositories (image : Image) (meta : Meta) :
  (forall b, occurs "/" (sha256hex b) = false) ->
  SaveImageMore.mkEntry "repositories"
    (SaveImageMore.RepositoriesJson (repository meta) (tag meta)
       (match last (img_layers image) with
        | Some layer => String.substring 0 12 (sha256hex layer)
        | None => ""
        end))
  ∈ SaveImageMore.saveAsDockerTar sha256hex image meta.
Proof.
  intros Hhex. unfold SaveImageMore.saveAsDockerTar.
  destruct (pack_layers_spec (img_layers image) 0 [] []) as (Hpaths & _).
  destruct (SaveImageMore.pack_layers sha256hex 0 (img_layers image) [] [])
    as [entries layers]. cbn in Hpaths. subst layers.
  apply elem_of_app. right. do 2 apply list_elem_of_further.
  unfold SaveImageMore.last_layer_dir. rewrite fmap_last.
  destruct (last (img_layers image)) as [layer|]; cbn; [|apply list_elem_of_here].
  unfold layer_path. rewrite replace_str_suffix; [apply list_elem_of_here|].
  apply substring_lacks, Hhex.
Qed.

End SaveImageExtras.

Lemma saveAsOCIImageLayout_again_witness :
  let save dir :=
    SaveImage.saveAsOCIImageLayout Sim.digest_of Sim.gzip_of Cases.manifest_bytes
      Cases.image dir Cases.meta None in
  exists m out, save ∅ = Some (m, out) /\ save (SaveImage.blobs out) = Some (m, out).
Proof.
  intros save.
  destruct (save ∅) as [[m out]|] eqn:Hrun; [|vm_compute in Hrun; discriminate Hrun].
  exists m, out. split; [reflexivity|].
  apply (saveAsOCIImageLayout_again Sim.digest_of Sim.gzip_of Cases.manifest_bytes
           Cases.image ∅ Cases.meta None m out Hrun).
Defined.

Lemma docker_tar_repositories_witness :
  SaveImageMore.mkEntry "repositories" (SaveImageMore.RepositoriesJson "app" "1.0" "9f86d081884c")
  ∈ SaveImageMore.saveAsDockerTar Cases.two_hashes Cases.image Cases.meta.
Proof.
  apply (docker_tar_repositories Cases.two_hashes Cases.image Cases.meta).
  intros b. destruct b; reflexivity.
Defined.

Lemma docker_tar_resolves_its_manifest_witness :
  let entries := SaveImageMore.saveAsDockerTar Cases.two_hashes Cases.image Cases.meta in
  length entries = 9%nat
  /\ SaveImageMore.mkEntry "9f86d081884c/layer.tar" (SaveImageMore.Bytes [x01; x02; x03])
     ∈ entries.
Proof.
  intros entries.
  destruct (docker_tar_resolves_its_manifest Cases.two_hashes Cases.image Cases.meta)
    as (Hlen & _ & _ & Hlayers).
  split; [exact Hlen|].
  apply Forall_cons in Hlayers as [Hfirst _]. exact Hfirst.
Defined.

Lemma gzip_writer_agrees_witness :
  SaveImageMore.saveAsOCIImageLayoutWithgzip Sim.digest_of Sim.gzip_of Cases.manifest_bytes
    Cases.image ∅ Cases.meta
  = SaveImage.saveAsOCIImageLayout Sim.digest_of Sim.gzip_of Cases.manifest_bytes
      Cases.image ∅ Cases.meta (Some true).
Proof.
  apply (gzip_writer_agrees Sim.digest_of Sim.gzip_of Cases.manifest_bytes Cases.image ∅
           Cases.meta).
Defined.

(** ** The registry client: redirects, upload sessions, the sync *)

Section ClientExtras.
Context {W : Type} `{Host W}.
Variable self : Client.Options.
Variable fuel : nat.
Implicit Types (st : State W).

(** [bind] once the first step is known, whatever its outcome. *)
Lemma bind_steps' {A B : Type} (m : M W A) (k : A -> M W B) st (r : outcome A * State W) :
  m st = r ->
  bind m k st = match r with
                | (Ok a, st1) => k a st1
                | (Throw e, st1) => (Throw e, st1)
                | (Pending, st1) => (Pending, st1)
                end.
Proof. intros <-. reflexivity. Qed.

(** A redirect costs one more request: a GET of the [Location] as it
    stands, without the base URL and without any header of the instance.
    What the pull hands on is the stream of that second response and the
    size read off its [Content-Length]; a second response outside 2xx makes
    the pull throw. *)
Theorem pullBlobAsStream_follows_one_redirect
    (repository digest : string) st st1 (response : Http.Response) (w1 : W)
    (location : string) (redirected : Http.Response) (w2 : W) :
  Client.gate self fuel st = (Ok tt, st1) ->
  http (blob_get self repository digest) (world st1) = (Some response, w1) ->
  Http.status response = 302 \/ Http.status response = 307 ->
  Http.location response = Some location -> location <> "" ->
  http (bare_get location) w1 = (Some redirected, w2) ->
  Client.pullBlobAsStream self fuel repository digest st
  = (if status_2xx (Http.status redirected)
     then Ok (mkPulledBlob (Http.stream redirected) digest (announced_size redirected))
     else Throw (BadStatus (Http.status redirected)),
     mkState w2
       (trace st1 ++ [EvRequest (blob_get self repository digest);
                      EvRequest (bare_get location)])
       (tmp st1)).
Proof.
  intros Hgate Hhttp Hstatus Hloc Hne Hsecond.
  unfold Client.pullBlobAsStream, Client.waitForMemoryAvailability.
  rewrite (bind_steps _ _ _ _ _ Hgate).
  pose proof (axios_run (fun s => (s =? 200) || (s =? 302) || (s =? 307)) _ _ _ _ Hhttp)
    as Hget.
  unfold blob_get in Hget.
  assert (Hvalid : (Http.status response =? 200) || (Http.status response =? 302)
                   || (Http.status response =? 307) = true)
    by (destruct Hstatus as [-> | ->]; reflexivity).
  rewrite Hvalid in Hget. rewrite (bind_steps _ _ _ _ _ Hget).
  assert (Hredirect : Client.redirect_status (Http.status response) = true)
    by (destruct Hstatus as [-> | ->]; reflexivity).
  rewrite Hredirect, Hloc. destruct location as [|a l]; [done|].
  pose proof (axios_run status_2xx (bare_get (String a l))
                (mkState w1 (trace st1 ++ [EvRequest (blob_get self repository digest)])
                   (tmp st1)) _ _ Hsecond) as Hfollow.
  unfold bare_get, blob_get in Hfollow. rewrite (bind_steps' _ _ _ _ Hfollow).
  unfold blob_get, bare_get. cbn. rewrite <- app_assoc. by destruct (status_2xx _).
Qed.

(** [uploadBlob] takes the upload location from the body of the session
    response alone. When that body carries none, the blob is PUT to
    [undefined&digest=...], even if the response has a [Location] header
    (which [startBlobUpload] would have used). *)
Theorem uploadBlob_reads_the_body_only
    (repository : string) (blob : Buffer) (digest : string) st
    (response : Http.Response) (w1 : W) :
  http (Client.req self Http.POST ("/v2/" +:+ repository +:+ "/blobs/uploads/")
          [("Content-Length", "0")] (Some 0) Http.BNone) (world st)
    = (Some response, w1) ->
  Http.status response = 202 ->
  exists (o : outcome unit) st',
    Client.uploadBlob self repository blob digest st = (o, st')
    /\ trace st' = trace st
         ++ upload_requests self repository (body_location response) blob digest.
Proof.
  intros Hhttp Hstatus. unfold Client.uploadBlob.
  pose proof (axios_run (fun s => s =? 202) _ _ _ _ Hhttp) as Hpost.
  rewrite Hstatus in Hpost. cbn [Z.eqb Pos.eqb] in Hpost.
  rewrite (bind_steps _ _ _ _ _ Hpost).
  fold (body_location response).
  set (put := Client.req self Http.PUT (body_location response +:+ "&digest=" +:+ digest)
                [("Content-Type", OCTET_STREAM);
                 ("Content-Length", pretty (Z.of_nat (length blob)))]
                (Some 0) (Http.BBuffer blob)).
  set (st1 := mkState w1 _ (tmp st)).
  destruct (axios status_2xx put st1) as [o2 st2] eqn:Hput.
  rewrite (bind_steps' _ _ _ _ Hput). apply axios_trace in Hput as [Hput _].
  cbn in Hput. rewrite <- app_assoc in Hput.
  destruct o2 as [r2|e|]; by eexists _, _.
Qed.

(** In the client's sync the manifest PUT is the last request: whatever
    the outcome, what was issued before it PUTs no manifest, and a failure
    before it leaves the destination without a manifest. *)
Theorem client_sync_puts_the_manifest_last
    (sourceRepo sourceTag destRepo destTag : string) st (o : outcome unit) st' :
  Client.syncImageWithBuffer self fuel sourceRepo sourceTag destRepo destTag st = (o, st') ->
  exists t, trace st' = trace st ++ t
    /\ ((failed o /\ manifests_put t = [])
        \/ exists t0 doc,
             t = t0 ++ [EvRequest (Client.put_manifest_request self destRepo destTag doc)]
             /\ manifests_put t0 = []).
Proof.
  unfold Client.syncImageWithBuffer. intros Hrun.
  assert (Hq0 : emits quiet (Client.getImageManifest (W := W) self sourceRepo sourceTag))
    by (unfold Client.getImageManifest; emits_auto).
  unfold bind at 1 in Hrun.
  destruct (Client.getImageManifest self sourceRepo sourceTag st) as [o0 st0] eqn:Hget.
  destruct (emits_quiet_run _ _ _ _ Hq0 Hget) as (t0 & Ht0 & Hn0).
  destruct o0 as [[|source|loc]|e|];
    try (injection Hrun as <- <-; exists t0; split; [done|]; by left).
  destruct (config source) as [cfg|];
    [|injection Hrun as <- <-; exists t0; split; [done|]; by left].
  unfold bind at 1 in Hrun.
  destruct (Client.pullBlobAsStream self fuel sourceRepo (digest cfg) st0)
    as [o1 st1] eqn:Hpull.
  destruct (emits_quiet_run _ _ _ _ (client_pull_quiet self fuel _ _) Hpull)
    as (t1 & Ht1 & Hn1).
  assert (Hn01 : manifests_put (t0 ++ t1) = []) by (by rewrite manifests_put_app, Hn0, Hn1).
  assert (Ht01 : trace st1 = trace st ++ t0 ++ t1) by (by rewrite Ht1, Ht0, <- app_assoc).
  clear Ht0 Ht1 Hn0 Hn1 Hget Hpull.
  destruct o1 as [pulled|e|];
    try (injection Hrun as <- <-; exists (t0 ++ t1); split; [done|]; by left).
  unfold bind at 1 in Hrun.
  destruct (Client.pushBlobStream self fuel destRepo (digest cfg) (pb_stream pulled)
              (pb_size pulled) st1) as [o2 st2] eqn:Hpush.
  destruct (emits_quiet_run _ _ _ _ (client_push_quiet self fuel _ _ _ _) Hpush)
    as (t2 & Ht2 & Hn2).
  assert (Hn02 : manifests_put ((t0 ++ t1) ++ t2) = [])
    by (by rewrite manifests_put_app, Hn01, Hn2).
  assert (Ht02 : trace st2 = trace st ++ (t0 ++ t1) ++ t2)
    by (by rewrite Ht2, Ht01, <- !app_assoc).
  clear Ht01 Ht2 Hn01 Hn2 Hpush.
  destruct o2 as [[]|e|];
    try (injection Hrun as <- <-; eexists; split; [exact Ht02|]; by left).
  destruct (layers source) as [ls|];
    [|injection Hrun as <- <-; eexists; split; [exact Ht02|]; by left].
  unfold bind at 1 in Hrun.
  set (loop := for_of ls _) in Hrun.
  assert (Hq3 : emits quiet loop).
  { unfold loop. pose proof (client_pull_quiet self fuel).
    pose proof (client_push_quiet self fuel). emits_auto. }
  destruct (loop st2) as [o3 st3] eqn:Hloop.
  destruct (emits_quiet_run _ _ _ _ Hq3 Hloop) as (t3 & Ht3 & Hn3).
  assert (Hn03 : manifests_put (((t0 ++ t1) ++ t2) ++ t3) = [])
    by (by rewrite manifests_put_app, Hn02, Hn3).
  assert (Ht03 : trace st3 = trace st ++ ((t0 ++ t1) ++ t2) ++ t3)
    by (by rewrite Ht3, Ht02, <- !app_assoc).
  clear Ht02 Ht3 Hn02 Hn3 Hloop Hq3.
  destruct o3 as [[]|e|];
    try (injection Hrun as <- <-; eexists; split; [exact Ht03|]; by left).
  set (doc := mkManifestDoc _ _ _ _ _) in Hrun.
  destruct (axios status_2xx (Client.put_manifest_request self destRepo destTag doc) st3)
    as [o4 st4] eqn:Hput.
  rewrite (bind_steps' _ _ _ _ Hput) in Hrun. apply axios_trace in Hput as [Hput _].
  assert (st' = st4) as -> by (destruct o4; by injection Hrun).
  eexists. split; [by rewrite Hput, Ht03, <- app_assoc|].
  right. by eexists _, _.
Qed.

End ClientExtras.

Lemma pullBlobAsStream_follows_one_redirect_witness :
  let st := Sim.start (Sim.calm Cases.redirecting) in
  Client.pullBlobAsStream Sim.options 3 "app" "sha256:a1" st
  = (Ok (mkPulledBlob (Http.mkStream Sim.blob_bytes true) "sha256:a1" (JS.Num 3)),
     mkState (world st)
       [EvRequest (blob_get Sim.options "app" "sha256:a1"); EvRequest (bare_get Cases.CDN)] ∅).
Proof.
  intros st.
  apply (pullBlobAsStream_follows_one_redirect Sim.options 3 "app" "sha256:a1" st st
           (Http.mkResponse 307 (Some Cases.CDN) None None None Http.JNone Sim.no_body)
           (world st) Cases.CDN
           (Http.mkResponse 200 None (Some "3") None None Http.JNone
              (Http.mkStream Sim.blob_bytes true)) (world st)).
  - reflexivity.
  - reflexivity.
  - right. reflexivity.
  - reflexivity.
  - intros Heq. discriminate Heq.
  - reflexivity.
Defined.

Lemma uploadBlob_reads_the_body_only_witness :
  let srv := Cases.serving Sim.src_manifest None None 202 (Some Cases.SESSION) in
  let st := Sim.start (Sim.calm srv) in
  exists (o : outcome unit) (st' : State Sim.World),
    Client.uploadBlob Sim.options "app" [x01] "sha256:01" st = (o, st')
    /\ trace st' = upload_requests Sim.options "app" "undefined" [x01] "sha256:01".
Proof.
  intros srv st.
  apply (uploadBlob_reads_the_body_only Sim.options "app" [x01] "sha256:01" st
           (Http.mkResponse 202 (Some Cases.SESSION) None None None Http.JNone Sim.no_body)
           (world st)).
  - reflexivity.
  - reflexivity.
Defined.

Lemma client_sync_puts_the_manifest_last_witness :
  let st := Sim.start (Sim.calm (Sim.registry (Some "3") (Some "sha256:a1"))) in
  let ran := Client.syncImageWithBuffer Sim.options 3 "src/app" "1.0" "dst/app" "1.0" st in
  failed ran.1 /\ manifests_put (trace ran.2) = [].
Proof.
  intros st ran.
  destruct (client_sync_puts_the_manifest_last Sim.options 3 "src/app" "1.0" "dst/app" "1.0"
              st ran.1 ran.2) as (t & Htrace & Hcases).
  - apply surjective_pairing.
  - split; [vm_compute; exact I|]. rewrite Htrace.
    destruct Hcases as [[_ Hnone]|(t0 & doc & -> & Hnone)]; [exact Hnone|].
    exfalso.
    assert (Hlast : last (trace ran.2)
                    = Some (EvRequest (Client.put_manifest_request Sim.options "dst/app" "1.0" doc)))
      by (rewrite Htrace, app_assoc; apply last_snoc).
    vm_compute in Hlast. discriminate Hlast.
Defined.

(** ** The earlier results, run *)

Lemma copyImage_v1_republishes_source_witness :
  let st := Sim.start (Sim.calm (Sim.registry (Some "3") None)) in
  exists t,
    trace (RegistryCopy.copyImage_v1 1 Cases.src Cases.dest st).2 = trace st ++ t
    /\ manifests_put t = [Sim.src_manifest].
Proof.
  intros st.
  apply (copyImage_v1_republishes_source Cases.src Cases.dest 0 st
           (RegistryCopy.mkFetched Sim.src_manifest DOCKER_MANIFEST_V2 "")
           (RegistryCopy.fetchManifest Cases.src st).2).
  - vm_compute. reflexivity.
  - reflexivity.
  - vm_compute. reflexivity.
Defined.

Lemma client_sync_republishes_witness :
  let st := Sim.start (Sim.calm (Cases.serving Cases.windows_manifest
                                   (Some DOCKER_MANIFEST_V2) (Some "3") 202
                                   (Some Cases.SESSION))) in
  let st' := (Client.syncImageWithBuffer Sim.options 3 "src/app" "1.0" "dst/app" "1.0" st).2 in
  exists (republished : ManifestDoc) (ls' : list Descriptor),
    manifests_put (trace st') = [republished]
    /\ layers republished = Some ls'
    /\ Forall2 reduced_from [Cases.foreign_layer; Sim.src_layer] ls'
    /\ others Cases.foreign_layer <> [].
Proof.
  intros st st'.
  destruct (client_sync_republishes Sim.options 3 "src/app" "1.0" "dst/app" "1.0" st st')
    as (source & cfg & ls & st0 & pulled & st1 & Hget & _ & Hls & _
        & t & republished & ls' & Htrace & Hput & _ & _ & _ & Hlayers & Hreduced & _).
  - vm_compute. reflexivity.
  - assert (Hsource : (Ok (Http.JManifest source), st0)
                      = (Ok (Http.JManifest Cases.windows_manifest),
                         (Client.getImageManifest Sim.options "src/app" "1.0" st).2))
      by (rewrite <- Hget; vm_compute; reflexivity).
    injection Hsource as -> _. injection Hls as <-.
    exists republished, ls'. rewrite Htrace. split; [exact Hput|].
    split; [exact Hlayers|]. split; [exact Hreduced | discriminate].
Defined.

Lemma tarball_failure_leaves_config_file_witness :
  let st := Sim.start (Sim.calm (Sim.registry (Some "3") (Some "sha256:a1"))) in
  let st' := (RegistryService.syncImageWithTarball "/app/tmp" 3 "https://src.example" "app" "1.0"
                "https://dst.example" "app" "1.0" st).2 in
  is_Some (tmp st' !! RegistryService.blob_path "/app/tmp" "sha256:c0").
Proof.
  intros st st'.
  pose (r0 := RegistryService.fetch_source 3 "Tarball" "https://src.example" "app" "1.0"
                "https://dst.example" "app" "1.0" st).
  pose (r1 := RegistryService.downloadBlobToFile "https://src.example" "app" "sha256:c0"
                (RegistryService.blob_path "/app/tmp" "sha256:c0") r0.2).
  apply (tarball_failure_leaves_config_file "/app/tmp" 3 "https://src.example" "app" "1.0"
           "https://dst.example" "app" "1.0" st (Http.JManifest Sim.src_manifest) r0.2
           Sim.src_manifest "sha256:c0" r1.2 (Throw (BadStatus 404)) st').
  - vm_compute. reflexivity.
  - reflexivity.
  - vm_compute. reflexivity.
  - vm_compute. reflexivity.
  - exact I.
Defined.
